(** * AceInsight: the prompt service, the uploader and the chat wiring

    A shallow embedding of the TypeScript sources of the AceInsight
    single-page application (the Gemini service module, [VideoUploader],
    [StyleSelector], [App] and [types.ts]) together with the properties
    of these functions that the specification relies on.

    Conventions of the embedding:
    - a JavaScript [number] is an IEEE-754 binary64 value, i.e. a
      primitive [float];
    - a JavaScript string is a [string] holding its UTF-8 bytes (the
      sources only use well-formed strings, for which the substring
      relation on bytes and on UTF-16 code units coincide);
    - [T | null], [T | undefined] and optional fields are [option T];
    - a function that may throw returns a [Result];
    - an [async] function that talks to the hosted model takes the
      outcome of the remote call as an argument, and everything it does
      to the outside world (callbacks, alerts, state setters) is
      recorded in the list of events it returns. *)

From Stdlib Require Import Bool List ZArith NArith Lia Ascii String Floats.
From Stdlib Require Import DecimalString.
Import ListNotations.

Open Scope string_scope.

(* ================================================================== *)
(** * JavaScript prelude *)
(* ================================================================== *)

Module JS.

(** ** Exceptions *)

Inductive Result (E A : Type) : Type :=
| Return (a : A)
| Throw (e : E).
Arguments Return {E A} a.
Arguments Throw {E A} e.

(** ** Truthiness *)

Definition truthy_string (s : string) : bool :=
  match s with EmptyString => false | String _ _ => true end.

(** [ToBoolean] of a [string | null | undefined] value. *)
Definition truthy_ostring (o : option string) : bool :=
  match o with None => false | Some s => truthy_string s end.

(** ** Strings *)

Definition dquote : string := String (ascii_of_nat 34) EmptyString.
Definition newline : string := String (ascii_of_nat 10) EmptyString.
Definition backtick : string := String (ascii_of_nat 96) EmptyString.

(** [String.prototype.startsWith]. *)
Definition startsWith (s pre : string) : bool := prefix pre s.

(** [String.prototype.includes]. *)
Fixpoint includes (s needle : string) : bool :=
  prefix needle s
  || match s with
     | EmptyString => false
     | String _ s' => includes s' needle
     end.

(** [String.prototype.endsWith]. *)
Fixpoint endsWith (s suffix : string) : bool :=
  String.eqb s suffix
  || match s with
     | EmptyString => false
     | String _ s' => endsWith s' suffix
     end.

(** The string holds the character. *)
Fixpoint has_char (sep : ascii) (s : string) : bool :=
  match s with
  | EmptyString => false
  | String c s' => Ascii.eqb c sep || has_char sep s'
  end.

(** [String.prototype.split] with a one-character separator. *)
Fixpoint split_at (sep : ascii) (s : string) : string * option string :=
  match s with
  | EmptyString => (EmptyString, None)
  | String c s' =>
      if Ascii.eqb c sep then (EmptyString, Some s')
      else let '(hd, tl) := split_at sep s' in (String c hd, tl)
  end.

Fixpoint split_fuel (fuel : nat) (sep : ascii) (s : string) : list string :=
  match fuel with
  | O => [s]
  | S fuel' =>
      match split_at sep s with
      | (hd, None) => [hd]
      | (hd, Some tl) => hd :: split_fuel fuel' sep tl
      end
  end.

Definition split (sep : ascii) (s : string) : list string :=
  split_fuel (String.length s) sep s.

(** Lower-casing of the ASCII letters; every other byte is kept. *)
Definition lower_ascii (c : ascii) : ascii :=
  let n := nat_of_ascii c in
  if (65 <=? n)%nat && (n <=? 90)%nat then ascii_of_nat (n + 32) else c.

Fixpoint lower_string (s : string) : string :=
  match s with
  | EmptyString => EmptyString
  | String c s' => String (lower_ascii c) (lower_string s')
  end.

(** [Array.prototype.join]. *)
Fixpoint join (sep : string) (l : list string) : string :=
  match l with
  | [] => EmptyString
  | [x] => x
  | x :: rest => x ++ sep ++ join sep rest
  end.

(** What a template literal inserts for a [string | undefined] value. *)
Definition template_value (o : option string) : string :=
  match o with Some s => s | None => "undefined" end.

(** ** Arrays *)

(** [a?.[0]] on an optional array. *)
Definition first {A : Type} (o : option (list A)) : option A :=
  match o with Some (x :: _) => Some x | _ => None end.

(** [a.map(f)] followed by dropping the [undefined] results. *)
Fixpoint filter_map {A B : Type} (f : A -> option B) (l : list A) : list B :=
  match l with
  | [] => []
  | x :: r => match f x with
              | Some y => y :: filter_map f r
              | None => filter_map f r
              end
  end.

(** ** Map, with its insertion order

    A [Map] is the list of its entries in insertion order.  [Map_set]
    on a key already present replaces the value and keeps the entry's
    position; a new key goes to the end. *)
Section JsMap.
Context {K V : Type} (key_eqb : K -> K -> bool).

Fixpoint Map_has (m : list (K * V)) (k : K) : bool :=
  match m with
  | [] => false
  | (k', _) :: r => key_eqb k' k || Map_has r k
  end.

Fixpoint Map_replace (m : list (K * V)) (k : K) (v : V) : list (K * V) :=
  match m with
  | [] => []
  | (k', v') :: r =>
      if key_eqb k' k then (k', v) :: r else (k', v') :: Map_replace r k v
  end.

Definition Map_set (m : list (K * V)) (k : K) (v : V) : list (K * V) :=
  if Map_has m k then Map_replace m k v else m ++ [(k, v)].

(** [new Map(entries)]. *)
Definition Map_of (entries : list (K * V)) : list (K * V) :=
  fold_left (fun m kv => Map_set m (fst kv) (snd kv)) entries [].

(** [Array.from(m.values())]. *)
Definition Map_values (m : list (K * V)) : list V := map snd m.
End JsMap.

(** SameValueZero on [string | undefined] keys. *)
Definition key_eqb (a b : option string) : bool :=
  match a, b with
  | Some x, Some y => String.eqb x y
  | None, None => true
  | _, _ => false
  end.

(** ** Numbers *)

Definition number := float.

Definition is_neg_zero (x : number) : bool :=
  match classify x with NZero => true | _ => false end.
Definition is_pos_zero (x : number) : bool :=
  match classify x with PZero => true | _ => false end.

(** [ToBoolean] of a number: [NaN], [+0] and [-0] are falsy. *)
Definition truthy_number (x : number) : bool :=
  negb (is_nan x) && negb (is_zero x).

(** Non-negative integers below [2^53] as numbers (exact). *)
Definition of_Z53 (z : Z) : number := of_uint63 (Uint63.of_Z z).

(** [Math.floor]: the greatest integral number not above [x]; [NaN],
    the infinities, the zeros and integral values are returned as they
    are.  A finite [x] is [(-1)^s * m * 2^e]; only [e < 0] can carry a
    fractional part, and then [|x| < 2^53]. *)
Definition Math_floor (x : number) : number :=
  match Prim2SF x with
  | S754_finite s m e =>
      if (0 <=? e)%Z then x
      else
        let q := Z.shiftr (Z.pos m) (- e) in
        if s then
          let c := if (Z.shiftl q (- e) =? Z.pos m)%Z then q else (q + 1)%Z in
          PrimFloat.opp (of_Z53 c)
        else of_Z53 q
  | _ => x
  end.

(** [Math.max] of two numbers: [NaN] if either is [NaN], [+0] is above
    [-0], otherwise the larger one. *)
Definition Math_max (a b : number) : number :=
  if is_nan a || is_nan b then nan
  else if is_pos_zero b && is_neg_zero a then b
  else if PrimFloat.ltb a b then b
  else a.

(** What the sources use of the host's formatting and case mapping.
    [Number_toFixed1 x] is [x.toFixed(1)], [Number_toString x] is
    [x.toString()], which is also what a template literal inserts for
    [x], and [toLowerCase] and [trim] are the methods of
    [String.prototype]. *)
Class Runtime : Type := {
  Number_toFixed1 : number -> string;
  Number_toString : number -> string;
  toLowerCase : string -> string;
  trim : string -> string;
}.

End JS.


(* ================================================================== *)
(** * types.ts *)
(* ================================================================== *)

Module Types.
Import JS.

Inductive CommentaryStyle : Type :=
| PROFESSIONAL
| EXCITED
| TECHNICAL
| HUMOROUS
| POETIC.

(** The string each member of the enum stands for. *)
Definition CommentaryStyle_value (style : CommentaryStyle) : string :=
  match style with
  | PROFESSIONAL => "专业解说 (深度战术分析)"
  | EXCITED => "激情粉丝 (高能量/呐喊)"
  | TECHNICAL => "技术教练 (动作/机制)"
  | HUMOROUS => "幽默风趣 (玩梗/吐槽)"
  | POETIC => "文艺诗人 (优美/戏剧化)"
  end.

(** The members of the enum, in declaration order. *)
Definition CommentaryStyle_members : list CommentaryStyle :=
  [PROFESSIONAL; EXCITED; TECHNICAL; HUMOROUS; POETIC].

Definition CommentaryStyle_eqb (a b : CommentaryStyle) : bool :=
  match a, b with
  | PROFESSIONAL, PROFESSIONAL | EXCITED, EXCITED | TECHNICAL, TECHNICAL
  | HUMOROUS, HUMOROUS | POETIC, POETIC => true
  | _, _ => false
  end.

Inductive Role : Type := user | model | system.

Definition Role_value (r : Role) : string :=
  match r with user => "user" | model => "model" | system => "system" end.

Definition Role_eqb (a b : Role) : bool :=
  match a, b with
  | user, user | model, model | system, system => true
  | _, _ => false
  end.

Record GroundingSource : Type := {
  title : option string;
  uri : option string;
}.

Record Message : Type := {
  id : string;
  role : Role;
  text : string;
  timestamp : number;
  isThinking : option bool;
  videoTitle : option string;
  thumbnailUrl : option string;
  groundingSources : option (list GroundingSource);
}.

(** The part of a [File] the sources read. *)
Record File : Type := {
  file_name : string;
  file_type : string;
  file_size : N;
}.

Record VideoState : Type := {
  file : option File;
  previewUrl : option string;
  base64Data : option string;
  mimeType : string;
}.

End Types.

(* ================================================================== *)
(** * The vendor SDK: the shapes the service reads and writes *)
(* ================================================================== *)

Module GenAI.
Import JS.

Record Blob : Type := {
  mimeType : option string;
  data : option string;
}.

Record FunctionCall : Type := {
  name : option string;
  args : option (list (string * string));
}.

Record Part : Type := {
  text : option string;
  thought : option bool;
  inlineData : option Blob;
  functionCall : option FunctionCall;
}.

Record Content : Type := { parts : option (list Part) }.

Record GroundingChunkWeb : Type := {
  title : option string;
  uri : option string;
}.

Record GroundingChunk : Type := { web : option GroundingChunkWeb }.

Record GroundingMetadata : Type := {
  groundingChunks : option (list GroundingChunk);
}.

Record Candidate : Type := {
  content : option Content;
  groundingMetadata : option GroundingMetadata;
}.

Record GenerateContentResponse : Type := {
  candidates : option (list Candidate);
}.

(** [response.candidates?.[0]?.content?.parts]. *)
Definition first_parts (response : GenerateContentResponse) : option (list Part) :=
  match first (candidates response) with
  | Some c => match content c with Some ct => parts ct | None => None end
  | None => None
  end.

(** [response.candidates?.[0]?.groundingMetadata?.groundingChunks]. *)
Definition first_groundingChunks (response : GenerateContentResponse)
  : option (list GroundingChunk) :=
  match first (candidates response) with
  | Some c => match groundingMetadata c with
              | Some md => groundingChunks md
              | None => None
              end
  | None => None
  end.

(** The accessor [response.functionCalls] of the SDK, after its
    documentation: the function calls of the parts of the first
    candidate, or [undefined] when there is none. *)
Definition functionCalls (response : GenerateContentResponse)
  : option (list FunctionCall) :=
  match first_parts response with
  | Some ps => match filter_map functionCall ps with
               | [] => None
               | fcs => Some fcs
               end
  | None => None
  end.

Definition visible_text (p : Part) : option string :=
  match text p, thought p with
  | Some t, Some true => None
  | Some t, _ => Some t
  | None, _ => None
  end.

(** The accessor [response.text] of the SDK, after its documentation:
    the concatenation of the text parts of the first candidate that are
    not thoughts, or [undefined] when there is no such part. *)
Definition response_text (response : GenerateContentResponse) : option string :=
  match first_parts response with
  | Some ps => match filter_map visible_text ps with
               | [] => None
               | ts => Some (String.concat EmptyString ts)
               end
  | None => None
  end.

(** Requests. *)

Record Schema : Type := {
  properties : list (string * string);   (* name, description; all of type STRING *)
  required : list string;
}.

Record FunctionDeclaration : Type := {
  fd_name : string;
  fd_description : string;
  fd_parameters : Schema;
}.

Inductive Tool : Type :=
| functionDeclarations (fds : list FunctionDeclaration)
| googleSearch.

Record GenerateContentConfig : Type := {
  tools : option (list Tool);
  temperature : option number;
  imageConfig_aspectRatio : option string;
}.

Record GenerateContentParameters : Type := {
  model : string;
  contents : list Part;
  config : GenerateContentConfig;
}.

(** [request.config.tools]. *)
Definition tools_of_request (request : GenerateContentParameters)
  : option (list Tool) :=
  tools (config request).

Definition inlineDataPart (mime data : string) : Part :=
  {| text := None; thought := None;
     inlineData := Some {| mimeType := Some mime; data := Some data |};
     functionCall := None |}.

Definition textPart (t : string) : Part :=
  {| text := Some t; thought := None; inlineData := None; functionCall := None |}.

(** What is thrown: [new Error(message)], a [TypeError] of the engine,
    or whatever the remote call was rejected with. *)
Inductive Exn : Type :=
| Error (message : string)
| TypeError (message : string).

(** The stream of [generateContentStream]: the chunks it yields, and
    the error it ends with when it does not end normally. *)
Record ResponseStream : Type := {
  chunks : list GenerateContentResponse;
  failure : option Exn;
}.

(** The client [ai.models]: the hosted model as seen by the service. *)
Class GoogleGenAI : Type := {
  generateContent : GenerateContentParameters -> Result Exn GenerateContentResponse;
  generateContentStream : GenerateContentParameters -> Result Exn ResponseStream;
}.

End GenAI.

(* ================================================================== *)
(** * services/geminiService.ts *)
(* ================================================================== *)

Module GeminiService.
Import JS.
Export Types(CommentaryStyle(..), CommentaryStyle_value, CommentaryStyle_eqb,
             CommentaryStyle_members,
             Role, Role_value, Role_eqb, Message, GroundingSource).
Import GenAI.

Section Service.
Context {rt : Runtime} {ai : GoogleGenAI}.

(** The thumbnail generation tool. *)
Definition thumbnailTool : FunctionDeclaration := {|
  fd_name := "generateThumbnail";
  fd_description :=
    "Call this tool when the user asks to generate a cover, thumbnail, or poster, OR when they ask to modify the existing cover.";
  fd_parameters := {|
    properties :=
      [("visualPrompt",
        "A descriptive prompt for the AI image generator. Describe the scene, the text to include, and the vibe based on the video content. e.g. "
        ++ dquote
        ++ "A tennis player hitting a smash, text title: SUPER SMASH, energetic lighting"
        ++ dquote)];
    required := ["visualPrompt"];
  |};
|}.

(** ** fileToGenerativePart

    [reader] is what [FileReader.readAsDataURL] ends with for the file:
    the data URL handed to [onloadend], or the error handed to
    [onerror].  The promise resolves with [result.split(',')[1]]. *)
Definition fileToGenerativePart (reader : Types.File -> Result Exn string)
    (file : Types.File) : Result Exn (option string) :=
  match reader file with
  | Return base64String =>
      let base64Data := nth_error (split "," base64String) 1 in
      Return base64Data
  | Throw e => Throw e
  end.

(** ** generateAIImage *)

Definition generateAIImage_request (base64Frame : string) (promptText : option string)
  : GenerateContentParameters := {|
  model := "gemini-2.5-flash-image";
  contents :=
    [ {| text := None; thought := None;
         inlineData := Some {| mimeType := Some "image/jpeg"; data := Some base64Frame |};
         functionCall := None |};
      textPart ("Generate a high-quality vertical tennis video cover. "
                ++ template_value promptText) ];
  config := {| tools := None; temperature := None;
               imageConfig_aspectRatio := Some "9:16" |};
|}.

(** The loop over the parts: the first part with [inlineData] ends it. *)
Fixpoint first_image (ps : list Part) : option string :=
  match ps with
  | [] => None
  | part :: rest =>
      match inlineData part with
      | Some blob => Some ("data:image/png;base64," ++ template_value (data blob))
      | None => first_image rest
      end
  end.

Definition generateAIImage (base64Frame : string) (promptText : option string)
  : Result Exn string :=
  match generateContent (generateAIImage_request base64Frame promptText) with
  | Return response =>
      match first_parts response with
      | Some ps =>
          match first_image ps with
          | Some url => Return url
          | None => Throw (Error "No image generated in response")
          end
      | None => Throw (Error "No image generated in response")
      end
  | Throw e => Throw e
  end.

(** ** generateVideoCommentary *)

Definition generateVideoCommentary_prompt (style : CommentaryStyle)
    (enableSearch : bool) (videoDuration : number) : string :=
  let maxChars := Math_max 20%float (Math_floor (PrimFloat.mul videoDuration 4.5%float)) in
  let prompt := "
  你是一位世界顶级的网球解说员和社交媒体专家。
  请分析这段网球视频片段。
  
  **硬性限制（CRITICAL）：**
  1. **视频总时长为："
    ++ Number_toFixed1 videoDuration
    ++ "秒**。
  2. 你的解说词必须能在视频播放时间内读完。
  3. **字数严格限制**：按中文正常语速，请将正文控制在 **"
    ++ Number_toString maxChars
    ++ "字以内**。
  
  你的解说风格是："
    ++ CommentaryStyle_value style
    ++ "。
  
  **第一步：生成标题**
  在开始解说之前，请先为这段视频生成一个【中文标题】。
  标题要求：
  1. **吸引人**：类似抖音/B站的爆款风格，能勾起用户点击欲望。
  2. **准确**：基于视频真实内容，不能标题党（欺骗）。
  3. **格式**：请严格按照此格式在第一行输出： "
    ++ dquote
    ++ "标题：[这里是标题内容]"
    ++ dquote
    ++ "。

  **第二步：解说分析 (最高指令：所见即所得，绝不猜测)**
  1. **精准的击球分析 (每一拍)**：
     - **只描述确定的内容**。如果画面模糊，严禁猜测旋转或握拍。
     - 重点捕捉关键球（制胜分、失误、战术变化）。
  
  2. **球员身份识别**：
     - 除非画面极其清晰且能 100% 确认，否则**必须**使用视觉代称（“近端选手”、“发球方”）。
  
  3. **收尾**：
     - 在解说末尾，请另起一行，用括号标注预估阅读时长，例如："
    ++ dquote
    ++ "(预估阅读时长：5.2秒 / 视频时长："
    ++ Number_toFixed1 videoDuration
    ++ "秒)"
    ++ dquote
    ++ "。
  
  全程使用**中文（简体）**。
  " in
  if enableSearch then
    prompt ++ "
    【搜索增强模式】: 尝试识别球员。如果能确认，使用 Google Search 获取背景。如果无法确信，忽略搜索。
    "
  else prompt.

Definition generateVideoCommentary_request (base64Data mimeType : string)
    (style : CommentaryStyle) (enableSearch : bool) (videoDuration : number)
  : GenerateContentParameters := {|
  model := "gemini-2.5-flash";
  contents :=
    [ inlineDataPart mimeType base64Data;
      textPart (generateVideoCommentary_prompt style enableSearch videoDuration) ];
  config := {|
    tools := Some (if enableSearch then [googleSearch] else []);
    temperature :=
      Some (if CommentaryStyle_eqb style TECHNICAL
            then 0x1.999999999999ap-3%float   (* the literal 0.2 *)
            else 0.5%float);
    imageConfig_aspectRatio := None |};
|}.

(** The [web] entries of a list of grounding chunks, in order. *)
Definition webSources (gcs : list GroundingChunk) : list GroundingSource :=
  filter_map
    (fun c => match web c with
              | Some w => Some {| Types.title := title w; Types.uri := uri w |}
              | None => None
              end)
    gcs.

(** [Array.from(new Map(groundingSources.map(item => [item.uri, item])).values())]. *)
Definition uniqueSources (groundingSources : list GroundingSource)
  : list GroundingSource :=
  Map_values (Map_of key_eqb (map (fun item => (Types.uri item, item)) groundingSources)).

(** One call of [onStream]: the text so far and the sources so far. *)
Definition OnStreamCall : Type := (string * option (list GroundingSource))%type.

(** The body of the [for await] loop, for one chunk: the new values of
    [fullText] and [groundingSources] and the call of [onStream]. *)
Definition stream_step (chunk : GenerateContentResponse)
    (fullText : string) (groundingSources : list GroundingSource)
  : string * list GroundingSource * OnStreamCall :=
  let fullText :=
    match response_text chunk with
    | Some text => if truthy_string text then fullText ++ text else fullText
    | None => fullText
    end in
  let groundingSources :=
    match first_groundingChunks chunk with
    | Some gcs => (groundingSources ++ webSources gcs)%list
    | None => groundingSources
    end in
  let unique := uniqueSources groundingSources in
  (fullText, groundingSources,
   (fullText, if (0 <? List.length unique)%nat then Some unique else None)).

Fixpoint stream_loop (chunks : list GenerateContentResponse)
    (fullText : string) (groundingSources : list GroundingSource)
  : list OnStreamCall * string :=
  match chunks with
  | [] => ([], fullText)
  | chunk :: rest =>
      let '(fullText', groundingSources', call) :=
        stream_step chunk fullText groundingSources in
      let '(calls, final) := stream_loop rest fullText' groundingSources' in
      (call :: calls, final)
  end.

(** The calls of [onStream], in order, and what the promise settles to. *)
Definition generateVideoCommentary (base64Data mimeType : string)
    (style : CommentaryStyle) (enableSearch : bool) (videoDuration : number)
  : list OnStreamCall * Result Exn string :=
  match generateContentStream
          (generateVideoCommentary_request base64Data mimeType style enableSearch
                                           videoDuration) with
  | Return responseStream =>
      let '(calls, fullText) := stream_loop (chunks responseStream) EmptyString [] in
      match failure responseStream with
      | None => (calls, Return fullText)
      | Some error => (calls, Throw error)
      end
  | Throw error => ([], Throw error)
  end.

(** ** sendFollowUpMessage *)

Record ThumbnailCall : Type := { visualPrompt : option string }.

Record FollowUpResult : Type := {
  result_text : string;
  result_groundingSources : list GroundingSource;
  result_thumbnailCall : option ThumbnailCall;
}.

Definition reAnalysisKeywords : list string :=
  ["重新分析"; "再看一遍"; "重看"; "再分析"; "re-analyze"; "analyze again"; "look again"].

Definition shouldReAnalyze (newMessage : string) : bool :=
  existsb (fun keyword => includes (toLowerCase newMessage) keyword) reAnalysisKeywords.

(** [history.filter(h => h.role !== 'system').map(h => `${h.role}: ${h.text}`).join('\n')]. *)
Definition historyText (history : list Message) : string :=
  join newline
    (map (fun h => Role_value (Types.role h) ++ ": " ++ Types.text h)
       (filter (fun h => negb (Role_eqb (Types.role h) Types.system)) history)).

Definition contextPrompt (history : list Message) (newMessage : string)
    (videoDuration : number) : string :=
  let maxChars := Math_max 20%float (Math_floor (PrimFloat.mul videoDuration 4.5%float)) in
  let contextPrompt := "
  Previous context (Chat History):
  "
    ++ historyText history
    ++ "
  
  Current User Instruction: "
    ++ newMessage
    ++ "
  
  **硬性时长限制（CRITICAL）：**
  视频总时长为 **"
    ++ Number_toFixed1 videoDuration
    ++ "秒**。
  任何生成的解说词/口播稿，字数必须严格控制在 **"
    ++ Number_toString maxChars
    ++ "字以内**。
  " in
  if shouldReAnalyze newMessage then
    contextPrompt ++ "
    **任务指令：【重新分析模式】**
    用户明确要求重新分析视频。
    1. 请忽略历史对话中可能存在的错误判断。
    2. 结合视频画面，根据用户的新指令（"
    ++ dquote
    ++ newMessage
    ++ dquote
    ++ "）进行全新的、更准确的解说或回答。
    3. 必须在回答末尾标注："
    ++ dquote
    ++ "(预估阅读时长：X秒 / 视频时长："
    ++ Number_toFixed1 videoDuration
    ++ "秒)"
    ++ dquote
    ++ "。
    "
  else
    contextPrompt ++ "
    **任务指令：【对话调整模式】**
    用户正在请求调整解说风格或纠正内容。
    1. 你**不需要**重新观看视频（为了节省资源）。请完全基于上述对话历史中的【初始解说】和已知的视频信息进行调整。
    2. 如果用户指出解说有误、要求修改风格、或觉得太长/太短，请直接**重写**相应的解说段落。
    3. **确保精炼**：不要解释你为什么修改，直接给出修改后的解说词即可。
    4. 必须在回答末尾标注："
    ++ dquote
    ++ "(预估阅读时长：X秒 / 视频时长："
    ++ Number_toFixed1 videoDuration
    ++ "秒)"
    ++ dquote
    ++ "。
    
    5. **生成/修改封面**：
       - 如果用户提到“封面”、“海报”、“缩略图”，请调用 "
    ++ backtick
    ++ "generateThumbnail"
    ++ backtick
    ++ " 工具。
    ".

(** The [parts] of the request: the video, when the user asks for a new
    analysis and [base64VideoData] is truthy, then the context prompt. *)
Definition sendFollowUpMessage_parts (history : list Message) (newMessage : string)
    (base64VideoData : option string) (mimeType : string) (videoDuration : number)
  : list Part :=
  let parts := [] in
  let parts :=
    match base64VideoData with
    | Some data =>
        if shouldReAnalyze newMessage && truthy_string data
        then (parts ++ [inlineDataPart mimeType data])%list
        else parts
    | None => parts
    end in
  (parts ++ [textPart (contextPrompt history newMessage videoDuration)])%list.

Definition sendFollowUpMessage_tools (enableSearch : bool) : list Tool :=
  let tools := [] in
  let tools := (tools ++ [functionDeclarations [thumbnailTool]])%list in
  if enableSearch then (tools ++ [googleSearch])%list else tools.

Definition sendFollowUpMessage_request (history : list Message) (newMessage : string)
    (enableSearch : bool) (base64VideoData : option string) (mimeType : string)
    (videoDuration : number) : GenerateContentParameters := {|
  model := "gemini-2.5-flash";
  contents :=
    sendFollowUpMessage_parts history newMessage base64VideoData mimeType videoDuration;
  config := {| tools := Some (sendFollowUpMessage_tools enableSearch);
               temperature := None; imageConfig_aspectRatio := None |};
|}.

(** [args['visualPrompt']]. *)
Fixpoint get_arg (args : list (string * string)) (key : string) : option string :=
  match args with
  | [] => None
  | (k, v) :: rest => if String.eqb k key then Some v else get_arg rest key
  end.

Definition is_generateThumbnail (fc : FunctionCall) : bool :=
  match name fc with
  | Some n => String.eqb n "generateThumbnail"
  | None => false
  end.

(** The function calls the service looks at: the one of the first part
    when that part carries one, the SDK's list otherwise. *)
Definition considered_calls (response : GenerateContentResponse)
  : option (list FunctionCall) :=
  match first (first_parts response) with
  | Some part0 =>
      match functionCall part0 with
      | Some fc => Some [fc]
      | None => functionCalls response
      end
  | None => functionCalls response
  end.

(** The check for function calls.  Reading [args['visualPrompt']] of a
    call without [args] is a [TypeError]. *)
Definition thumbnailCall_of (response : GenerateContentResponse)
  : Result Exn (option ThumbnailCall) :=
  match considered_calls response with
  | Some ((_ :: _) as functionCalls) =>
      match find is_generateThumbnail functionCalls with
      | Some call =>
          match args call with
          | Some a => Return (Some {| visualPrompt := get_arg a "visualPrompt" |})
          | None => Throw (TypeError "Cannot read properties of undefined")
          end
      | None => Return None
      end
  | _ => Return None
  end.

Definition sendFollowUpMessage (history : list Message) (newMessage : string)
    (enableSearch : bool) (base64VideoData : option string) (mimeType : string)
    (videoDuration : number) : Result Exn FollowUpResult :=
  match generateContent
          (sendFollowUpMessage_request history newMessage enableSearch
                                       base64VideoData mimeType videoDuration) with
  | Return response =>
      match thumbnailCall_of response with
      | Return thumbnailCall =>
          let groundingSources :=
            match first_groundingChunks response with
            | Some chunks => webSources chunks
            | None => []
            end in
          Return {|
            result_text :=
              let fallback :=
                match thumbnailCall with
                | Some _ => "没问题，正在为您设计视频封面..."
                | None => "抱歉，无法生成回答。"
                end in
              match response_text response with
              | Some text => if truthy_string text then text else fallback
              | None => fallback
              end;
            result_groundingSources := groundingSources;
            result_thumbnailCall := thumbnailCall |}
      | Throw error => Throw error
      end
  | Throw error => Throw error
  end.

End Service.
End GeminiService.

(* ================================================================== *)
(** * components/VideoUploader.tsx *)
(* ================================================================== *)

Module VideoUploader.
Import JS.
Import GenAI(Exn(..)).
Import Types.

(** What [processFile] does to the outside, in order. *)
Inductive Effect : Type :=
| alert (message : string)
| setIsLoading (value : bool)
| onVideoSelected (state : VideoState)
| console_error (message : string) (e : Exn).

(** [reader] is the outcome of reading the file as a data URL and
    [createObjectURL] is [URL.createObjectURL]. *)
Definition processFile (reader : File -> Result Exn string)
    (createObjectURL : File -> string) (file : File) : list Effect :=
  if negb (startsWith (file_type file) "video/") then
    [alert "请上传有效的视频文件。"]
  else if (20 * 1024 * 1024 <? file_size file)%N then
    [alert "为了保证演示流畅，请使用 20MB 以内的视频片段。"]
  else
    [setIsLoading true]
    ++ match GeminiService.fileToGenerativePart reader file with
       | Return base64 =>
           let url := createObjectURL file in
           [onVideoSelected {| file := Some file;
                               previewUrl := Some url;
                               base64Data := base64;
                               mimeType := file_type file |}]
       | Throw e =>
           [console_error "Error processing video" e;
            alert "处理视频文件时出错。"]
       end
    ++ [setIsLoading false].

(** [handleFileChange] and [handleDrop]: the first file, if any. *)
Definition handleFiles (reader : File -> Result Exn string)
    (createObjectURL : File -> string) (files : option (list File)) : list Effect :=
  match first files with
  | Some file => processFile reader createObjectURL file
  | None => []
  end.

End VideoUploader.

(* ================================================================== *)
(** * components/StyleSelector.tsx *)
(* ================================================================== *)

Module StyleSelector.
Import Types.

Record StyleEntry : Type := {
  id : CommentaryStyle;
  icon : string;
  label : string;
  desc : string;
}.

Definition styles : list StyleEntry :=
  [ {| id := PROFESSIONAL; icon := "Mic2"; label := "专业"; desc := "深度与正式" |};
    {| id := TECHNICAL; icon := "UserCheck"; label := "教练"; desc := "技术与战术" |};
    {| id := EXCITED; icon := "Zap"; label := "激情"; desc := "高能呐喊" |};
    {| id := HUMOROUS; icon := "MessageCircle"; label := "幽默"; desc := "玩梗吐槽" |};
    {| id := POETIC; icon := "Feather"; label := "文艺"; desc := "戏剧感" |} ].

(** [selectedStyle === style.id], for the button of an entry. *)
Definition isSelected (selectedStyle : CommentaryStyle) (style : StyleEntry) : bool :=
  CommentaryStyle_eqb selectedStyle (id style).

(** The buttons rendered: for each entry whether it is highlighted, its
    label, and the style its click hands to [onStyleSelect]. *)
Definition buttons (selectedStyle : CommentaryStyle)
  : list (bool * string * CommentaryStyle) :=
  map (fun style => (isSelected selectedStyle style, label style, id style)) styles.

End StyleSelector.

(* ================================================================== *)
(** * App.tsx *)
(* ================================================================== *)

Module App.
Import JS.
Import GenAI(Exn(..), GoogleGenAI).
Import Types.
Import GeminiService.

Record HTMLVideoElement : Type := {
  duration : number;
  videoWidth : N;
  videoHeight : N;
}.

(** What the handlers read from the page: the playback element behind
    [videoRef], whether a canvas hands out a 2d context, the data URL
    the canvas gives for the frame drawn on it, and the successive
    readings of the clock. *)
Record Page : Type := {
  videoRef_current : option HTMLVideoElement;
  canvas_getContext : bool;
  canvas_toDataURL : string;
  Date_now : nat -> number;
}.

Record AppState : Type := {
  videoState : VideoState;
  selectedStyle : CommentaryStyle;
  messages : list Message;
  inputText : string;
  isProcessing : bool;
  enableSearch : bool;
  hasStartedAnalysis : bool;
}.

Definition initialState : AppState := {|
  videoState := {| file := None; previewUrl := None; base64Data := None;
                   mimeType := EmptyString |};
  selectedStyle := PROFESSIONAL;
  messages := [];
  inputText := EmptyString;
  isProcessing := false;
  enableSearch := false;
  hasStartedAnalysis := false;
|}.

Definition handleVideoSelected (newState : VideoState) (st : AppState) : AppState := {|
  videoState := newState;
  selectedStyle := selectedStyle st;
  messages := [];
  inputText := inputText st;
  isProcessing := isProcessing st;
  enableSearch := enableSearch st;
  hasStartedAnalysis := false;
|}.

Definition handleClearVideo (st : AppState) : AppState :=
  handleVideoSelected
    {| file := None; previewUrl := None; base64Data := None; mimeType := EmptyString |}
    st.

(** ** captureCurrentFrame *)
Definition captureCurrentFrame (page : Page) : option string :=
  match videoRef_current page with
  | None => None
  | Some video =>
      if negb (canvas_getContext page) then None
      else
        let dataUrl := canvas_toDataURL page in
        nth_error (split "," dataUrl) 1
  end.

(** [videoRef.current?.duration || 0]. *)
Definition currentDuration (page : Page) : number :=
  match videoRef_current page with
  | Some video => if truthy_number (duration video) then duration video else 0%float
  | None => 0%float
  end.

(** ** The updates of the placeholder message

    [updateMessage id f] is [prev.map(msg => msg.id === id ? f msg : msg)]. *)
Definition updateMessage (target : string) (f : Message -> Message)
    (prev : list Message) : list Message :=
  map (fun msg => if String.eqb (id msg) target then f msg else msg) prev.

(** [{ ...msg, text: streamedText, isThinking: false, groundingSources }]. *)
Definition streamed (streamedText : string)
    (sources : option (list GroundingSource)) (msg : Message) : Message := {|
  id := id msg; role := role msg; text := streamedText; timestamp := timestamp msg;
  isThinking := Some false; videoTitle := videoTitle msg;
  thumbnailUrl := thumbnailUrl msg; groundingSources := sources |}.

(** [{ ...msg, text: message, isThinking: false }]. *)
Definition failed (message : string) (msg : Message) : Message := {|
  id := id msg; role := role msg; text := message; timestamp := timestamp msg;
  isThinking := Some false; videoTitle := videoTitle msg;
  thumbnailUrl := thumbnailUrl msg; groundingSources := groundingSources msg |}.

(** [{ ...msg, text: finalBotText, isThinking: false,
       groundingSources: response.groundingSources, thumbnailUrl }]. *)
Definition replied (finalBotText : string) (sources : list GroundingSource)
    (url : option string) (msg : Message) : Message := {|
  id := id msg; role := role msg; text := finalBotText; timestamp := timestamp msg;
  isThinking := Some false; videoTitle := videoTitle msg;
  thumbnailUrl := url; groundingSources := Some sources |}.

Definition analysisErrorText : string := "抱歉，分析视频时遇到了错误，请重试。".
Definition chatErrorText : string := "连接服务时遇到问题，请检查您的网络。".

(** The four updates the handlers pass to [setMessages] for a request. *)
Inductive Update : Type :=
| Streamed (streamedText : string) (sources : option (list GroundingSource))
| AnalysisFailed
| Replied (finalBotText : string) (sources : list GroundingSource) (url : option string)
| ChatFailed.

Definition update_fields (u : Update) : Message -> Message :=
  match u with
  | Streamed streamedText sources => streamed streamedText sources
  | AnalysisFailed => failed analysisErrorText
  | Replied finalBotText sources url => replied finalBotText sources url
  | ChatFailed => failed chatErrorText
  end.

(** The text an update writes. *)
Definition update_text (u : Update) : string :=
  match u with
  | Streamed streamedText _ => streamedText
  | AnalysisFailed => analysisErrorText
  | Replied finalBotText _ _ => finalBotText
  | ChatFailed => chatErrorText
  end.

(** The sources an update writes, if it writes the field at all: the
    two error updates spread the message and leave the field alone. *)
Definition written_sources (u : Update) : option (option (list GroundingSource)) :=
  match u with
  | Streamed _ sources => Some sources
  | Replied _ sources _ => Some (Some sources)
  | AnalysisFailed | ChatFailed => None
  end.

(** The thumbnail an update writes, if it writes the field at all. *)
Definition written_thumbnail (u : Update) : option (option string) :=
  match u with
  | Replied _ _ url => Some url
  | Streamed _ _ | AnalysisFailed | ChatFailed => None
  end.

(** The later update writes every field the earlier one wrote. *)
Definition overwrites (later earlier : Update) : bool :=
  match written_sources earlier, written_sources later with
  | Some _, None => false
  | _, _ => true
  end
  && match written_thumbnail earlier, written_thumbnail later with
     | Some _, None => false
     | _, _ => true
     end.

Definition applyUpdate (target : string) (u : Update) (prev : list Message)
  : list Message :=
  updateMessage target (update_fields u) prev.

Definition placeholder (msgId : string) (now : number) : Message := {|
  id := msgId; role := model; text := EmptyString; timestamp := now;
  isThinking := Some true; videoTitle := None; thumbnailUrl := None;
  groundingSources := None |}.

Definition with_messages (st : AppState) (processing started : bool)
    (input : string) (msgs : list Message) : AppState := {|
  videoState := videoState st;
  selectedStyle := selectedStyle st;
  messages := msgs;
  inputText := input;
  isProcessing := processing;
  enableSearch := enableSearch st;
  hasStartedAnalysis := started;
|}.

Section Handlers.
Context {rt : Runtime} {ai : GoogleGenAI}.

(** ** handleStartAnalysis *)
Definition handleStartAnalysis (page : Page) (st : AppState) : AppState :=
  match base64Data (videoState st) with
  | Some base64 =>
      if negb (truthy_string base64) || negb (truthy_string (mimeType (videoState st)))
      then st
      else
        let duration := currentDuration page in
        let initialMessageId := Number_toString (Date_now page 0) in
        let msgs :=
          (messages st ++ [placeholder initialMessageId (Date_now page 1)])%list in
        let '(calls, outcome) :=
          generateVideoCommentary base64 (mimeType (videoState st))
            (selectedStyle st) (enableSearch st) duration in
        let msgs :=
          fold_left
            (fun prev (call : OnStreamCall) =>
               applyUpdate initialMessageId (Streamed (fst call) (snd call)) prev)
            calls msgs in
        let msgs :=
          match outcome with
          | Return _ => msgs
          | Throw _ => applyUpdate initialMessageId AnalysisFailed msgs
          end in
        with_messages st false true (inputText st) msgs
  | None => st
  end.

(** ** handleSendMessage *)

Definition frameFailedNote : string :=
  newline ++ newline ++ "(无法获取视频画面，请确保视频已加载)".
Definition imageFailedNote : string :=
  newline ++ newline ++ "(封面生成失败，请重试)".

(** A call of [generateAIImage]: the frame and the prompt it is given. *)
Definition ImageCall : Type := (string * option string)%type.

(** The handling of the thumbnail tool call: the thumbnail URL, the
    final text of the bot message and the calls of [generateAIImage]. *)
Definition thumbnailStep (page : Page) (response : FollowUpResult)
  : option string * string * list ImageCall :=
  let thumbnailUrl : option string := None in
  let finalBotText := result_text response in
  match result_thumbnailCall response with
  | Some thumbnailCall =>
      let frameBase64 := captureCurrentFrame page in
      match frameBase64 with
      | Some frame =>
          if truthy_string frame then
            match generateAIImage frame (visualPrompt thumbnailCall) with
            | Return generatedImgData =>
                (Some generatedImgData, finalBotText,
                 [(frame, visualPrompt thumbnailCall)])
            | Throw err =>
                (thumbnailUrl, finalBotText ++ imageFailedNote,
                 [(frame, visualPrompt thumbnailCall)])
            end
          else (thumbnailUrl, finalBotText ++ frameFailedNote, [])
      | None => (thumbnailUrl, finalBotText ++ frameFailedNote, [])
      end
  | None => (thumbnailUrl, finalBotText, [])
  end.

Definition handleSendMessage (page : Page) (st : AppState)
  : AppState * list ImageCall :=
  if negb (truthy_string (trim (inputText st))) || isProcessing st then (st, [])
  else
    let userMsg := {|
      id := Number_toString (Date_now page 0); role := user; text := inputText st;
      timestamp := Date_now page 1; isThinking := None; videoTitle := None;
      thumbnailUrl := None; groundingSources := None |} in
    let msgs := (messages st ++ [userMsg])%list in
    let botMsgId := Number_toString (PrimFloat.add (Date_now page 2) 1%float) in
    let msgs := (msgs ++ [placeholder botMsgId (Date_now page 3)])%list in
    let duration := currentDuration page in
    match sendFollowUpMessage (messages st) (text userMsg) (enableSearch st)
            (base64Data (videoState st)) (mimeType (videoState st)) duration with
    | Return response =>
        let '(thumbnailUrl, finalBotText, imageCalls) := thumbnailStep page response in
        (with_messages st false (hasStartedAnalysis st) EmptyString
           (applyUpdate botMsgId
              (Replied finalBotText (result_groundingSources response) thumbnailUrl)
              msgs),
         imageCalls)
    | Throw error =>
        (with_messages st false (hasStartedAnalysis st) EmptyString
           (applyUpdate botMsgId ChatFailed msgs),
         [])
    end.

(** ** handleKeyDown: Enter without Shift sends the message. *)
Definition handleKeyDown (key : string) (shiftKey : bool) (page : Page)
    (st : AppState) : AppState * list ImageCall :=
  if String.eqb key "Enter" && negb shiftKey then handleSendMessage page st
  else (st, []).

End Handlers.
End App.

(* ================================================================== *)
(** * components/ChatMessage.tsx *)
(* ================================================================== *)

Module ChatMessage.
Import JS.
Import Types.

Definition LF : ascii := ascii_of_nat 10.
Definition CR : ascii := ascii_of_nat 13.
(** U+2028 and U+2029 in UTF-8. *)
Definition LS : string :=
  String (ascii_of_nat 226) (String (ascii_of_nat 128)
    (String (ascii_of_nat 168) EmptyString)).
Definition PS : string :=
  String (ascii_of_nat 226) (String (ascii_of_nat 128)
    (String (ascii_of_nat 169) EmptyString)).

(** The string starts with a line terminator, which [.] never matches. *)
Definition at_line_terminator (s : string) : bool :=
  match s with
  | EmptyString => false
  | String c _ => Ascii.eqb c LF || Ascii.eqb c CR || prefix LS s || prefix PS s
  end.

(** What [(.*?)] can run over: the characters before the first line
    terminator, and what follows them. *)
Fixpoint dot_run (s : string) : string * string :=
  match s with
  | EmptyString => (EmptyString, EmptyString)
  | String c s' =>
      if at_line_terminator s then (EmptyString, s)
      else let '(run, rest) := dot_run s' in (String c run, rest)
  end.

(** [s] without the prefix [p], when it starts with it. *)
Fixpoint strip_prefix (p s : string) : option string :=
  match p, s with
  | EmptyString, _ => Some s
  | String a p', String b s' => if Ascii.eqb a b then strip_prefix p' s' else None
  | String _ _, EmptyString => None
  end.

Definition titleMarker : string := "标题：".

(** The capture of [text.match(/标题：(.*?)(?:\n|$)/)]: at the
    leftmost marker whose line ends with a line feed or with the text,
    the rest of that line. *)
Fixpoint match_title (s : string) : option string :=
  match s with
  | EmptyString => None
  | String _ s' =>
      match strip_prefix titleMarker s with
      | Some after =>
          let '(run, rest) := dot_run after in
          match rest with
          | EmptyString => Some run
          | String c _ => if Ascii.eqb c LF then Some run else match_title s'
          end
      | None => match_title s'
      end
  end.

Section Render.
Context {rt : Runtime}.

(** The title shown above the bubble, if any. *)
Definition displayTitle (message : Message) : option string :=
  let isModel := Role_eqb (role message) model in
  let displayTitle := videoTitle message in
  if negb (truthy_ostring displayTitle) && isModel
     && includes (text message) titleMarker
  then match match_title (text message) with
       | Some captured => Some (trim captured)
       | None => displayTitle
       end
  else displayTitle.

(** The title card is rendered. *)
Definition showsTitle (message : Message) : bool :=
  truthy_ostring (displayTitle message).

End Render.

(** [message.isThinking], as a condition. *)
Definition thinking (message : Message) : bool :=
  match isThinking message with Some true => true | _ => false end.

(** The thumbnail card is rendered. *)
Definition showsThumbnail (message : Message) : bool :=
  truthy_ostring (thumbnailUrl message).

(** The file name offered for the download of the cover. *)
Definition downloadName (message : Message) : string :=
  "ace-insight-cover-" ++ id message ++ ".png".

(** The sources listed under the bubble:
    [!isThinking && groundingSources && groundingSources.length > 0]. *)
Definition shownSources (message : Message) : list GroundingSource :=
  if thinking message then []
  else match groundingSources message with
       | Some sources => sources
       | None => []
       end.

End ChatMessage.

(* ================================================================== *)
(** * The properties, in the words of the specification *)
(* ================================================================== *)

Module Spec.
Import JS.
Import Types.

(** The keys of a list in the order of their first occurrence. *)
Fixpoint first_occurrences (keys : list (option string)) : list (option string) :=
  match keys with
  | [] => []
  | k :: rest =>
      k :: filter (fun k' => negb (key_eqb k k')) (first_occurrences rest)
  end.

(** The most recently received source with the given uri. *)
Fixpoint latest (u : option string) (received : list GroundingSource)
  : option GroundingSource :=
  match received with
  | [] => None
  | s :: rest =>
      match latest u rest with
      | Some s' => Some s'
      | None => if key_eqb (uri s) u then Some s else None
      end
  end.

(** Duplicates collapsed: one entry per uri, in first-occurrence order,
    each being the most recently received source for its uri. *)
Definition collapsed (received : list GroundingSource) : list GroundingSource :=
  filter_map (fun u => latest u received) (first_occurrences (map uri received)).

(** The sources as entries keyed by their uri. *)
Definition keyed (l : list GroundingSource) : list (option string * GroundingSource) :=
  map (fun item => (uri item, item)) l.

(** A file passes the validation of the uploader: a video of at most
    20 MB. *)
Definition valid (file : File) : bool :=
  startsWith (file_type file) "video/"
  && (file_size file <=? 20 * 1024 * 1024)%N.

(** What the callback is to be given for the sources received so far:
    [undefined] instead of an empty list. *)
Definition sources_argument (received : list GroundingSource)
  : option (list GroundingSource) :=
  match received with
  | [] => None
  | _ :: _ => Some (collapsed received)
  end.

(** The character budget for a video of the given duration. *)
Definition budget (d : number) : number :=
  Math_max 20%float (Math_floor (PrimFloat.mul d 4.5%float)).

(** The text of a chunk ([undefined] counts as no text). *)
Definition chunk_text (chunk : GenAI.GenerateContentResponse) : string :=
  match GenAI.response_text chunk with
  | Some t => t
  | None => EmptyString
  end.

(** The concatenation of the chunk texts in arrival order. *)
Definition concat_texts (chunks : list GenAI.GenerateContentResponse) : string :=
  fold_right append EmptyString (map chunk_text chunks).

(** The sources received with a list of chunks, in arrival order. *)
Definition received_sources (chunks : list GenAI.GenerateContentResponse)
  : list GroundingSource :=
  flat_map
    (fun chunk => match GenAI.first_groundingChunks chunk with
                  | Some gcs => GeminiService.webSources gcs
                  | None => []
                  end)
    chunks.

(** A string holds no line terminator: it fits on one line. *)
Fixpoint single_line (t : string) : bool :=
  match t with
  | EmptyString => true
  | String _ t' => negb (ChatMessage.at_line_terminator t) && single_line t'
  end.

(** A string occurs in another one. *)
Definition occurs_in (needle s : string) : Prop :=
  exists before after : string, s = before ++ needle ++ after.

(** A request part that carries inline data (the video). *)
Definition carries_video (p : GenAI.Part) : Prop := GenAI.inlineData p <> None.

(** The functions a list of tools declares. *)
Definition declared_functions (tools : list GenAI.Tool)
  : list GenAI.FunctionDeclaration :=
  flat_map
    (fun tool => match tool with
                 | GenAI.functionDeclarations fds => fds
                 | GenAI.googleSearch => []
                 end)
    tools.

(** The response contains a function call with the given name. *)
Definition contains_call (fname : string) (response : GenAI.GenerateContentResponse)
  : Prop :=
  exists ps part fc,
    GenAI.first_parts response = Some ps /\ In part ps
    /\ GenAI.functionCall part = Some fc /\ GenAI.name fc = Some fname.

End Spec.

(* ================================================================== *)
(** * A host to evaluate examples with

    This instance of [Runtime] follows the host on the values the
    examples below use: [toLowerCase] and [trim] on strings whose cased
    letters and white space are ASCII, [toFixed(1)] on every number
    below [10^21] in magnitude, and [toString] on [NaN], the infinities
    and the integral numbers below [2^53] in magnitude (elsewhere the
    shortest-digits algorithm of the host is not reproduced, and the
    empty string stands in for its result). *)
(* ================================================================== *)

Module SampleHost.
Import JS.

Definition digits (z : Z) : string :=
  DecimalString.NilZero.string_of_int (Z.to_int z).

Definition sample_toString (x : number) : string :=
  match Prim2SF x with
  | S754_nan => "NaN"
  | S754_infinity s => if s then "-Infinity" else "Infinity"
  | S754_zero _ => "0"
  | S754_finite s m e =>
      let sign := if s then (-1)%Z else 1%Z in
      if (0 <=? e)%Z then
        if (Z.pos m * 2 ^ e <? 2 ^ 53)%Z then digits (sign * (Z.pos m * 2 ^ e))
        else EmptyString
      else if (Z.pos m mod 2 ^ (- e) =? 0)%Z then digits (sign * (Z.pos m / 2 ^ (- e)))
      else EmptyString
  end.

Definition sample_toFixed1 (x : number) : string :=
  match Prim2SF x with
  | S754_nan => "NaN"
  | S754_infinity s => if s then "-Infinity" else "Infinity"
  | S754_zero _ => "0.0"
  | S754_finite s m e =>
      if (0 <=? e)%Z && negb (Z.pos m * 2 ^ e <? 10 ^ 21)%Z then sample_toString x
      else
        let n := if (0 <=? e)%Z then (10 * Z.pos m * 2 ^ e)%Z
                 else ((20 * Z.pos m + 2 ^ (- e)) / 2 ^ (1 - e))%Z in
        (if s then "-" else EmptyString)
        ++ digits (n / 10) ++ "." ++ digits (n mod 10)
  end.

Definition is_space (c : ascii) : bool :=
  let n := nat_of_ascii c in
  ((9 <=? n)%nat && (n <=? 13)%nat) || (n =? 32)%nat.

Fixpoint trim_start (s : string) : string :=
  match s with
  | EmptyString => EmptyString
  | String c s' => if is_space c then trim_start s' else s
  end.

Fixpoint trim_end (s : string) : string :=
  match s with
  | EmptyString => EmptyString
  | String c s' =>
      match trim_end s' with
      | EmptyString => if is_space c then EmptyString else String c EmptyString
      | r => String c r
      end
  end.

#[export] Instance host : Runtime := {|
  Number_toFixed1 := sample_toFixed1;
  Number_toString := sample_toString;
  toLowerCase := lower_string;
  trim := fun s => trim_end (trim_start s);
|}.

End SampleHost.

(** A hosted model that answers every request the same way, and the
    responses the examples use. *)
Module SampleModel.
Import JS.
Import GenAI.

Definition scripted (answer : Result Exn GenerateContentResponse)
    (stream : Result Exn ResponseStream) : GoogleGenAI := {|
  generateContent := fun _ => answer;
  generateContentStream := fun _ => stream;
|}.

Definition response_of (ps : list Part) : GenerateContentResponse :=
  {| candidates :=
       Some [ {| content := Some {| parts := Some ps |};
                 groundingMetadata := None |} ] |}.

Definition callPart (fname : string) (arguments : list (string * string)) : Part :=
  {| text := None; thought := None; inlineData := None;
     functionCall := Some {| name := Some fname; args := Some arguments |} |}.

Definition imagePart (base64 : string) : Part :=
  {| text := None; thought := None;
     inlineData := Some {| mimeType := Some "image/png"; data := Some base64 |};
     functionCall := None |}.

Definition answers (ps : list Part) : GoogleGenAI :=
  scripted (Return (response_of ps)) (Throw (Error "not a streaming model")).

Definition unreachable : GoogleGenAI :=
  scripted (Throw (Error "network")) (Throw (Error "network")).

(** A chunk of a stream: its text and the web sources it cites. *)
Definition chunk_of (t : string) (cited : list (string * string))
  : GenerateContentResponse :=
  {| candidates :=
       Some [ {| content := Some {| parts := Some [textPart t] |};
                 groundingMetadata :=
                   Some {| groundingChunks :=
                             Some (map (fun tu =>
                                          {| web := Some {| title := Some (fst tu);
                                                            uri := Some (snd tu) |} |})
                                       cited) |} |} ] |}.

Definition streams (cs : list GenerateContentResponse) : GoogleGenAI :=
  scripted (Throw (Error "not a chat model"))
           (Return {| chunks := cs; failure := None |}).

(** A page with a loaded video, and files for the uploader. *)
Definition page_with_video (dataUrl : string) : App.Page := {|
  App.videoRef_current :=
    Some {| App.duration := 12%float; App.videoWidth := 1080; App.videoHeight := 1920 |};
  App.canvas_getContext := true;
  App.canvas_toDataURL := dataUrl;
  App.Date_now := fun k => of_Z53 (1700000000000 + Z.of_nat k);
|}.

Definition clip : Types.File := {|
  Types.file_name := "rally.mp4";
  Types.file_type := "video/mp4";
  Types.file_size := 1024;
|}.

Definition unreadable : Types.File -> Result Exn string :=
  fun _ => Throw (Error "NotReadableError").

Definition readable (payload : string) : Types.File -> Result Exn string :=
  fun f => Return ("data:" ++ Types.file_type f ++ ";base64," ++ payload).

Definition objectURL : Types.File -> string :=
  fun f => "blob:https://aceinsight.example/" ++ Types.file_name f.

End SampleModel.

(* ================================================================== *)
(** * Facts about the prelude *)
(* ================================================================== *)

Module JSFacts.
Import JS.

(** ** Numbers: comparisons and [NaN] *)

Lemma SFcompare_antisym (a b : spec_float) :
  SFcompare b a = option_map CompOpp (SFcompare a b).
Proof.
  destruct a as [sa|sa| |sa ma ea], b as [sb|sb| |sb mb eb]; simpl;
    try reflexivity;
    try (destruct sa; reflexivity); try (destruct sb; reflexivity);
    try (destruct sa, sb; reflexivity).
  f_equal.
  rewrite (Z.compare_antisym ea eb).
  change (Pos.compare_cont Eq mb ma) with (Pos.compare_cont (CompOpp Eq) mb ma).
  rewrite <- (Pos.compare_cont_antisym ma mb Eq).
  destruct sa, sb; simpl; try reflexivity;
    destruct (ea ?= eb)%Z; simpl; try reflexivity;
    destruct (Pos.compare_cont Eq ma mb); reflexivity.
Qed.

Lemma ltb_asym (a b : number) :
  PrimFloat.ltb a b = true -> PrimFloat.ltb b a = false.
Proof.
  rewrite !ltb_spec. unfold SFltb.
  rewrite (SFcompare_antisym (Prim2SF a) (Prim2SF b)).
  destruct (SFcompare (Prim2SF a) (Prim2SF b)) as [[ | | ]|]; simpl; congruence.
Qed.

Lemma ltb_leb (a b : number) :
  PrimFloat.ltb a b = true -> PrimFloat.leb a b = true.
Proof.
  rewrite ltb_spec, leb_spec. unfold SFltb, SFleb.
  destruct (SFcompare (Prim2SF a) (Prim2SF b)) as [[ | | ]|]; congruence.
Qed.

Lemma is_nan_false (x : number) : is_nan x = false <-> Prim2SF x <> S754_nan.
Proof.
  unfold is_nan. rewrite eqb_spec. unfold SFeqb. split.
  - intros H E. rewrite E in H. discriminate.
  - intros H.
    destruct (Prim2SF x) as [s|s| |s m e]; try (destruct s); simpl;
      try reflexivity; try congruence;
      rewrite Z.compare_refl, Pos.compare_cont_refl; reflexivity.
Qed.

(** Rounding never produces [NaN]: the shifted mantissa stays
    non-negative. *)
Lemma shr_1_nonneg mrs : (0 <= shr_m mrs)%Z -> (0 <= shr_m (shr_1 mrs))%Z.
Proof.
  destruct mrs as [m r s]; simpl.
  destruct m as [|p|p]; simpl; try lia.
  destruct p; simpl; lia.
Qed.

Lemma iter_shr_1_nonneg p : forall mrs,
  (0 <= shr_m mrs)%Z -> (0 <= shr_m (SpecFloat.iter_pos shr_1 p mrs))%Z.
Proof.
  induction p; intros mrs H; simpl; auto using shr_1_nonneg.
Qed.

Lemma shr_fexp_nonneg p em m e l :
  (0 <= m)%Z -> (0 <= shr_m (fst (shr_fexp p em m e l)))%Z.
Proof.
  intros H. unfold shr_fexp, shr.
  assert (H0 : (0 <= shr_m (shr_record_of_loc m l))%Z)
    by (destruct l as [|[ | | ]]; exact H).
  destruct (fexp p em (Zdigits2 m + e) - e)%Z; simpl; auto using iter_shr_1_nonneg.
Qed.

Lemma round_nearest_even_nonneg m l :
  (0 <= m)%Z -> (0 <= round_nearest_even m l)%Z.
Proof.
  intros H. unfold round_nearest_even.
  destruct l as [|[ | | ]]; try lia. destruct (Z.even m); lia.
Qed.

Lemma binary_round_aux_not_nan p em s m e l :
  (0 <= m)%Z -> binary_round_aux p em s m e l <> S754_nan.
Proof.
  intros H. unfold binary_round_aux.
  pose proof (shr_fexp_nonneg p em m e l H) as H1.
  destruct (shr_fexp p em m e l) as [mrs' e']. simpl in H1.
  pose proof (shr_fexp_nonneg p em _ e' loc_Exact
                (round_nearest_even_nonneg _ (loc_of_shr_record mrs') H1)) as H2.
  destruct (shr_fexp p em (round_nearest_even (shr_m mrs') (loc_of_shr_record mrs'))
              e' loc_Exact) as [mrs'' e''].
  simpl in H2.
  destruct (shr_m mrs'') as [|q|q]; try discriminate; try lia.
  destruct (e'' <=? em - p)%Z; discriminate.
Qed.

Lemma binary_normalize_not_nan p em m e sz :
  binary_normalize p em m e sz <> S754_nan.
Proof.
  unfold binary_normalize. destruct m as [|q|q]; try discriminate;
    unfold binary_round; destruct (shl_align _ _ _);
    apply binary_round_aux_not_nan; lia.
Qed.

Lemma of_Z53_not_nan (z : Z) : Prim2SF (of_Z53 z) <> S754_nan.
Proof.
  unfold of_Z53. rewrite of_uint63_spec. apply binary_normalize_not_nan.
Qed.

(** The product of a number with [4.5] is [NaN] only for [NaN]. *)
Lemma mul_4_5_not_nan (x : number) :
  is_nan x = false -> is_nan (PrimFloat.mul x 4.5%float) = false.
Proof.
  rewrite !is_nan_false, mul_spec. intros H.
  change (Prim2SF 4.5%float) with (S754_finite false 5066549580791808 (-50)).
  unfold SF64mul.
  destruct (Prim2SF x) as [s|s| |s m e]; simpl; try discriminate; try congruence.
  apply binary_round_aux_not_nan. lia.
Qed.

Lemma Math_floor_not_nan (x : number) :
  is_nan x = false -> is_nan (Math_floor x) = false.
Proof.
  intros H. unfold Math_floor.
  destruct (Prim2SF x) as [s|s| |s m e] eqn:E; try exact H.
  destruct (0 <=? e)%Z; [exact H|].
  apply is_nan_false.
  destruct s.
  - rewrite opp_spec.
    match goal with
    | |- SFopp (Prim2SF (of_Z53 ?c)) <> _ =>
        pose proof (of_Z53_not_nan c) as Hc; destruct (Prim2SF (of_Z53 c))
    end; simpl; congruence.
  - apply of_Z53_not_nan.
Qed.

(** [Math.max(20, y)]. *)
Lemma Math_max_20 (y : number) :
  Math_max 20%float y
  = if is_nan y then nan else if PrimFloat.ltb 20%float y then y else 20%float.
Proof.
  unfold Math_max.
  change (is_nan 20%float) with false.
  change (is_neg_zero 20%float) with false.
  rewrite andb_false_r. reflexivity.
Qed.

Lemma Math_max_20_not_below (y : number) :
  PrimFloat.ltb (Math_max 20%float y) 20%float = false.
Proof.
  rewrite Math_max_20.
  destruct (is_nan y); [reflexivity|].
  destruct (PrimFloat.ltb 20%float y) eqn:E; [|reflexivity].
  apply ltb_asym, E.
Qed.

Lemma Math_max_20_at_least (y : number) :
  is_nan y = false -> PrimFloat.leb 20%float (Math_max 20%float y) = true.
Proof.
  intros H. rewrite Math_max_20, H.
  destruct (PrimFloat.ltb 20%float y) eqn:E; [|reflexivity].
  apply ltb_leb, E.
Qed.

End JSFacts.

(* ================================================================== *)
(** * Facts about strings *)
(* ================================================================== *)

Module StringFacts.
Import JS.
Import Spec.

Lemma append_assoc (a b c : string) : (a ++ b) ++ c = a ++ b ++ c.
Proof. induction a as [|x a IH]; simpl; [reflexivity | now rewrite IH]. Qed.

Lemma append_nil_r (a : string) : a ++ EmptyString = a.
Proof. induction a as [|x a IH]; simpl; [reflexivity | now rewrite IH]. Qed.

Lemma prefix_append (n s : string) : prefix n (n ++ s) = true.
Proof.
  induction n as [|c n IH]; simpl.
  - now destruct s.
  - destruct (ascii_dec c c); [exact IH | congruence].
Qed.

Lemma prefix_elim (n : string) : forall s,
  prefix n s = true -> exists rest, s = n ++ rest.
Proof.
  induction n as [|c n IH]; intros s H.
  - exists s. reflexivity.
  - destruct s as [|d s]; simpl in H; [discriminate|].
    destruct (ascii_dec c d) as [->|]; [|discriminate].
    destruct (IH s H) as [rest ->]. exists rest. reflexivity.
Qed.

Lemma includes_prefix (s n : string) : prefix n s = true -> includes s n = true.
Proof. destruct s; simpl; intros ->; reflexivity. Qed.

(** [includes] decides [occurs_in]. *)
Lemma includes_intro (before n after : string) :
  includes (before ++ n ++ after) n = true.
Proof.
  induction before as [|c before IH].
  - apply includes_prefix. exact (prefix_append n after).
  - change (includes (String c (before ++ n ++ after)) n = true).
    simpl. rewrite IH. apply orb_true_r.
Qed.

Lemma includes_unfold (s n : string) :
  includes s n
  = prefix n s
    || match s with EmptyString => false | String _ s' => includes s' n end.
Proof. destruct s; reflexivity. Qed.

Lemma includes_elim (n : string) : forall s,
  includes s n = true -> occurs_in n s.
Proof.
  induction s as [|c s IH]; intros H; rewrite includes_unfold in H.
  - rewrite orb_false_r in H. destruct (prefix_elim _ _ H) as [rest E].
    exists EmptyString, rest. exact E.
  - apply orb_true_iff in H. destruct H as [H|H].
    + destruct (prefix_elim _ _ H) as [rest E].
      exists EmptyString, rest. exact E.
    + destruct (IH H) as (before & after & ->).
      exists (String c before), after. reflexivity.
Qed.

Lemma includes_iff (s n : string) : includes s n = true <-> occurs_in n s.
Proof.
  split; [apply includes_elim|].
  intros (before & after & ->). apply includes_intro.
Qed.

Lemma occurs_in_refl (n : string) : occurs_in n n.
Proof. exists EmptyString, EmptyString. simpl. now rewrite append_nil_r. Qed.

Lemma occurs_in_append_r (n x s : string) : occurs_in n s -> occurs_in n (x ++ s).
Proof.
  intros (before & after & ->). exists (x ++ before), after.
  now rewrite append_assoc.
Qed.

Lemma occurs_in_append_l (n x s : string) : occurs_in n s -> occurs_in n (s ++ x).
Proof.
  intros (before & after & ->). exists before, (after ++ x).
  now rewrite !append_assoc.
Qed.

Lemma occurs_in_trans (a b c : string) :
  occurs_in a b -> occurs_in b c -> occurs_in a c.
Proof.
  intros (b1 & b2 & ->) (c1 & c2 & ->).
  exists (c1 ++ b1), (b2 ++ c2). now rewrite !append_assoc.
Qed.

Lemma endsWith_unfold (s suffix : string) :
  endsWith s suffix
  = String.eqb s suffix
    || match s with EmptyString => false | String _ s' => endsWith s' suffix end.
Proof. destruct s; reflexivity. Qed.

Lemma endsWith_elim (suffix : string) : forall s,
  endsWith s suffix = true -> exists front, s = front ++ suffix.
Proof.
  induction s as [|c s IH]; intros H; rewrite endsWith_unfold in H.
  - rewrite orb_false_r in H. apply String.eqb_eq in H.
    exists EmptyString. exact H.
  - apply orb_true_iff in H. destruct H as [H|H].
    + apply String.eqb_eq in H. exists EmptyString. exact H.
    + destruct (IH H) as [front ->]. exists (String c front). reflexivity.
Qed.

(** A value inserted between two literals occurs there together with
    the end of the first literal and the start of the second. *)
Lemma occurs_in_frame_end (l1 t l2 pre suf : string) :
  endsWith l1 pre = true -> prefix suf l2 = true ->
  occurs_in (pre ++ t ++ suf) (l1 ++ t ++ l2).
Proof.
  intros H1 H2.
  destruct (endsWith_elim _ _ H1) as [front ->].
  destruct (prefix_elim _ _ H2) as [back ->].
  exists front, back. now rewrite !append_assoc.
Qed.

Lemma occurs_in_frame (l1 t l2 rest pre suf : string) :
  endsWith l1 pre = true -> prefix suf l2 = true ->
  occurs_in (pre ++ t ++ suf) (l1 ++ t ++ l2 ++ rest).
Proof.
  intros H1 H2.
  destruct (endsWith_elim _ _ H1) as [front ->].
  destruct (prefix_elim _ _ H2) as [back ->].
  exists front, (back ++ rest). now rewrite !append_assoc.
Qed.

(** ** [split] *)

Lemma split_at_none (sep : ascii) : forall s,
  has_char sep s = false -> split_at sep s = (s, None).
Proof.
  induction s as [|c s IH]; simpl; intros H; [reflexivity|].
  apply orb_false_iff in H. destruct H as [Hc Hs].
  rewrite Hc, (IH Hs). reflexivity.
Qed.

Lemma split_at_first (sep : ascii) (rest : string) : forall s,
  has_char sep s = false ->
  split_at sep (s ++ String sep rest) = (s, Some rest).
Proof.
  induction s as [|c s IH]; simpl; intros H.
  - now rewrite Ascii.eqb_refl.
  - apply orb_false_iff in H. destruct H as [Hc Hs].
    rewrite Hc, (IH Hs). reflexivity.
Qed.

(** The second field of [head,payload] when neither holds a
    separator: what [split(',')[1]] gives for a data URL. *)
Lemma split_second (sep : ascii) (head payload : string) :
  has_char sep head = false -> has_char sep payload = false ->
  nth_error (split sep (head ++ String sep payload)) 1 = Some payload.
Proof.
  intros Hh Hp. unfold split.
  destruct (String.length (head ++ String sep payload)) as [|n] eqn:E.
  - destruct head; discriminate.
  - simpl. rewrite (split_at_first sep payload head Hh). simpl.
    destruct n; simpl; [reflexivity|].
    now rewrite (split_at_none sep payload Hp).
Qed.

End StringFacts.

(* ================================================================== *)
(** * The service: prompts *)
(* ================================================================== *)

Module PromptProps.
Import JS.
Import Spec.
Import StringFacts.
Import GeminiService.

Section Prompts.
Context {rt : Runtime}.

Lemma budget_in_commentary_prompt style enableSearch d :
  occurs_in ("**" ++ Number_toString (budget d) ++ "字以内**")
            (generateVideoCommentary_prompt style enableSearch d).
Proof.
  unfold generateVideoCommentary_prompt, budget. cbv zeta.
  destruct enableSearch; [apply occurs_in_append_l|];
    do 2 apply occurs_in_append_r; apply occurs_in_frame; reflexivity.
Qed.

Lemma budget_in_context_prompt history newMessage d :
  occurs_in ("**" ++ Number_toString (budget d) ++ "字以内**")
            (contextPrompt history newMessage d).
Proof.
  unfold contextPrompt, budget. cbv zeta.
  destruct (shouldReAnalyze newMessage); apply occurs_in_append_l;
    do 6 apply occurs_in_append_r; apply occurs_in_frame_end; reflexivity.
Qed.

Lemma style_in_commentary_prompt style enableSearch d :
  occurs_in ("你的解说风格是：" ++ CommentaryStyle_value style ++ "。")
            (generateVideoCommentary_prompt style enableSearch d).
Proof.
  unfold generateVideoCommentary_prompt. cbv zeta.
  destruct enableSearch; [apply occurs_in_append_l|];
    do 4 apply occurs_in_append_r; apply occurs_in_frame; reflexivity.
Qed.

End Prompts.

(** C1.  For every video duration [d], generateVideoCommentary and
    sendFollowUpMessage both insert into their prompt the character
    budget [max(20, floor(d * 4.5))]: the same number in both, never
    below 20 (and at least 20 whenever [d] is a number at all). *)
Theorem character_budget (rt : Runtime) (style : CommentaryStyle)
    (enableSearch : bool) (history : list Message) (newMessage : string)
    (d : number) :
  let maxChars := Math_max 20%float (Math_floor (PrimFloat.mul d 4.5%float)) in
     occurs_in ("**" ++ Number_toString maxChars ++ "字以内**")
               (generateVideoCommentary_prompt style enableSearch d)
  /\ occurs_in ("**" ++ Number_toString maxChars ++ "字以内**")
               (contextPrompt history newMessage d)
  /\ PrimFloat.ltb maxChars 20%float = false
  /\ (is_nan d = false -> PrimFloat.leb 20%float maxChars = true).
Proof.
  cbv zeta. repeat split.
  - apply budget_in_commentary_prompt.
  - apply budget_in_context_prompt.
  - apply JSFacts.Math_max_20_not_below.
  - intros H. apply JSFacts.Math_max_20_at_least, JSFacts.Math_floor_not_nan,
      JSFacts.mul_4_5_not_nan, H.
Qed.

Lemma character_budget_witness :
  PrimFloat.leb 20%float
    (Math_max 20%float (Math_floor (PrimFloat.mul 10.25%float 4.5%float))) = true.
Proof.
  apply (character_budget SampleHost.host EXCITED false [] "hi" 10.25%float).
  reflexivity.
Defined.

(** C7.  There are exactly five commentary style presets, and for every
    selected style the prompt built by generateVideoCommentary contains
    that style's label (the value of the enum member, and with it the
    short label the selector shows for the style). *)
Theorem five_styles_label_in_prompt :
     (List.length CommentaryStyle_members = 5
      /\ NoDup CommentaryStyle_members
      /\ (forall style : CommentaryStyle, In style CommentaryStyle_members)
      /\ NoDup (map CommentaryStyle_value CommentaryStyle_members)
      /\ map StyleSelector.id StyleSelector.styles
         = [PROFESSIONAL; TECHNICAL; EXCITED; HUMOROUS; POETIC])
  /\ forall (rt : Runtime) (enableSearch : bool) (videoDuration : number),
       let prompt style :=
         generateVideoCommentary_prompt style enableSearch videoDuration in
          (forall style : CommentaryStyle,
             occurs_in ("你的解说风格是：" ++ CommentaryStyle_value style ++ "。")
                       (prompt style)
             /\ includes (prompt style) (CommentaryStyle_value style) = true)
       /\ Forall (fun entry =>
                    includes (prompt (StyleSelector.id entry))
                             (StyleSelector.label entry) = true)
                 StyleSelector.styles.
Proof.
  split.
  - repeat split.
    + repeat constructor; simpl; intuition discriminate.
    + intros []; simpl; auto 6.
    + repeat constructor; simpl; intuition discriminate.
  - intros rt enableSearch d prompt. subst prompt. cbv beta.
    assert (Hvalue : forall style,
               occurs_in (CommentaryStyle_value style)
                         (generateVideoCommentary_prompt style enableSearch d)).
    { intros style.
      apply occurs_in_trans
        with (2 := style_in_commentary_prompt style enableSearch d).
      exists "你的解说风格是：", "。". reflexivity. }
    split.
    + intros style. split.
      * exact (style_in_commentary_prompt style enableSearch d).
      * apply includes_iff. exact (Hvalue style).
    + unfold StyleSelector.styles.
      repeat (apply Forall_cons;
              [ apply includes_iff; cbn [StyleSelector.id StyleSelector.label];
                match goal with
                | |- occurs_in ?l (generateVideoCommentary_prompt ?st _ _) =>
                    apply occurs_in_trans with (2 := Hvalue st);
                    apply includes_elim; reflexivity
                end | ]).
      apply Forall_nil.
Qed.

End PromptProps.

(* ================================================================== *)
(** * The service: image generation and follow-up turns *)
(* ================================================================== *)

Module ServiceProps.
Import JS.
Import Spec.
Import StringFacts.
Import GenAI.
Import GeminiService.

(** ** generateAIImage *)

Lemma first_image_none (ps : list Part) :
  first_image ps = None <-> Forall (fun part => inlineData part = None) ps.
Proof.
  induction ps as [|part ps IH]; simpl.
  - split; auto.
  - destruct (inlineData part) eqn:E.
    + split; [discriminate|]. intros H. inversion H; congruence.
    + rewrite IH. split.
      * intros H. constructor; assumption.
      * intros H. inversion H; assumption.
Qed.

Lemma first_image_some (ps : list Part) (url : string) :
  first_image ps = Some url <->
  exists before part blob after,
    ps = (before ++ part :: after)%list
    /\ Forall (fun q => inlineData q = None) before
    /\ inlineData part = Some blob
    /\ url = "data:image/png;base64," ++ template_value (data blob).
Proof.
  induction ps as [|p ps IH]; simpl.
  - split; [discriminate|].
    intros (before & part & blob & after & E & _). destruct before; discriminate.
  - destruct (inlineData p) as [b|] eqn:E.
    + split.
      * intros [= <-]. exists [], p, b, ps. repeat split; auto.
      * intros (before & part & blob & after & Eps & Hb & Hi & ->).
        destruct before as [|q before]; simpl in Eps; injection Eps as <- _.
        -- congruence.
        -- inversion Hb; congruence.
    + rewrite IH. split.
      * intros (before & part & blob & after & -> & Hb & Hi & ->).
        exists (p :: before), part, blob, after. repeat split; auto.
      * intros (before & part & blob & after & Eps & Hb & Hi & ->).
        destruct before as [|q before]; simpl in Eps; injection Eps as <- ->.
        -- congruence.
        -- exists before, part, blob, after. inversion Hb; repeat split; auto.
Qed.

(** C9.  generateAIImage returns [data:image/png;base64,] followed by
    the data of the first response part that has [inlineData], and it
    throws exactly when no part of the first candidate's content has
    inline data (in particular when the call itself fails, whose error
    it passes on). *)
Theorem generateAIImage_first_inline (ai : GoogleGenAI)
    (base64Frame : string) (promptText : option string) :
  let outcome := generateContent (generateAIImage_request base64Frame promptText) in
  let result := generateAIImage base64Frame promptText in
     (forall response ps before part blob after,
        outcome = Return response ->
        first_parts response = Some ps ->
        ps = (before ++ part :: after)%list ->
        Forall (fun q => inlineData q = None) before ->
        inlineData part = Some blob ->
        result = Return ("data:image/png;base64," ++ template_value (data blob)))
  /\ ((exists e, result = Throw e) <->
      ~ exists response ps part,
          outcome = Return response /\ first_parts response = Some ps
          /\ In part ps /\ inlineData part <> None)
  /\ (forall response, outcome = Return response ->
      forall e, result = Throw e -> e = Error "No image generated in response")
  /\ (forall e, outcome = Throw e -> result = Throw e).
Proof.
  cbv zeta. unfold generateAIImage.
  destruct (generateContent (generateAIImage_request base64Frame promptText))
    as [response|e0].
  - split; [|split; [split|split]].
    + intros r ps before part blob after [= <-] Hps -> Hb Hi.
      rewrite Hps.
      assert (H : first_image (before ++ part :: after)
                  = Some ("data:image/png;base64," ++ template_value (data blob))).
      { apply first_image_some. exists before, part, blob, after. auto. }
      now rewrite H.
    + intros [e He] (r & ps & part & [= <-] & Hps & Hin & Hi).
      rewrite Hps in He.
      destruct (first_image ps) eqn:E; [discriminate|].
      apply first_image_none in E. rewrite Forall_forall in E. auto.
    + intros Hno.
      destruct (first_parts response) as [ps|] eqn:Hps; [|eauto].
      destruct (first_image ps) eqn:E; [|eauto].
      exfalso. apply Hno.
      apply first_image_some in E.
      destruct E as (before & part & blob & after & -> & _ & Hi & _).
      exists response, (before ++ part :: after)%list, part.
      repeat split; auto; [apply in_elt | congruence].
    + intros r [= <-] e.
      destruct (first_parts response) as [ps|]; [|congruence].
      destruct (first_image ps); congruence.
    + discriminate.
  - split; [|split; [split|split]].
    + discriminate.
    + intros _ (r & ps & part & Hr & _). discriminate.
    + intros _. eauto.
    + discriminate.
    + intros e [= <-]. reflexivity.
Qed.

Lemma generateAIImage_first_inline_witness :
  generateAIImage
    (ai := SampleModel.answers [textPart "here"; SampleModel.imagePart "QUJD";
                                SampleModel.imagePart "REVG"])
    "ZnJhbWU=" (Some "smash")
  = Return "data:image/png;base64,QUJD".
Proof.
  refine (proj1 (generateAIImage_first_inline
                   (SampleModel.answers [textPart "here"; SampleModel.imagePart "QUJD";
                                         SampleModel.imagePart "REVG"])
                   "ZnJhbWU=" (Some "smash"))
            _ _ [textPart "here"] (SampleModel.imagePart "QUJD") _
            [SampleModel.imagePart "REVG"] eq_refl eq_refl eq_refl _ eq_refl).
  repeat constructor.
Defined.


(** ** sendFollowUpMessage: the parts of the request *)

Section FollowUp.
Context {rt : Runtime}.

Lemma parts_shape history newMessage base64VideoData mimeType d :
  sendFollowUpMessage_parts history newMessage base64VideoData mimeType d
  = (match base64VideoData with
     | Some data =>
         if shouldReAnalyze newMessage && truthy_string data
         then [inlineDataPart mimeType data]
         else []
     | None => []
     end
     ++ [textPart (contextPrompt history newMessage d)])%list.
Proof.
  unfold sendFollowUpMessage_parts.
  destruct base64VideoData as [data|]; [|reflexivity].
  destruct (shouldReAnalyze newMessage && truthy_string data); reflexivity.
Qed.

Lemma truthy_string_iff (s : string) : truthy_string s = true <-> s <> EmptyString.
Proof. destruct s; simpl; split; congruence. Qed.

Lemma textPart_no_video (t : string) : ~ carries_video (textPart t).
Proof. intros H. apply H. reflexivity. Qed.

Lemma history_in_context_prompt history newMessage d :
  occurs_in (historyText history) (contextPrompt history newMessage d).
Proof.
  unfold contextPrompt. cbv zeta.
  destruct (shouldReAnalyze newMessage); apply occurs_in_append_l;
    apply occurs_in_append_r; exists EmptyString; eexists; reflexivity.
Qed.

End FollowUp.

(** C2, as amended.  sendFollowUpMessage attaches the original video
    bytes to the request if and only if base64VideoData is a non-empty
    string (neither null nor the empty string) and the lowercased new
    message contains at least one of the re-analysis keywords; the
    video part then comes first, followed by the text context prompt.
    Otherwise the parts are the text context prompt alone, which is
    built from the conversation history. *)
Theorem followup_video_attachment (rt : Runtime) (history : list Message)
    (newMessage : string) (base64VideoData : option string) (mimeType : string)
    (videoDuration : number) :
  let parts :=
    sendFollowUpMessage_parts history newMessage base64VideoData mimeType
                              videoDuration in
  let context := textPart (contextPrompt history newMessage videoDuration) in
  let attach :=
    exists data, base64VideoData = Some data /\ data <> EmptyString
                 /\ shouldReAnalyze newMessage = true in
     ((exists p, In p parts /\ carries_video p) <-> attach)
  /\ (forall data, base64VideoData = Some data -> data <> EmptyString ->
        shouldReAnalyze newMessage = true ->
        parts = [inlineDataPart mimeType data; context])
  /\ (~ attach -> parts = [context])
  /\ (shouldReAnalyze newMessage = true <->
      exists keyword,
        In keyword ["重新分析"; "再看一遍"; "重看"; "再分析"; "re-analyze";
                    "analyze again"; "look again"]
        /\ includes (toLowerCase newMessage) keyword = true)
  /\ occurs_in (historyText history)
               (contextPrompt history newMessage videoDuration).
Proof.
  cbv zeta. rewrite parts_shape.
  split; [|split; [|split; [|split]]].
  - split.
    + intros (p & Hin & Hp).
      destruct base64VideoData as [data|].
      * destruct (shouldReAnalyze newMessage) eqn:Hs;
          destruct (truthy_string data) eqn:Ht; simpl in Hin.
        -- exists data. repeat split; auto. now apply truthy_string_iff.
        -- destruct Hin as [<-|[]]. now apply textPart_no_video in Hp.
        -- destruct Hin as [<-|[]]. now apply textPart_no_video in Hp.
        -- destruct Hin as [<-|[]]. now apply textPart_no_video in Hp.
      * destruct Hin as [<-|[]]. now apply textPart_no_video in Hp.
    + intros (data & -> & Hd & ->).
      apply truthy_string_iff in Hd. rewrite Hd.
      exists (inlineDataPart mimeType data). split; [left; reflexivity|].
      unfold carries_video. discriminate.
  - intros data -> Hd ->. apply truthy_string_iff in Hd. now rewrite Hd.
  - intros Hno. destruct base64VideoData as [data|]; [|reflexivity].
    destruct (shouldReAnalyze newMessage) eqn:Hs;
      destruct (truthy_string data) eqn:Ht; try reflexivity.
    exfalso. apply Hno. exists data. repeat split; auto.
    now apply truthy_string_iff.
  - unfold shouldReAnalyze, reAnalysisKeywords. apply existsb_exists.
  - apply history_in_context_prompt.
Qed.

Lemma followup_video_attachment_witness :
  sendFollowUpMessage_parts (rt := SampleHost.host) [] "Please LOOK again"
    (Some "AAAA") "video/mp4" 10%float
  = [inlineDataPart "video/mp4" "AAAA";
     textPart (contextPrompt (rt := SampleHost.host) [] "Please LOOK again" 10%float)].
Proof.
  apply (proj1 (proj2 (followup_video_attachment SampleHost.host [] "Please LOOK again"
                         (Some "AAAA") "video/mp4" 10%float))).
  - reflexivity.
  - discriminate.
  - reflexivity.
Defined.

(** The claim C2 as stated fails for the empty string, which is not
    null: nothing is attached although a keyword is present. *)
Lemma followup_video_attachment_counterexample :
  ~ ((exists p,
        In p (sendFollowUpMessage_parts (rt := SampleHost.host) [] "look again"
                (Some EmptyString) "video/mp4" 10%float)
        /\ carries_video p)
     <-> (Some EmptyString <> @None string
          /\ shouldReAnalyze (rt := SampleHost.host) "look again" = true)).
Proof.
  intros [_ H].
  destruct H as (p & Hin & Hp); [split; [discriminate | reflexivity]|].
  rewrite parts_shape, andb_false_r in Hin.
  destruct Hin as [<-|[]]. now apply textPart_no_video in Hp.
Qed.

(** ** sendFollowUpMessage: the thumbnail tool *)

Lemma is_generateThumbnail_iff (fc : FunctionCall) :
  is_generateThumbnail fc = true <-> name fc = Some "generateThumbnail".
Proof.
  unfold is_generateThumbnail. destruct (name fc) as [n|].
  - rewrite String.eqb_eq. split; congruence.
  - split; discriminate.
Qed.

Lemma find_is_some {A : Type} (f : A -> bool) (l : list A) :
  find f l <> None <-> exists x, In x l /\ f x = true.
Proof.
  split.
  - destruct (find f l) as [x|] eqn:E; [|congruence].
    intros _. exists x. apply (find_some _ _ E).
  - intros (x & Hin & Hx) E. apply (find_none _ _ E) in Hin. congruence.
Qed.

Lemma in_filter_map {A B : Type} (f : A -> option B) (l : list A) (y : B) :
  In y (filter_map f l) <-> exists x, In x l /\ f x = Some y.
Proof.
  induction l as [|a l IH]; simpl.
  - split; [contradiction | intros (x & [] & _)].
  - destruct (f a) as [b|] eqn:E; simpl; rewrite IH; split.
    + intros [<-|(x & Hin & Hx)]; eauto.
    + intros (x & [<-|Hin] & Hx); [left; congruence | eauto].
    + intros (x & Hin & Hx); eauto.
    + intros (x & [<-|Hin] & Hx); [congruence | eauto].
Qed.

(** The calls the SDK lists are the calls of the parts. *)
Lemma functionCalls_spec (response : GenerateContentResponse)
    (fcs : list FunctionCall) :
  functionCalls response = Some fcs ->
  exists ps, first_parts response = Some ps
             /\ fcs = filter_map functionCall ps /\ fcs <> [].
Proof.
  unfold functionCalls. destruct (first_parts response) as [ps|]; [|discriminate].
  destruct (filter_map functionCall ps) as [|fc l] eqn:E; [discriminate|].
  intros [= <-]. exists ps. repeat split; auto. discriminate.
Qed.

Lemma functionCalls_none (response : GenerateContentResponse) :
  functionCalls response = None ->
  forall ps part fc, first_parts response = Some ps -> In part ps ->
                     functionCall part <> Some fc.
Proof.
  unfold functionCalls. intros H ps part fc Hps Hin Hfc. rewrite Hps in H.
  destruct (filter_map functionCall ps) as [|x l] eqn:E; [|discriminate].
  assert (Hc : In fc (filter_map functionCall ps))
    by (apply in_filter_map; eauto).
  rewrite E in Hc. contradiction.
Qed.

Lemma tools_shape (enableSearch : bool) :
  sendFollowUpMessage_tools enableSearch
  = functionDeclarations [thumbnailTool]
    :: (if enableSearch then [googleSearch] else []).
Proof. destruct enableSearch; reflexivity. Qed.


(** What [thumbnailCall_of] answers, by the calls it considers. *)
Lemma thumbnailCall_of_considered (response : GenerateContentResponse)
    (fcs : list FunctionCall) (found : option ThumbnailCall) :
  considered_calls response = Some fcs ->
  thumbnailCall_of response = Return found ->
     (found <> None <->
      exists fc, In fc fcs /\ name fc = Some "generateThumbnail")
  /\ (forall tc, found = Some tc ->
        exists fc a, In fc fcs /\ name fc = Some "generateThumbnail"
                     /\ args fc = Some a
                     /\ visualPrompt tc = get_arg a "visualPrompt").
Proof.
  unfold thumbnailCall_of. intros ->.
  destruct fcs as [|fc0 rest].
  - intros [= <-]. split.
    + split; [congruence | intros (fc & [] & _)].
    + discriminate.
  - destruct (find is_generateThumbnail (fc0 :: rest)) as [call|] eqn:E.
    + destruct (find_some _ _ E) as [Hin Hname].
      apply is_generateThumbnail_iff in Hname.
      destruct (args call) as [a|] eqn:Ha; [|discriminate].
      intros [= <-]. split.
      * split; [eauto | discriminate].
      * intros tc [= <-]. exists call, a. auto.
    + intros [= <-]. split.
      * split; [congruence|].
        intros (fc & Hin & Hname). apply is_generateThumbnail_iff in Hname.
        apply (find_none _ _ E) in Hin. congruence.
      * discriminate.
Qed.

Lemma thumbnailCall_of_no_calls (response : GenerateContentResponse) :
  considered_calls response = None -> thumbnailCall_of response = Return None.
Proof. unfold thumbnailCall_of. now intros ->. Qed.

(** What sendFollowUpMessage returns is what [thumbnailCall_of] found. *)
Lemma sendFollowUpMessage_thumbnailCall {rt : Runtime} {ai : GoogleGenAI}
    history newMessage enableSearch base64VideoData mimeType d response res :
  generateContent
    (sendFollowUpMessage_request history newMessage enableSearch base64VideoData
                                 mimeType d) = Return response ->
  sendFollowUpMessage history newMessage enableSearch base64VideoData mimeType d
  = Return res ->
  thumbnailCall_of response = Return (result_thumbnailCall res).
Proof.
  unfold sendFollowUpMessage. intros ->.
  destruct (thumbnailCall_of response) as [found|e]; [|discriminate].
  now intros [= <-].
Qed.

(** What the check for function calls does find.  sendFollowUpMessage
    always declares exactly one function tool, generateThumbnail.
    Whenever its result has a thumbnailCall, that is the visualPrompt
    argument of a function call named generateThumbnail in the response.
    When the first part of the response carries no function call and a
    result is returned, thumbnailCall is set if and only if the response
    contains a function call named generateThumbnail; when the first
    part carries a function call, only that call is looked at. *)
Theorem thumbnail_tool_call (rt : Runtime) (ai : GoogleGenAI)
    (history : list Message) (newMessage : string) (enableSearch : bool)
    (base64VideoData : option string) (mimeType : string) (videoDuration : number) :
  let request :=
    sendFollowUpMessage_request history newMessage enableSearch base64VideoData
                                mimeType videoDuration in
     (exists tools,
        tools_of_request request = Some tools
        /\ declared_functions tools = [thumbnailTool]
        /\ fd_name thumbnailTool = "generateThumbnail")
  /\ forall response res,
       generateContent request = Return response ->
       sendFollowUpMessage history newMessage enableSearch base64VideoData mimeType
                           videoDuration = Return res ->
          (forall tc, result_thumbnailCall res = Some tc ->
             exists ps part fc a,
               first_parts response = Some ps /\ In part ps
               /\ functionCall part = Some fc
               /\ name fc = Some "generateThumbnail"
               /\ args fc = Some a
               /\ visualPrompt tc = get_arg a "visualPrompt")
       /\ ((forall part0, first (first_parts response) = Some part0 ->
                          functionCall part0 = None) ->
           (result_thumbnailCall res <> None
            <-> contains_call "generateThumbnail" response))
       /\ (forall part0 fc0,
             first (first_parts response) = Some part0 ->
             functionCall part0 = Some fc0 ->
             (result_thumbnailCall res <> None
              <-> name fc0 = Some "generateThumbnail")).
Proof.
  cbv zeta. split.
  - exists (sendFollowUpMessage_tools enableSearch). split; [reflexivity|].
    rewrite tools_shape. destruct enableSearch; repeat split.
  - intros response res Hresp Hres.
    pose proof (sendFollowUpMessage_thumbnailCall _ _ _ _ _ _ _ _ Hresp Hres) as Hfound.
    clear Hresp Hres.
    split; [|split].
    + intros tc Htc.
      destruct (considered_calls response) as [fcs|] eqn:Hc.
      * destruct (thumbnailCall_of_considered _ _ _ Hc Hfound) as [_ H].
        destruct (H tc Htc) as (fc & a & Hin & Hname & Ha & Hv).
        unfold considered_calls in Hc.
        destruct (first (first_parts response)) as [part0|] eqn:H0.
        -- destruct (functionCall part0) as [fc0|] eqn:Hf0.
           ++ injection Hc as <-. destruct Hin as [<-|[]].
              unfold first in H0.
              destruct (first_parts response) as [[|q ps]|] eqn:Hps;
                try discriminate.
              injection H0 as ->.
              exists (part0 :: ps), part0, fc0, a. simpl. auto 10.
           ++ destruct (functionCalls_spec _ _ Hc) as (ps & Hps & -> & _).
              apply in_filter_map in Hin. destruct Hin as (part & Hin & Hf).
              exists ps, part, fc, a. auto 10.
        -- destruct (functionCalls_spec _ _ Hc) as (ps & Hps & -> & _).
           apply in_filter_map in Hin. destruct Hin as (part & Hin & Hf).
           exists ps, part, fc, a. auto 10.
      * rewrite (thumbnailCall_of_no_calls _ Hc) in Hfound. congruence.
    + intros Hnone.
      assert (Hc : considered_calls response = functionCalls response).
      { unfold considered_calls.
        destruct (first (first_parts response)) as [part0|]; [|reflexivity].
        now rewrite (Hnone part0 eq_refl). }
      destruct (functionCalls response) as [fcs|] eqn:Hf.
      * destruct (thumbnailCall_of_considered _ _ _ Hc Hfound) as [-> _].
        destruct (functionCalls_spec _ _ Hf) as (ps & Hps & -> & _).
        unfold contains_call. split.
        -- intros (fc & Hin & Hname). apply in_filter_map in Hin.
           destruct Hin as (part & Hin & Hfc). exists ps, part, fc. auto.
        -- intros (ps' & part & fc & Hps' & Hin & Hfc & Hname).
           rewrite Hps in Hps'. injection Hps' as <-.
           exists fc. split; [|exact Hname]. apply in_filter_map. eauto.
      * rewrite (thumbnailCall_of_no_calls _ Hc) in Hfound.
        injection Hfound as <-. split; [congruence|].
        intros (ps & part & fc & Hps & Hin & Hfc & _).
        exfalso. exact (functionCalls_none _ Hf ps part fc Hps Hin Hfc).
    + intros part0 fc0 H0 Hf0.
      assert (Hc : considered_calls response = Some [fc0]).
      { unfold considered_calls. now rewrite H0, Hf0. }
      destruct (thumbnailCall_of_considered _ _ _ Hc Hfound) as [-> _].
      split.
      * intros (fc & [<-|[]] & Hname). exact Hname.
      * intros Hname. exists fc0. split; [left; reflexivity | exact Hname].
Qed.

Lemma thumbnail_tool_call_witness :
  exists res,
    sendFollowUpMessage (rt := SampleHost.host)
      (ai := SampleModel.answers
               [textPart "好的"; SampleModel.callPart "generateThumbnail"
                                   [("visualPrompt", "ace on match point")]])
      [] "生成封面" false None "video/mp4" 12%float = Return res
    /\ result_thumbnailCall res <> None.
Proof.
  eexists. split; [vm_compute; reflexivity|].
  refine (proj2 (proj1 (proj2 (proj2 (thumbnail_tool_call SampleHost.host
            (SampleModel.answers
               [textPart "好的"; SampleModel.callPart "generateThumbnail"
                                   [("visualPrompt", "ace on match point")]])
            [] "生成封面" false None "video/mp4" 12%float) _ _ eq_refl _)) _) _).
  - vm_compute. reflexivity.
  - intros part0 [= <-]. reflexivity.
  - exists [textPart "好的"; SampleModel.callPart "generateThumbnail"
                             [("visualPrompt", "ace on match point")]],
           (SampleModel.callPart "generateThumbnail"
              [("visualPrompt", "ace on match point")]),
           {| name := Some "generateThumbnail";
              args := Some [("visualPrompt", "ace on match point")] |}.
    simpl. auto.
Defined.

(** C5.  The response contains a function call named generateThumbnail,
    yet sendFollowUpMessage does not set thumbnailCall to its
    visualPrompt: behind a first part that calls another function the
    call is missed and thumbnailCall is undefined, although the same
    call behind a text part is found (through response.functionCalls);
    and a generateThumbnail call without arguments makes the function
    throw instead of returning a result. *)
Theorem thumbnail_call_missed :
  let wanted := SampleModel.callPart "generateThumbnail" [("visualPrompt", "ace")] in
  let bare :=
    {| text := None; thought := None; inlineData := None;
       functionCall := Some {| name := Some "generateThumbnail"; args := None |} |} in
  let run ps :=
    sendFollowUpMessage (rt := SampleHost.host) (ai := SampleModel.answers ps)
      [] "生成封面" false None "video/mp4" 12%float in
     (contains_call "generateThumbnail"
        (SampleModel.response_of [SampleModel.callPart "other" []; wanted])
      /\ run [SampleModel.callPart "other" []; wanted]
         = Return {| result_text := "抱歉，无法生成回答。";
                     result_groundingSources := [];
                     result_thumbnailCall := None |})
  /\ run [textPart "好的"; wanted]
     = Return {| result_text := "好的";
                 result_groundingSources := [];
                 result_thumbnailCall := Some {| visualPrompt := Some "ace" |} |}
  /\ (contains_call "generateThumbnail" (SampleModel.response_of [textPart "好的"; bare])
      /\ run [textPart "好的"; bare]
         = Throw (TypeError "Cannot read properties of undefined")).
Proof.
  cbv zeta. split; [split|split; [|split]].
  - exists [SampleModel.callPart "other" [];
            SampleModel.callPart "generateThumbnail" [("visualPrompt", "ace")]],
           (SampleModel.callPart "generateThumbnail" [("visualPrompt", "ace")]),
           {| name := Some "generateThumbnail";
              args := Some [("visualPrompt", "ace")] |}.
    simpl. auto.
  - vm_compute. reflexivity.
  - vm_compute. reflexivity.
  - eexists _, _, _. split; [reflexivity|]. split; [right; left; reflexivity|].
    split; reflexivity.
  - vm_compute. reflexivity.
Qed.

End ServiceProps.

(* ================================================================== *)
(** * Collapsing the grounding sources through a Map *)
(* ================================================================== *)

Module SourceFacts.
Import JS.
Import Spec.
Import Types.
Import GeminiService.

Lemma key_eqb_eq (a b : option string) : key_eqb a b = true <-> a = b.
Proof.
  destruct a as [x|], b as [y|]; simpl; try (split; congruence).
  rewrite String.eqb_eq. split; congruence.
Qed.

Lemma key_eqb_refl (a : option string) : key_eqb a a = true.
Proof. now apply key_eqb_eq. Qed.

Lemma key_eqb_sym (a b : option string) : key_eqb a b = key_eqb b a.
Proof.
  destruct (key_eqb a b) eqn:E1, (key_eqb b a) eqn:E2; try reflexivity.
  - apply key_eqb_eq in E1. subst. now rewrite key_eqb_refl in E2.
  - apply key_eqb_eq in E2. subst. now rewrite key_eqb_refl in E1.
Qed.

Lemma existsb_key (k : option string) (ks : list (option string)) :
  existsb (key_eqb k) ks = true <-> In k ks.
Proof.
  rewrite existsb_exists. split.
  - intros (x & Hin & Hx). apply key_eqb_eq in Hx. now subst.
  - intros H. exists k. split; [exact H | apply key_eqb_refl].
Qed.

(** ** [filter_map] *)

Lemma filter_map_app {A B : Type} (f : A -> option B) (l1 l2 : list A) :
  filter_map f (l1 ++ l2) = (filter_map f l1 ++ filter_map f l2)%list.
Proof.
  induction l1 as [|a l1 IH]; simpl; [reflexivity|].
  destruct (f a); simpl; now rewrite IH.
Qed.

Lemma filter_map_ext_in {A B : Type} (f g : A -> option B) (l : list A) :
  (forall x, In x l -> f x = g x) -> filter_map f l = filter_map g l.
Proof.
  induction l as [|a l IH]; intros H; simpl; [reflexivity|].
  rewrite (H a (or_introl eq_refl)), IH; [reflexivity|].
  intros x Hx. apply H. now right.
Qed.

Lemma map_filter_map {A B C : Type} (f : A -> option B) (g : B -> C) (l : list A) :
  map g (filter_map f l) = filter_map (fun x => option_map g (f x)) l.
Proof.
  induction l as [|a l IH]; simpl; [reflexivity|].
  destruct (f a); simpl; now rewrite IH.
Qed.

Lemma filter_map_total {A B : Type} (f : A -> option B) (g : B -> A) (l : list A) :
  (forall x, In x l -> exists y, f x = Some y /\ g y = x) ->
  map g (filter_map f l) = l.
Proof.
  induction l as [|a l IH]; intros H; simpl; [reflexivity|].
  destruct (H a (or_introl eq_refl)) as (y & -> & Hy). simpl.
  rewrite Hy, IH; [reflexivity|]. intros x Hx. apply H. now right.
Qed.

(** ** The keys in first-occurrence order *)

Lemma in_first_occurrences (k : option string) (ks : list (option string)) :
  In k (first_occurrences ks) <-> In k ks.
Proof.
  induction ks as [|a ks IH]; simpl; [reflexivity|].
  rewrite filter_In, IH. split.
  - intros [H|[H _]]; auto.
  - intros [H|H]; [now left|].
    destruct (key_eqb a k) eqn:E.
    + left. now apply key_eqb_eq.
    + right. split; [exact H | reflexivity].
Qed.

Lemma NoDup_first_occurrences (ks : list (option string)) :
  NoDup (first_occurrences ks).
Proof.
  induction ks as [|a ks IH]; simpl; constructor.
  - rewrite filter_In. intros [_ H]. now rewrite key_eqb_refl in H.
  - now apply NoDup_filter.
Qed.

Lemma first_occurrences_snoc (ks : list (option string)) (k : option string) :
  first_occurrences (ks ++ [k])
  = if existsb (key_eqb k) ks then first_occurrences ks
    else (first_occurrences ks ++ [k])%list.
Proof.
  induction ks as [|a ks IH]; simpl; [reflexivity|].
  rewrite IH. destruct (existsb (key_eqb k) ks) eqn:E.
  - now rewrite orb_true_r.
  - rewrite orb_false_r, filter_app. simpl.
    rewrite (key_eqb_sym a k).
    destruct (key_eqb k a); simpl; [now rewrite app_nil_r | reflexivity].
Qed.

(** ** The most recently received source *)

Lemma latest_snoc (u : option string) (l : list GroundingSource) (s : GroundingSource) :
  latest u (l ++ [s]) = if key_eqb (uri s) u then Some s else latest u l.
Proof.
  induction l as [|a l IH]; simpl.
  - reflexivity.
  - rewrite IH. destruct (key_eqb (uri s) u); reflexivity.
Qed.

Lemma latest_sound (u : option string) (l : list GroundingSource) (s : GroundingSource) :
  latest u l = Some s -> uri s = u /\ In s l.
Proof.
  induction l as [|a l IH]; simpl; [discriminate|].
  destruct (latest u l) as [s'|].
  - intros [= <-]. destruct (IH eq_refl). auto.
  - destruct (key_eqb (uri a) u) eqn:E; [|discriminate].
    intros [= <-]. apply key_eqb_eq in E. auto.
Qed.

Lemma latest_complete (u : option string) (l : list GroundingSource) :
  In u (map uri l) -> exists s, latest u l = Some s.
Proof.
  induction l as [|a l IH]; simpl; [contradiction|].
  intros [H|H].
  - destruct (latest u l); [eauto|].
    rewrite H, key_eqb_refl. eauto.
  - destruct (IH H) as [s ->]. eauto.
Qed.

(** ** The collapsed list *)

Lemma collapsed_keys (l : list GroundingSource) :
  map uri (collapsed l) = first_occurrences (map uri l).
Proof.
  unfold collapsed. apply filter_map_total.
  intros u Hu. apply -> in_first_occurrences in Hu.
  destruct (latest_complete u l Hu) as [s Hs].
  exists s. split; [exact Hs|]. apply (latest_sound _ _ _ Hs).
Qed.

Lemma collapsed_NoDup (l : list GroundingSource) : NoDup (map uri (collapsed l)).
Proof. rewrite collapsed_keys. apply NoDup_first_occurrences. Qed.

Lemma collapsed_latest (l : list GroundingSource) (s : GroundingSource) :
  In s (collapsed l) -> latest (uri s) l = Some s.
Proof.
  unfold collapsed. intros H.
  apply ServiceProps.in_filter_map in H. destruct H as (u & _ & Hu).
  destruct (latest_sound _ _ _ Hu) as [<- _]. exact Hu.
Qed.

Lemma collapsed_nil (l : list GroundingSource) : collapsed l = [] <-> l = [].
Proof.
  split; [|now intros ->].
  intros H. apply (f_equal (map uri)) in H. rewrite collapsed_keys in H.
  destruct l; [reflexivity | discriminate].
Qed.

Lemma collapsed_snoc (l : list GroundingSource) (s : GroundingSource) :
  collapsed (l ++ [s])
  = if existsb (key_eqb (uri s)) (map uri l)
    then map (fun c => if key_eqb (uri c) (uri s) then s else c) (collapsed l)
    else (collapsed l ++ [s])%list.
Proof.
  unfold collapsed at 1.
  rewrite map_app. simpl map. rewrite first_occurrences_snoc.
  destruct (existsb (key_eqb (uri s)) (map uri l)) eqn:E.
  - unfold collapsed. rewrite map_filter_map. apply filter_map_ext_in.
    intros u Hu. rewrite latest_snoc.
    apply -> in_first_occurrences in Hu.
    destruct (latest_complete u l Hu) as [c Hc]. rewrite Hc. simpl.
    destruct (latest_sound _ _ _ Hc) as [-> _].
    rewrite (key_eqb_sym (uri s) u).
    destruct (key_eqb u (uri s)); reflexivity.
  - rewrite filter_map_app. simpl.
    rewrite latest_snoc, key_eqb_refl. f_equal.
    apply filter_map_ext_in. intros u Hu. rewrite latest_snoc.
    destruct (key_eqb (uri s) u) eqn:Eu; [|reflexivity].
    apply key_eqb_eq in Eu. subst u.
    apply -> in_first_occurrences in Hu. apply <- existsb_key in Hu. congruence.
Qed.

(** ** The Map of the service *)

Lemma Map_of_snoc {K V : Type} (eqb : K -> K -> bool) (es : list (K * V)) k v :
  Map_of eqb (es ++ [(k, v)]) = Map_set eqb (Map_of eqb es) k v.
Proof. unfold Map_of. now rewrite fold_left_app. Qed.

Lemma Map_has_keyed (l : list GroundingSource) (k : option string) :
  Map_has key_eqb (keyed l) k = existsb (key_eqb k) (map uri l).
Proof.
  induction l as [|a l IH]; simpl; [reflexivity|].
  now rewrite IH, (key_eqb_sym (uri a) k).
Qed.

Lemma Map_replace_keyed (l : list GroundingSource) (s : GroundingSource) :
  NoDup (map uri l) ->
  Map_replace key_eqb (keyed l) (uri s) s
  = keyed (map (fun c => if key_eqb (uri c) (uri s) then s else c) l).
Proof.
  induction l as [|a l IH]; intros Hnd; simpl; [reflexivity|].
  inversion Hnd as [|x xs Hnotin Hnd']; subst.
  destruct (key_eqb (uri a) (uri s)) eqn:E.
  - apply key_eqb_eq in E. rewrite E. f_equal. unfold keyed. f_equal.
    rewrite <- (map_id l) at 1. apply map_ext_in.
    intros c Hc. destruct (key_eqb (uri c) (uri s)) eqn:Ec; [|reflexivity].
    apply key_eqb_eq in Ec. exfalso. apply Hnotin.
    rewrite E, <- Ec. now apply in_map.
  - now rewrite (IH Hnd').
Qed.

Lemma Map_of_keyed (l : list GroundingSource) :
  Map_of key_eqb (keyed l) = keyed (collapsed l).
Proof.
  induction l as [|s l IH] using rev_ind; [reflexivity|].
  unfold keyed at 1. rewrite map_app. simpl map.
  rewrite Map_of_snoc. fold (keyed l). rewrite IH.
  unfold Map_set. rewrite Map_has_keyed, collapsed_keys, collapsed_snoc.
  assert (E : existsb (key_eqb (uri s)) (first_occurrences (map uri l))
              = existsb (key_eqb (uri s)) (map uri l)).
  { destruct (existsb (key_eqb (uri s)) (map uri l)) eqn:E1.
    - apply <- existsb_key. apply <- in_first_occurrences.
      apply -> existsb_key. exact E1.
    - destruct (existsb (key_eqb (uri s)) (first_occurrences (map uri l))) eqn:E2;
        [|reflexivity].
      apply -> existsb_key in E2. apply -> in_first_occurrences in E2.
      apply <- existsb_key in E2. congruence. }
  rewrite E. destruct (existsb (key_eqb (uri s)) (map uri l)).
  - apply Map_replace_keyed, collapsed_NoDup.
  - unfold keyed. now rewrite map_app.
Qed.

(** What the service computes is the collapsed list. *)
Lemma uniqueSources_collapsed (l : list GroundingSource) :
  uniqueSources l = collapsed l.
Proof.
  unfold uniqueSources. fold (keyed l). rewrite Map_of_keyed.
  unfold Map_values, keyed. rewrite map_map. simpl. apply map_id.
Qed.

End SourceFacts.

(* ================================================================== *)
(** * The service: the streaming loop *)
(* ================================================================== *)

Module StreamProps.
Import JS.
Import Spec.
Import StringFacts.
Import Types.
Import GenAI.
Import GeminiService.

Lemma concat_texts_cons chunk chunks :
  concat_texts (chunk :: chunks) = chunk_text chunk ++ concat_texts chunks.
Proof. reflexivity. Qed.

Lemma concat_texts_snoc chunks chunk :
  concat_texts (chunks ++ [chunk]) = concat_texts chunks ++ chunk_text chunk.
Proof.
  induction chunks as [|c chunks IH]; simpl.
  - unfold concat_texts. simpl. now rewrite append_nil_r.
  - rewrite !concat_texts_cons, IH. now rewrite append_assoc.
Qed.

Lemma received_sources_cons chunk chunks :
  received_sources (chunk :: chunks)
  = (match first_groundingChunks chunk with
     | Some gcs => webSources gcs
     | None => []
     end ++ received_sources chunks)%list.
Proof. reflexivity. Qed.

Lemma firstn_S_nth {A : Type} (l : list A) : forall k x,
  nth_error l k = Some x -> firstn (S k) l = (firstn k l ++ [x])%list.
Proof.
  induction l as [|a l IH]; intros [|k] x Hk; try discriminate.
  - now injection Hk as ->.
  - change (firstn (S (S k)) (a :: l)) with (a :: firstn (S k) l).
    rewrite (IH k x Hk). reflexivity.
Qed.

Lemma received_sources_app chunks1 chunks2 :
  received_sources (chunks1 ++ chunks2)
  = (received_sources chunks1 ++ received_sources chunks2)%list.
Proof. apply flat_map_app. Qed.

(** One turn of the loop. *)
Lemma stream_step_spec chunk fullText sources :
  stream_step chunk fullText sources
  = (fullText ++ chunk_text chunk,
     (sources ++ received_sources [chunk])%list,
     (fullText ++ chunk_text chunk,
      sources_argument (sources ++ received_sources [chunk])%list)).
Proof.
  unfold stream_step, chunk_text.
  assert (Ht : match response_text chunk with
               | Some text => if truthy_string text then fullText ++ text else fullText
               | None => fullText
               end
               = fullText ++ match response_text chunk with
                             | Some t => t
                             | None => EmptyString
                             end).
  { destruct (response_text chunk) as [[|c t]|]; simpl;
      now rewrite ?append_nil_r. }
  assert (Hs : match first_groundingChunks chunk with
               | Some gcs => (sources ++ webSources gcs)%list
               | None => sources
               end
               = (sources ++ received_sources [chunk])%list).
  { rewrite received_sources_cons. simpl. rewrite app_nil_r.
    destruct (first_groundingChunks chunk); [reflexivity | now rewrite app_nil_r]. }
  rewrite Ht, Hs, SourceFacts.uniqueSources_collapsed.
  repeat f_equal. unfold sources_argument.
  destruct (sources ++ received_sources [chunk])%list as [|s r] eqn:E.
  - reflexivity.
  - destruct (collapsed (s :: r)) eqn:Ec; [|reflexivity].
    apply -> SourceFacts.collapsed_nil in Ec. discriminate.
Qed.

(** The loop: the final text, and the argument of every call. *)
Lemma stream_loop_spec chunks : forall fullText sources,
     snd (stream_loop chunks fullText sources) = fullText ++ concat_texts chunks
  /\ List.length (fst (stream_loop chunks fullText sources)) = List.length chunks
  /\ forall k call,
       nth_error (fst (stream_loop chunks fullText sources)) k = Some call ->
       call = (fullText ++ concat_texts (firstn (S k) chunks),
               sources_argument
                 (sources ++ received_sources (firstn (S k) chunks))%list).
Proof.
  induction chunks as [|chunk chunks IH]; intros fullText sources.
  - simpl. repeat split.
    + unfold concat_texts. simpl. now rewrite append_nil_r.
    + intros [|k] call; discriminate.
  - cbn [stream_loop]. rewrite stream_step_spec.
    specialize (IH (fullText ++ chunk_text chunk)
                   (sources ++ received_sources [chunk])%list).
    destruct (stream_loop chunks (fullText ++ chunk_text chunk)
                (sources ++ received_sources [chunk])%list) as [calls final].
    cbn [fst snd] in *. destruct IH as (Hfinal & Hlen & Hcalls).
    repeat split.
    + rewrite Hfinal, concat_texts_cons. now rewrite append_assoc.
    + simpl. now rewrite Hlen.
    + intros [|k] call Hk.
      * injection Hk as <-. cbn [firstn].
        unfold concat_texts at 1. simpl. now rewrite append_nil_r.
      * rewrite (Hcalls k call Hk).
        change (firstn (S (S k)) (chunk :: chunks))
          with (chunk :: firstn (S k) chunks).
        rewrite concat_texts_cons, append_assoc.
        change (chunk :: firstn (S k) chunks)
          with ([chunk] ++ firstn (S k) chunks)%list.
        now rewrite received_sources_app, app_assoc.
Qed.

Lemma run_streaming {rt : Runtime} {ai : GoogleGenAI}
    (base64Data mimeType : string) (style : CommentaryStyle)
    (enableSearch : bool) (videoDuration : number) (stream : ResponseStream) :
  generateContentStream
    (generateVideoCommentary_request base64Data mimeType style enableSearch
                                     videoDuration) = Return stream ->
  generateVideoCommentary base64Data mimeType style enableSearch videoDuration
  = (fst (stream_loop (chunks stream) EmptyString []),
     match failure stream with
     | None => Return (snd (stream_loop (chunks stream) EmptyString []))
     | Some error => Throw error
     end).
Proof.
  unfold generateVideoCommentary. intros ->.
  destruct (stream_loop (chunks stream) EmptyString []) as [calls fullText].
  destruct (failure stream); reflexivity.
Qed.

(** C3.  In the streaming loop of generateVideoCommentary every chunk
    is relayed to the UI callback as it arrives: there is one call of
    the callback per chunk, in arrival order, and the text of the call
    for a chunk is the text relayed before it followed by the text of
    that chunk.  The string the function returns is the concatenation
    of all chunk texts in arrival order. *)
Theorem streamed_commentary (rt : Runtime) (ai : GoogleGenAI)
    (base64Data mimeType : string) (style : CommentaryStyle)
    (enableSearch : bool) (videoDuration : number) (stream : ResponseStream) :
  generateContentStream
    (generateVideoCommentary_request base64Data mimeType style enableSearch
                                     videoDuration) = Return stream ->
  let calls :=
    fst (generateVideoCommentary base64Data mimeType style enableSearch
                                 videoDuration) in
  let result :=
    snd (generateVideoCommentary base64Data mimeType style enableSearch
                                 videoDuration) in
     List.length calls = List.length (chunks stream)
  /\ (forall k chunk, nth_error (chunks stream) k = Some chunk ->
        exists call, nth_error calls k = Some call
                     /\ fst call
                        = concat_texts (firstn k (chunks stream)) ++ chunk_text chunk)
  /\ (failure stream = None -> result = Return (concat_texts (chunks stream)))
  /\ (forall error, failure stream = Some error -> result = Throw error).
Proof.
  intros Hstream. cbv zeta.
  rewrite (run_streaming _ _ _ _ _ stream Hstream). cbn [fst snd].
  destruct (stream_loop_spec (chunks stream) EmptyString []) as (Hfinal & Hlen & Hcalls).
  split; [exact Hlen|]. split; [|split].
  - intros k chunk Hk.
    assert (Hlt : k < List.length (fst (stream_loop (chunks stream) EmptyString []))).
    { rewrite Hlen. apply nth_error_Some. congruence. }
    apply nth_error_Some in Hlt.
    destruct (nth_error (fst (stream_loop (chunks stream) EmptyString [])) k)
      as [call|] eqn:Hcall; [|congruence].
    exists call. split; [reflexivity|].
    rewrite (Hcalls k call Hcall). cbn [fst].
    now rewrite (firstn_S_nth _ _ _ Hk), concat_texts_snoc.
  - intros ->. now rewrite Hfinal.
  - intros error ->. reflexivity.
Qed.

Lemma streamed_commentary_witness :
  snd (generateVideoCommentary (rt := SampleHost.host)
         (ai := SampleModel.streams
                  [SampleModel.chunk_of "标题：" []; SampleModel.chunk_of "ACE!" []])
         "AAAA" "video/mp4" EXCITED false 12%float)
  = Return "标题：ACE!".
Proof.
  apply (proj1 (proj2 (proj2
           (streamed_commentary SampleHost.host
              (SampleModel.streams
                 [SampleModel.chunk_of "标题：" []; SampleModel.chunk_of "ACE!" []])
              "AAAA" "video/mp4" EXCITED false 12%float _ eq_refl)))).
  reflexivity.
Defined.

(** C10.  The grounding-source list passed to the streaming callback
    holds at most one entry per uri: the sources received so far with
    duplicates collapsed, in the order of the first occurrence of each
    uri, each entry being the most recently received source (title) for
    its uri; and undefined is passed instead of an empty list when no
    source has been received. *)
Theorem grounding_sources_collapsed (rt : Runtime) (ai : GoogleGenAI)
    (base64Data mimeType : string) (style : CommentaryStyle)
    (enableSearch : bool) (videoDuration : number) (stream : ResponseStream)
    (k : nat) (call : OnStreamCall) :
  generateContentStream
    (generateVideoCommentary_request base64Data mimeType style enableSearch
                                     videoDuration) = Return stream ->
  nth_error (fst (generateVideoCommentary base64Data mimeType style enableSearch
                                          videoDuration)) k = Some call ->
  let received := received_sources (firstn (S k) (chunks stream)) in
     (received = [] -> snd call = None)
  /\ (received <> [] ->
      exists unique,
        snd call = Some unique /\ unique <> []
        /\ unique = collapsed received
        /\ NoDup (map Types.uri unique)
        /\ map Types.uri unique = first_occurrences (map Types.uri received)
        /\ (forall s, In s unique -> In s received /\ latest (Types.uri s) received = Some s)
        /\ (forall s, In s received -> In (Types.uri s) (map Types.uri unique))).
Proof.
  intros Hstream Hcall. cbv zeta.
  rewrite (run_streaming _ _ _ _ _ stream Hstream) in Hcall. cbn [fst] in Hcall.
  destruct (stream_loop_spec (chunks stream) EmptyString []) as (_ & _ & Hcalls).
  rewrite (Hcalls k call Hcall). cbn [snd app].
  set (received := received_sources (firstn (S k) (chunks stream))).
  split.
  - intros ->. reflexivity.
  - intros Hne. exists (collapsed received).
    destruct received as [|s0 r] eqn:E; [congruence|]. rewrite <- E.
    split; [now rewrite E|].
    split; [rewrite SourceFacts.collapsed_nil; congruence|].
    split; [reflexivity|].
    split; [apply SourceFacts.collapsed_NoDup|].
    split; [apply SourceFacts.collapsed_keys|].
    split.
    + intros s Hs. pose proof (SourceFacts.collapsed_latest _ _ Hs) as Hl.
      split; [apply (SourceFacts.latest_sound _ _ _ Hl) | exact Hl].
    + intros s Hs. rewrite SourceFacts.collapsed_keys.
      apply SourceFacts.in_first_occurrences. now apply in_map.
Qed.

Lemma grounding_sources_collapsed_witness :
  snd (nth 2
         (fst (generateVideoCommentary (rt := SampleHost.host)
                 (ai := SampleModel.streams
                          [SampleModel.chunk_of "a" [("ATP", "https://atp.example")];
                           SampleModel.chunk_of "b" [("WTA", "https://wta.example")];
                           SampleModel.chunk_of "c" [("ATP Tour", "https://atp.example")]])
                 "AAAA" "video/mp4" EXCITED true 12%float))
         (EmptyString, None))
  = Some [ {| Types.title := Some "ATP Tour"; Types.uri := Some "https://atp.example" |};
           {| Types.title := Some "WTA"; Types.uri := Some "https://wta.example" |} ].
Proof.
  destruct (proj2 (grounding_sources_collapsed SampleHost.host
              (SampleModel.streams
                 [SampleModel.chunk_of "a" [("ATP", "https://atp.example")];
                  SampleModel.chunk_of "b" [("WTA", "https://wta.example")];
                  SampleModel.chunk_of "c" [("ATP Tour", "https://atp.example")]])
              "AAAA" "video/mp4" EXCITED true 12%float _ 2 _ eq_refl eq_refl)
            ltac:(discriminate))
    as (unique & Hcall & _ & Hunique & _).
  rewrite Hunique in Hcall. exact Hcall.
Defined.

End StreamProps.

(* ================================================================== *)
(** * The uploader *)
(* ================================================================== *)

Module UploaderProps.
Import JS.
Import Spec.
Import StringFacts.
Import GenAI(Exn(..)).
Import Types.
Import VideoUploader.

Lemma processFile_cases reader createObjectURL file :
  processFile reader createObjectURL file
  = if valid file then
      setIsLoading true
      :: match reader file with
         | Return dataUrl =>
             [onVideoSelected {| file := Some file;
                                 previewUrl := Some (createObjectURL file);
                                 base64Data := nth_error (split "," dataUrl) 1;
                                 mimeType := file_type file |};
              setIsLoading false]
         | Throw e =>
             [console_error "Error processing video" e;
              alert "处理视频文件时出错。";
              setIsLoading false]
         end
    else if startsWith (file_type file) "video/"
         then [alert "为了保证演示流畅，请使用 20MB 以内的视频片段。"]
         else [alert "请上传有效的视频文件。"].
Proof.
  unfold processFile, valid, GeminiService.fileToGenerativePart.
  destruct (startsWith (file_type file) "video/"); simpl; [|reflexivity].
  rewrite N.ltb_antisym.
  destruct (file_size file <=? 20971520)%N; simpl; [|reflexivity].
  destruct (reader file); reflexivity.
Qed.

(** C4, as amended.  processFile lets a file through its validation if
    and only if its MIME type starts with video/ and its size is at
    most 20*1024*1024 bytes.  A rejected file causes an alert only: no
    state change and no onVideoSelected call.  A file that passes and
    is read successfully yields a state with the file, a preview URL,
    the second comma-separated field of the data URL (the base64
    encoding, the data-URL prefix stripped) and the file's MIME type.
    When reading the file fails, onVideoSelected is not called and an
    alert is shown. *)
Theorem processFile_outcomes (reader : File -> Result Exn string)
    (createObjectURL : File -> string) (file : File) :
  let effects := processFile reader createObjectURL file in
     (valid file = true <->
      startsWith (file_type file) "video/" = true
      /\ (file_size file <= 20 * 1024 * 1024)%N)
  /\ (valid file = false -> exists message, effects = [alert message])
  /\ (valid file = true ->
      forall dataUrl, reader file = Return dataUrl ->
        effects = [setIsLoading true;
                   onVideoSelected {| file := Some file;
                                      previewUrl := Some (createObjectURL file);
                                      base64Data := nth_error (split "," dataUrl) 1;
                                      mimeType := file_type file |};
                   setIsLoading false])
  /\ (forall head payload,
        has_char "," head = false -> has_char "," payload = false ->
        nth_error (split "," (head ++ "," ++ payload)) 1 = Some payload)
  /\ (valid file = true ->
      forall e, reader file = Throw e ->
        effects = [setIsLoading true;
                   console_error "Error processing video" e;
                   alert "处理视频文件时出错。";
                   setIsLoading false])
  /\ ((exists state, In (onVideoSelected state) effects) <->
      valid file = true /\ exists dataUrl, reader file = Return dataUrl).
Proof.
  cbv zeta. rewrite processFile_cases.
  split; [|split; [|split; [|split; [|split]]]].
  - unfold valid. rewrite andb_true_iff, N.leb_le. reflexivity.
  - intros ->. destruct (startsWith (file_type file) "video/"); eauto.
  - intros -> dataUrl ->. reflexivity.
  - intros head payload Hh Hp. apply (split_second "," head payload Hh Hp).
  - intros -> e ->. reflexivity.
  - destruct (valid file).
    + destruct (reader file) as [dataUrl|e]; split.
      * intros _. eauto.
      * intros _. eexists. right. left. reflexivity.
      * intros (state & [H|[H|[H|[H|[]]]]]); discriminate.
      * intros (_ & dataUrl & H). discriminate.
    + split.
      * intros (state & H).
        destruct (startsWith (file_type file) "video/");
          destruct H as [H|[]]; discriminate.
      * intros [H _]. discriminate.
Qed.

Lemma processFile_outcomes_witness :
  processFile (SampleModel.readable "AAAA") SampleModel.objectURL SampleModel.clip
  = [setIsLoading true;
     onVideoSelected {| file := Some SampleModel.clip;
                        previewUrl := Some "blob:https://aceinsight.example/rally.mp4";
                        base64Data := Some "AAAA";
                        mimeType := "video/mp4" |};
     setIsLoading false].
Proof.
  apply (proj1 (proj2 (proj2
           (processFile_outcomes (SampleModel.readable "AAAA") SampleModel.objectURL
                                 SampleModel.clip)))
           eq_refl "data:video/mp4;base64,AAAA" eq_refl).
Defined.

(** The claim C4 as stated fails when the file passes the validation
    and cannot be read: no state is handed to onVideoSelected. *)
Lemma processFile_outcomes_counterexample :
  (startsWith (file_type SampleModel.clip) "video/" = true
   /\ (file_size SampleModel.clip <= 20 * 1024 * 1024)%N)
  /\ ~ exists state,
         In (onVideoSelected state)
            (processFile SampleModel.unreadable SampleModel.objectURL SampleModel.clip).
Proof.
  split.
  - split; [reflexivity | apply N.leb_le; reflexivity].
  - intros (state & H). rewrite processFile_cases in H.
    simpl in H. destruct H as [H|[H|[H|[H|[]]]]]; discriminate.
Qed.

End UploaderProps.

(* ================================================================== *)
(** * The chat wiring *)
(* ================================================================== *)

Module AppProps.
Import JS.
Import Spec.
Import GenAI(Exn(..), GoogleGenAI).
Import Types.
Import GeminiService.
Import App.

(** ** Updates of the message list *)

Lemma update_fields_id u msg : id (update_fields u msg) = id msg.
Proof. destruct u; reflexivity. Qed.

Lemma update_fields_written u msg :
  text (update_fields u msg) = update_text u
  /\ isThinking (update_fields u msg) = Some false.
Proof. destruct u; split; reflexivity. Qed.

Lemma update_fields_kept u msg :
  role (update_fields u msg) = role msg
  /\ timestamp (update_fields u msg) = timestamp msg
  /\ videoTitle (update_fields u msg) = videoTitle msg.
Proof. destruct u; repeat split; reflexivity. Qed.

Lemma nth_error_updateMessage target f prev k :
  nth_error (updateMessage target f prev) k
  = option_map (fun msg => if String.eqb (id msg) target then f msg else msg)
               (nth_error prev k).
Proof. unfold updateMessage. apply nth_error_map. Qed.

Lemma applyUpdate_ids target u prev :
  map id (applyUpdate target u prev) = map id prev.
Proof.
  unfold applyUpdate, updateMessage. rewrite map_map. apply map_ext.
  intros msg. destruct (String.eqb (id msg) target); [apply update_fields_id | reflexivity].
Qed.

Lemma applyUpdate_twice target u1 u2 prev :
  applyUpdate target u2 (applyUpdate target u1 prev)
  = updateMessage target (fun msg => update_fields u2 (update_fields u1 msg)) prev.
Proof.
  unfold applyUpdate, updateMessage. rewrite map_map. apply map_ext.
  intros msg. destruct (String.eqb (id msg) target) eqn:E.
  - now rewrite update_fields_id, E.
  - now rewrite E.
Qed.

Lemma NoDup_nth_error_inj {A : Type} (l : list A) : NoDup l ->
  forall i j x, nth_error l i = Some x -> nth_error l j = Some x -> i = j.
Proof.
  intros Hnd i j x Hi Hj.
  apply (proj1 (NoDup_nth_error l) Hnd).
  - apply nth_error_Some. congruence.
  - congruence.
Qed.

Lemma placeholder_update_frame_aux target u prev :
  map id (applyUpdate target u prev) = map id prev
  /\ forall k msg, nth_error prev k = Some msg -> id msg <> target ->
                   nth_error (applyUpdate target u prev) k = Some msg.
Proof.
  split; [apply applyUpdate_ids|].
  intros k msg Hk Hid. unfold applyUpdate.
  rewrite nth_error_updateMessage, Hk. simpl.
  apply String.eqb_neq in Hid. now rewrite Hid.
Qed.

Lemma update_fields_sources u msg :
  groundingSources (update_fields u msg)
  = match written_sources u with
    | Some sources => sources
    | None => groundingSources msg
    end.
Proof. destruct u; reflexivity. Qed.

Lemma update_fields_thumbnail u msg :
  thumbnailUrl (update_fields u msg)
  = match written_thumbnail u with
    | Some url => url
    | None => thumbnailUrl msg
    end.
Proof. destruct u; reflexivity. Qed.

Lemma update_fields_overwrites later earlier msg :
  overwrites later earlier = true ->
  update_fields later (update_fields earlier msg) = update_fields later msg.
Proof. destruct later, earlier; try discriminate; reflexivity. Qed.

(** C6, as amended.  Every update applied to the message list during
    streaming, on completion or on error changes only messages whose id
    is the placeholder identifier of the request, which is a single
    message when the ids in the list are distinct: every other message,
    the length of the list and the order of the messages are unchanged.
    An update overwrites the fields it writes: the text and the
    thinking flag always, the sources for a streaming or completion
    update, the thumbnail for a completion update.  For these fields
    the last update wins; an error update keeps the sources and the
    thumbnail written before it, and an update that writes every field
    the earlier one wrote leaves what it alone would. *)
Theorem placeholder_update_frame (target : string) (u : Update) (prev : list Message) :
  let next := applyUpdate target u prev in
     List.length next = List.length prev
  /\ map id next = map id prev
  /\ (forall k msg, nth_error prev k = Some msg -> id msg <> target ->
        nth_error next k = Some msg)
  /\ (forall k msg, nth_error prev k = Some msg -> id msg = target ->
        nth_error next k = Some (update_fields u msg)
        /\ role (update_fields u msg) = role msg
        /\ timestamp (update_fields u msg) = timestamp msg)
  /\ (NoDup (map id prev) ->
      forall i j mi mj,
        nth_error prev i = Some mi -> nth_error prev j = Some mj ->
        nth_error next i <> Some mi -> nth_error next j <> Some mj -> i = j)
  /\ (forall earlier k msg,
        nth_error (applyUpdate target u (applyUpdate target earlier prev)) k = Some msg ->
        id msg = target ->
        text msg = update_text u /\ isThinking msg = Some false)
  /\ (forall text1 sources1 text2 sources2,
        applyUpdate target (Streamed text2 sources2)
          (applyUpdate target (Streamed text1 sources1) prev)
        = applyUpdate target (Streamed text2 sources2) prev)
  /\ (forall earlier k msg,
        nth_error prev k = Some msg -> id msg = target ->
        exists final,
          nth_error (applyUpdate target u (applyUpdate target earlier prev)) k
          = Some final
          /\ text final = update_text u
          /\ isThinking final = Some false
          /\ groundingSources final
             = match written_sources u with
               | Some sources => sources
               | None => groundingSources (update_fields earlier msg)
               end
          /\ thumbnailUrl final
             = match written_thumbnail u with
               | Some url => url
               | None => thumbnailUrl (update_fields earlier msg)
               end
          /\ id final = id msg /\ role final = role msg
          /\ timestamp final = timestamp msg /\ videoTitle final = videoTitle msg)
  /\ (forall earlier, overwrites u earlier = true ->
        applyUpdate target u (applyUpdate target earlier prev)
        = applyUpdate target u prev).
Proof.
  cbv zeta. split; [|split; [|split; [|split; [|split; [|split; [|split; [|split]]]]]]].
  - unfold applyUpdate, updateMessage. apply length_map.
  - apply applyUpdate_ids.
  - intros k msg Hk Hid. unfold applyUpdate.
    rewrite nth_error_updateMessage, Hk. simpl.
    apply String.eqb_neq in Hid. now rewrite Hid.
  - intros k msg Hk Hid. unfold applyUpdate.
    rewrite nth_error_updateMessage, Hk. simpl.
    apply String.eqb_eq in Hid. rewrite Hid.
    destruct (update_fields_kept u msg) as (Hr & Ht & _). auto.
  - intros Hnd i j mi mj Hi Hj Hci Hcj.
    assert (Hchanged : forall k m, nth_error prev k = Some m ->
              nth_error (applyUpdate target u prev) k <> Some m -> id m = target).
    { intros k m Hk Hc. unfold applyUpdate in Hc.
      rewrite nth_error_updateMessage, Hk in Hc. simpl in Hc.
      destruct (String.eqb (id m) target) eqn:E; [|congruence].
      now apply String.eqb_eq. }
    apply (NoDup_nth_error_inj (map id prev) Hnd i j target).
    + rewrite nth_error_map, Hi. simpl. f_equal. eauto.
    + rewrite nth_error_map, Hj. simpl. f_equal. eauto.
  - intros earlier k msg Hk Hid.
    rewrite applyUpdate_twice, nth_error_updateMessage in Hk.
    destruct (nth_error prev k) as [m|]; [|discriminate].
    simpl in Hk. destruct (String.eqb (id m) target) eqn:E.
    + injection Hk as <-. apply update_fields_written.
    + injection Hk as <-. apply String.eqb_neq in E. contradiction.
  - intros text1 sources1 text2 sources2.
    rewrite applyUpdate_twice. unfold applyUpdate, updateMessage.
    apply map_ext. intros msg. destruct (String.eqb (id msg) target); reflexivity.
  - intros earlier k msg Hk Hid.
    rewrite applyUpdate_twice, nth_error_updateMessage, Hk. simpl option_map.
    apply String.eqb_eq in Hid. rewrite Hid.
    eexists. split; [reflexivity|].
    destruct (update_fields_written u (update_fields earlier msg)) as [Ht Hth].
    destruct (update_fields_kept u (update_fields earlier msg)) as (Hr & Hts & Hv).
    destruct (update_fields_kept earlier msg) as (Hr' & Hts' & Hv').
    rewrite update_fields_sources, update_fields_thumbnail, !update_fields_id.
    repeat split; congruence.
  - intros earlier Hover.
    rewrite applyUpdate_twice. unfold applyUpdate, updateMessage.
    apply map_ext. intros msg.
    destruct (String.eqb (id msg) target); [|reflexivity].
    now apply update_fields_overwrites.
Qed.

(** The claim C6 as stated fails in two ways.  The last update does not
    win outright: the error update after a streaming update keeps the
    sources the streaming update wrote, as the message does that
    handleStartAnalysis leaves when the stream breaks after a chunk with
    a source.  And an update rewrites every message with the
    placeholder id, two of them when the id is repeated. *)
Lemma placeholder_update_frame_counterexample :
  let source := {| title := Some "ATP"; uri := Some "https://atp.example" |} in
  let one := [placeholder "7" 0%float] in
  let two := [placeholder "7" 0%float; placeholder "7" 1%float] in
     applyUpdate "7" AnalysisFailed (applyUpdate "7" (Streamed "ACE" (Some [source])) one)
     <> applyUpdate "7" AnalysisFailed one
  /\ map groundingSources
       (applyUpdate "7" AnalysisFailed
          (applyUpdate "7" (Streamed "ACE" (Some [source])) one))
     = [Some [source]]
  /\ map groundingSources
       (messages
          (handleStartAnalysis (rt := SampleHost.host)
             (ai := SampleModel.scripted (Throw (Error "not a chat model"))
                      (Return {| GenAI.chunks :=
                                   [SampleModel.chunk_of "ACE"
                                      [("ATP", "https://atp.example")]];
                                 GenAI.failure := Some (Error "connection reset") |}))
             (SampleModel.page_with_video "data:,")
             (handleVideoSelected
                {| file := Some SampleModel.clip; previewUrl := Some "blob:1";
                   base64Data := Some "AAAA"; mimeType := "video/mp4" |}
                initialState)))
     = [Some [source]]
  /\ map text (applyUpdate "7" (Streamed "ACE" None) two) = ["ACE"; "ACE"]
  /\ map text two = [EmptyString; EmptyString].
Proof.
  cbv zeta. split; [|split; [|split; [|split]]].
  - intros H. apply (f_equal (map groundingSources)) in H.
    vm_compute in H. discriminate H.
  - reflexivity.
  - vm_compute. reflexivity.
  - reflexivity.
  - reflexivity.
Qed.

Lemma placeholder_update_frame_witness :
  nth_error
    (applyUpdate "1700000000001" (Streamed "标题：ACE" None)
       [placeholder "1700000000000" 0%float; placeholder "1700000000001" 1%float])
    0
  = Some (placeholder "1700000000000" 0%float).
Proof.
  apply (proj1 (proj2 (proj2
           (placeholder_update_frame "1700000000001" (Streamed "标题：ACE" None)
              [placeholder "1700000000000" 0%float;
               placeholder "1700000000001" 1%float])))
           0 (placeholder "1700000000000" 0%float) eq_refl).
  discriminate.
Defined.


(** ** The handlers only touch the list through these updates *)

Section Handlers.
Context {rt : Runtime} {ai : GoogleGenAI}.

Lemma fold_updates_frame target (calls : list OnStreamCall) : forall prev,
  let next :=
    fold_left (fun prev (call : OnStreamCall) =>
                 applyUpdate target (Streamed (fst call) (snd call)) prev)
              calls prev in
  map id next = map id prev
  /\ forall k msg, nth_error prev k = Some msg -> id msg <> target ->
                   nth_error next k = Some msg.
Proof.
  induction calls as [|call calls IH]; intros prev; cbn [fold_left].
  - split; auto.
  - destruct (IH (applyUpdate target (Streamed (fst call) (snd call)) prev))
      as [Hids Hkeep].
    destruct (placeholder_update_frame_aux target (Streamed (fst call) (snd call)) prev)
      as [Hids1 Hkeep1].
    split.
    + now rewrite Hids.
    + intros k msg Hk Hid. apply Hkeep; auto.
Qed.

(** handleStartAnalysis appends one placeholder and leaves every
    earlier message with another id as it was. *)
Lemma handleStartAnalysis_frame (page : Page) (st : AppState) :
  let st' := handleStartAnalysis page st in
  st' = st
  \/ (map id (messages st')
      = (map id (messages st) ++ [Number_toString (Date_now page 0)])%list
      /\ forall k msg, nth_error (messages st) k = Some msg ->
                       id msg <> Number_toString (Date_now page 0) ->
                       nth_error (messages st') k = Some msg).
Proof.
  cbv zeta. unfold handleStartAnalysis.
  destruct (base64Data (videoState st)) as [base64|]; [|now left].
  destruct (negb (truthy_string base64)
            || negb (truthy_string (mimeType (videoState st)))); [now left|].
  right.
  destruct (generateVideoCommentary base64 (mimeType (videoState st))
              (selectedStyle st) (enableSearch st) (currentDuration page))
    as [calls outcome].
  set (target := Number_toString (Date_now page 0)).
  set (start := (messages st ++ [placeholder target (Date_now page 1)])%list).
  destruct (fold_updates_frame target calls start) as [Hids Hkeep].
  set (streamedMsgs := fold_left _ calls start) in *.
  assert (Hstart : forall k msg, nth_error (messages st) k = Some msg ->
                                 nth_error start k = Some msg).
  { intros k msg Hk. unfold start. rewrite nth_error_app1; [exact Hk|].
    apply nth_error_Some. congruence. }
  destruct outcome as [fullText|error]; cbn [messages with_messages].
  - split.
    + rewrite Hids. unfold start. now rewrite map_app.
    + intros k msg Hk Hid. apply Hkeep; auto.
  - destruct (placeholder_update_frame_aux target AnalysisFailed streamedMsgs)
      as [Hids1 Hkeep1].
    split.
    + rewrite Hids1, Hids. unfold start. now rewrite map_app.
    + intros k msg Hk Hid. apply Hkeep1; auto.
Qed.

End Handlers.

(** ** handleSendMessage and the thumbnail tool *)

Lemma bot_message_updated target u (l : list Message) (a : Message) now :
  nth_error (applyUpdate target u ((l ++ [a]) ++ [placeholder target now])%list)
            (List.length l + 1)
  = Some (update_fields u (placeholder target now)).
Proof.
  unfold applyUpdate. rewrite nth_error_updateMessage.
  rewrite nth_error_app2 by (rewrite length_app; simpl; lia).
  rewrite length_app. simpl List.length.
  replace (List.length l + 1 - (List.length l + 1)) with 0 by lia.
  simpl. now rewrite String.eqb_refl.
Qed.

(** C8.  When a follow-up response carries a thumbnailCall and a frame
    can be captured from the playback element, handleSendMessage calls
    generateAIImage once, with exactly that frame and the visualPrompt
    of the call, and stores the returned image URL on the bot message;
    when no frame can be captured, no image-generation call is made and
    a failure note is appended to the text of the message instead. *)
Theorem thumbnail_generation (rt : Runtime) (ai : GoogleGenAI) (page : Page)
    (st : AppState) (response : FollowUpResult) (call : ThumbnailCall) :
  truthy_string (trim (inputText st)) = true ->
  isProcessing st = false ->
  sendFollowUpMessage (messages st) (inputText st) (enableSearch st)
    (base64Data (videoState st)) (mimeType (videoState st)) (currentDuration page)
  = Return response ->
  result_thumbnailCall response = Some call ->
  let st' := fst (handleSendMessage page st) in
  let imageCalls := snd (handleSendMessage page st) in
  let bot finalBotText url := {|
    id := Number_toString (PrimFloat.add (Date_now page 2) 1%float);
    role := model; text := finalBotText; timestamp := Date_now page 3;
    isThinking := Some false; videoTitle := None; thumbnailUrl := url;
    groundingSources := Some (result_groundingSources response) |} in
  let botIndex := List.length (messages st) + 1 in
     (forall frame,
        captureCurrentFrame page = Some frame -> frame <> EmptyString ->
           imageCalls = [(frame, visualPrompt call)]
        /\ (forall url,
              generateAIImage frame (visualPrompt call) = Return url ->
              nth_error (messages st') botIndex
              = Some (bot (result_text response) (Some url)))
        /\ (forall e,
              generateAIImage frame (visualPrompt call) = Throw e ->
              nth_error (messages st') botIndex
              = Some (bot (result_text response ++ imageFailedNote) None)))
  /\ (captureCurrentFrame page = None \/ captureCurrentFrame page = Some EmptyString ->
         imageCalls = []
      /\ nth_error (messages st') botIndex
         = Some (bot (result_text response ++ frameFailedNote) None)).
Proof.
  intros Htrim Hproc Hsend Hcall. cbv zeta.
  unfold handleSendMessage. rewrite Htrim, Hproc. cbn [negb orb text].
  rewrite Hsend. unfold thumbnailStep. rewrite Hcall.
  split.
  - intros frame -> Hframe.
    destruct frame as [|c frame]; [congruence|]. cbn [truthy_string].
    destruct (generateAIImage (String c frame) (visualPrompt call)) as [url|e];
      cbn [fst snd messages with_messages].
    + split; [reflexivity|]. split.
      * intros url' [= <-]. apply bot_message_updated.
      * discriminate.
    + split; [reflexivity|]. split.
      * discriminate.
      * intros e' _. apply bot_message_updated.
  - intros [->| ->]; cbn [truthy_string fst snd messages with_messages];
      (split; [reflexivity | apply bot_message_updated]).
Qed.

Lemma thumbnail_generation_witness :
  snd (handleSendMessage (rt := SampleHost.host)
         (ai := SampleModel.answers
                  [SampleModel.callPart "generateThumbnail" [("visualPrompt", "ace")];
                   SampleModel.imagePart "QUJD"])
         (SampleModel.page_with_video "data:image/jpeg;base64,ZnJhbWU=")
         (with_messages initialState false true "生成封面" []))
  = [("ZnJhbWU=", Some "ace")].
Proof.
  refine (proj1 (proj1 (thumbnail_generation SampleHost.host
            (SampleModel.answers
               [SampleModel.callPart "generateThumbnail" [("visualPrompt", "ace")];
                SampleModel.imagePart "QUJD"])
            (SampleModel.page_with_video "data:image/jpeg;base64,ZnJhbWU=")
            (with_messages initialState false true "生成封面" [])
            {| result_text := "没问题，正在为您设计视频封面...";
               result_groundingSources := [];
               result_thumbnailCall := Some {| visualPrompt := Some "ace" |} |}
            {| visualPrompt := Some "ace" |} eq_refl eq_refl _ eq_refl)
            "ZnJhbWU=" eq_refl _)).
  - vm_compute. reflexivity.
  - discriminate.
Defined.

End AppProps.

(* ================================================================== *)
(** * Further properties of the service *)
(* ================================================================== *)

Module ServiceExtras.
Import JS.
Import Spec.
Import StringFacts.
Import GenAI.
Import GeminiService.

(** X9.  The first request never declares a function tool, so that no
    thumbnail can be asked for on the first turn; it enables Google
    Search exactly when [enableSearch] is set, in which case the prompt
    is the plain prompt followed by the search paragraph; its
    temperature is 0.2 for the technical style and 0.5 for every other
    style; and its contents are exactly two parts, the video as inline
    data first and the prompt as text second, sent to the model
    gemini-2.5-flash. *)
Theorem commentary_request_config (rt : Runtime) (base64Data mimeType : string)
    (style : CommentaryStyle) (enableSearch : bool) (videoDuration : number) :
  let request :=
    generateVideoCommentary_request base64Data mimeType style enableSearch
                                    videoDuration in
     (exists tools,
        tools_of_request request = Some tools
        /\ declared_functions tools = []
        /\ (In googleSearch tools <-> enableSearch = true))
  /\ (temperature (config request) = Some 0x1.999999999999ap-3%float
      <-> style = TECHNICAL)
  /\ (temperature (config request) = Some 0.5%float <-> style <> TECHNICAL)
  /\ (exists paragraph,
        generateVideoCommentary_prompt style true videoDuration
        = generateVideoCommentary_prompt style false videoDuration ++ paragraph
        /\ occurs_in "Google Search" paragraph)
  /\ contents request
     = [ {| text := None; thought := None;
            inlineData := Some {| mimeType := Some mimeType;
                                  data := Some base64Data |};
            functionCall := None |};
         {| text := Some (generateVideoCommentary_prompt style enableSearch
                                                         videoDuration);
            thought := None; inlineData := None; functionCall := None |} ]
  /\ model request = "gemini-2.5-flash".
Proof.
  cbv zeta. split; [|split; [|split; [|split]]].
  - exists (if enableSearch then [googleSearch] else []).
    split; [reflexivity|]. destruct enableSearch; simpl.
    + split; [reflexivity|]. split; auto.
    + split; [reflexivity|]. split; [contradiction | discriminate].
  - destruct style; cbn; split; intros H; try reflexivity; try discriminate H;
      exfalso; injection H as H;
      apply (f_equal (fun x => PrimFloat.eqb x 0.5%float)) in H;
      vm_compute in H; discriminate H.
  - destruct style; cbn; split; intros H; try reflexivity; try discriminate H;
      congruence.
  - eexists. split; [reflexivity|]. apply includes_elim. reflexivity.
  - split; reflexivity.
Qed.

(** X10.  The text of a follow-up result is never empty: an empty or missing
    response text is replaced by one of the two stock sentences. *)
Theorem followup_text_not_empty (rt : Runtime) (ai : GoogleGenAI)
    (history : list Message) (newMessage : string) (enableSearch : bool)
    (base64VideoData : option string) (mimeType : string) (videoDuration : number)
    (res : FollowUpResult) :
  sendFollowUpMessage history newMessage enableSearch base64VideoData mimeType
                      videoDuration = Return res ->
  result_text res <> EmptyString
  /\ (forall response,
        generateContent
          (sendFollowUpMessage_request history newMessage enableSearch
                                       base64VideoData mimeType videoDuration)
        = Return response ->
        truthy_ostring (response_text response) = false ->
        result_text res
        = match result_thumbnailCall res with
          | Some _ => "没问题，正在为您设计视频封面..."
          | None => "抱歉，无法生成回答。"
          end).
Proof.
  unfold sendFollowUpMessage.
  destruct (generateContent _) as [response|e]; [|discriminate].
  destruct (thumbnailCall_of response) as [found|e]; [|discriminate].
  intros [= <-]. cbn [result_text result_thumbnailCall]. split.
  - destruct (response_text response) as [[|c t]|]; cbn [truthy_string];
      destruct found; discriminate.
  - intros r [= <-] Htext.
    destruct (response_text response) as [[|c t]|]; cbn in Htext |- *;
      try reflexivity; discriminate.
Qed.

Lemma followup_text_not_empty_witness :
  result_text {| result_text := "没问题，正在为您设计视频封面...";
                 result_groundingSources := [];
                 result_thumbnailCall := Some {| visualPrompt := Some "ace" |} |}
  <> EmptyString.
Proof.
  refine (proj1 (followup_text_not_empty SampleHost.host
                   (SampleModel.answers
                      [SampleModel.callPart "generateThumbnail"
                         [("visualPrompt", "ace")]])
                   [] "生成封面" false None "video/mp4" 12%float _ _)).
  vm_compute. reflexivity.
Defined.

(** X11.  Reading the argument of a generateThumbnail call that comes
    without arguments is a TypeError: when the first part of the
    response is such a call, sendFollowUpMessage throws instead of
    returning a result. *)
Theorem followup_call_without_args (rt : Runtime) (ai : GoogleGenAI)
    (history : list Message) (newMessage : string) (enableSearch : bool)
    (base64VideoData : option string) (mimeType : string) (videoDuration : number)
    (response : GenerateContentResponse) (part0 : Part) (fc : FunctionCall) :
  generateContent
    (sendFollowUpMessage_request history newMessage enableSearch base64VideoData
                                 mimeType videoDuration) = Return response ->
  first (first_parts response) = Some part0 ->
  functionCall part0 = Some fc ->
  name fc = Some "generateThumbnail" ->
  args fc = None ->
  exists message,
    sendFollowUpMessage history newMessage enableSearch base64VideoData mimeType
                        videoDuration = Throw (TypeError message).
Proof.
  intros Hresp H0 Hfc Hname Hargs.
  unfold sendFollowUpMessage. rewrite Hresp.
  unfold thumbnailCall_of, considered_calls. rewrite H0, Hfc.
  cbn [find]. apply ServiceProps.is_generateThumbnail_iff in Hname.
  rewrite Hname, Hargs. eexists. reflexivity.
Qed.

Lemma followup_call_without_args_witness :
  exists message,
    sendFollowUpMessage (rt := SampleHost.host)
      (ai := SampleModel.answers
               [ {| text := None; thought := None; inlineData := None;
                    functionCall := Some {| name := Some "generateThumbnail";
                                            args := None |} |} ])
      [] "生成封面" false None "video/mp4" 12%float = Throw (TypeError message).
Proof.
  exact (followup_call_without_args SampleHost.host
           (SampleModel.answers
              [ {| text := None; thought := None; inlineData := None;
                   functionCall := Some {| name := Some "generateThumbnail";
                                           args := None |} |} ])
           [] "生成封面" false None "video/mp4" 12%float _ _ _
           eq_refl eq_refl eq_refl eq_refl eq_refl).
Defined.

(** ** The history in the context prompt *)

Lemma historyText_filter (history : list Message) :
  historyText history
  = historyText
      (filter (fun h => negb (Role_eqb (Types.role h) Types.system)) history).
Proof.
  unfold historyText. f_equal. f_equal.
  induction history as [|h history IH]; simpl; [reflexivity|].
  destruct (negb (Role_eqb (Types.role h) Types.system)) eqn:E; simpl.
  - rewrite E. now f_equal.
  - exact IH.
Qed.

(** X12.  Messages of role system never reach the model: the context prompt
    is the same with and without them. *)
Theorem system_messages_left_out (rt : Runtime) (before after : list Message)
    (m : Message) (newMessage : string) (videoDuration : number) :
  Types.role m = Types.system ->
  contextPrompt (before ++ m :: after) newMessage videoDuration
  = contextPrompt (before ++ after) newMessage videoDuration.
Proof.
  intros Hm.
  assert (H : historyText (before ++ m :: after) = historyText (before ++ after)).
  { rewrite (historyText_filter (before ++ m :: after)),
            (historyText_filter (before ++ after)).
    rewrite !filter_app. simpl. now rewrite Hm. }
  unfold contextPrompt. cbv zeta. now rewrite H.
Qed.

Lemma system_messages_left_out_witness :
  let note := {| Types.id := "0"; Types.role := Types.system; Types.text := "internal";
                 Types.timestamp := 0%float; Types.isThinking := None;
                 Types.videoTitle := None; Types.thumbnailUrl := None;
                 Types.groundingSources := None |} in
  contextPrompt (rt := SampleHost.host) ([] ++ note :: []) "shorter" 12%float
  = contextPrompt (rt := SampleHost.host) ([] ++ []) "shorter" 12%float.
Proof.
  cbv zeta.
  exact (system_messages_left_out SampleHost.host [] []
           {| Types.id := "0"; Types.role := Types.system; Types.text := "internal";
              Types.timestamp := 0%float; Types.isThinking := None;
              Types.videoTitle := None; Types.thumbnailUrl := None;
              Types.groundingSources := None |}
           "shorter" 12%float eq_refl).
Defined.

End ServiceExtras.

(* ================================================================== *)
(** * Further properties of the streaming loop *)
(* ================================================================== *)

Module StreamExtras.
Import JS.
Import Spec.
Import StringFacts.
Import Types.
Import GenAI.
Import GeminiService.
Import SourceFacts.
Import StreamProps.

Lemma first_occurrences_app (l l' : list (option string)) :
  exists extra, first_occurrences (l ++ l') = (first_occurrences l ++ extra)%list.
Proof.
  induction l' as [|x l' IH] using rev_ind.
  - exists []. now rewrite !app_nil_r.
  - destruct IH as [extra IH]. rewrite app_assoc, first_occurrences_snoc, IH.
    destruct (existsb (key_eqb x) (l ++ l')).
    + now exists extra.
    + exists (extra ++ [x])%list. now rewrite app_assoc.
Qed.

Lemma collapsed_of_distinct (l : list GroundingSource) :
  NoDup (map Types.uri l) -> collapsed l = l.
Proof.
  induction l as [|s l IH] using rev_ind; [reflexivity|].
  rewrite map_app. simpl map. intros Hnd.
  rewrite collapsed_snoc.
  assert (Hnot : existsb (key_eqb (Types.uri s)) (map Types.uri l) = false).
  { destruct (existsb (key_eqb (Types.uri s)) (map Types.uri l)) eqn:E; [|reflexivity].
    apply -> existsb_key in E. apply NoDup_remove_2 in Hnd.
    rewrite app_nil_r in Hnd. contradiction. }
  rewrite Hnot, IH; [reflexivity|].
  apply NoDup_remove_1 in Hnd. now rewrite app_nil_r in Hnd.
Qed.

(** X13.  The deduplication loses nothing it need not lose: a list in which
    no uri repeats is passed on as received, deduplicating twice is
    deduplicating once, and the result is never longer than the list
    received. *)
Theorem uniqueSources_stable (received : list GroundingSource) :
     (NoDup (map Types.uri received) -> uniqueSources received = received)
  /\ uniqueSources (uniqueSources received) = uniqueSources received
  /\ List.length (uniqueSources received) <= List.length received.
Proof.
  rewrite !uniqueSources_collapsed. split; [|split].
  - apply collapsed_of_distinct.
  - apply collapsed_of_distinct, collapsed_NoDup.
  - rewrite <- (length_map Types.uri (collapsed received)), collapsed_keys.
    rewrite <- (length_map Types.uri received).
    induction (map Types.uri received) as [|k ks IH]; simpl; [lia|].
    pose proof (filter_length_le (fun k' => negb (key_eqb k k'))
                  (first_occurrences ks)).
    lia.
Qed.

Lemma uniqueSources_stable_witness :
  uniqueSources
    [ {| Types.title := Some "ATP"; Types.uri := Some "https://atp.example" |};
      {| Types.title := Some "WTA"; Types.uri := Some "https://wta.example" |} ]
  = [ {| Types.title := Some "ATP"; Types.uri := Some "https://atp.example" |};
      {| Types.title := Some "WTA"; Types.uri := Some "https://wta.example" |} ].
Proof.
  apply (proj1 (uniqueSources_stable
                  [ {| Types.title := Some "ATP"; Types.uri := Some "https://atp.example" |};
                    {| Types.title := Some "WTA"; Types.uri := Some "https://wta.example" |} ])).
  repeat constructor; simpl; intuition discriminate.
Defined.

(** X14.  What the UI is given only grows: from one call of the callback to
    the next the text is extended at its end, and the list of sources
    keeps its entries' uris in place and gets new uris at its end. *)
Theorem stream_only_grows (rt : Runtime) (ai : GoogleGenAI)
    (base64Data mimeType : string) (style : CommentaryStyle)
    (enableSearch : bool) (videoDuration : number) (stream : ResponseStream)
    (k : nat) (call next : OnStreamCall) :
  generateContentStream
    (generateVideoCommentary_request base64Data mimeType style enableSearch
                                     videoDuration) = Return stream ->
  nth_error (fst (generateVideoCommentary base64Data mimeType style enableSearch
                                          videoDuration)) k = Some call ->
  nth_error (fst (generateVideoCommentary base64Data mimeType style enableSearch
                                          videoDuration)) (S k) = Some next ->
     (exists more, fst next = fst call ++ more)
  /\ (forall sources, snd call = Some sources ->
        exists sources' added,
          snd next = Some sources'
          /\ map Types.uri sources' = (map Types.uri sources ++ added)%list).
Proof.
  intros Hstream Hcall Hnext.
  rewrite (run_streaming _ _ _ _ _ stream Hstream) in Hcall, Hnext.
  cbn [fst] in Hcall, Hnext.
  destruct (stream_loop_spec (chunks stream) EmptyString []) as (_ & Hlen & Hcalls).
  assert (Hchunk : exists chunk, nth_error (chunks stream) (S k) = Some chunk).
  { destruct (nth_error (chunks stream) (S k)) as [chunk|] eqn:E; [eauto|].
    apply nth_error_None in E. rewrite <- Hlen in E.
    apply nth_error_None in E. congruence. }
  destruct Hchunk as [chunk Hchunk].
  rewrite (Hcalls _ _ Hcall), (Hcalls _ _ Hnext). cbn [fst snd app append].
  rewrite (firstn_S_nth _ _ _ Hchunk), concat_texts_snoc, received_sources_app.
  split; [eauto|].
  intros sources Hs.
  destruct (received_sources (firstn (S k) (chunks stream))) as [|s0 r] eqn:E;
    [discriminate|].
  injection Hs as <-. cbn [app sources_argument].
  destruct (first_occurrences_app (map Types.uri (s0 :: r))
              (map Types.uri (received_sources [chunk]))) as [added Hadded].
  exists (collapsed (s0 :: r ++ received_sources [chunk])), added.
  split; [reflexivity|].
  rewrite (collapsed_keys (s0 :: r ++ received_sources [chunk])),
          (collapsed_keys (s0 :: r)).
  rewrite <- Hadded, <- map_app. reflexivity.
Qed.

Lemma stream_only_grows_witness :
  exists more,
    fst (nth 1 (fst (generateVideoCommentary (rt := SampleHost.host)
                       (ai := SampleModel.streams
                                [SampleModel.chunk_of "标题：" [];
                                 SampleModel.chunk_of "ACE!" []])
                       "AAAA" "video/mp4" EXCITED false 12%float))
              (EmptyString, None))
    = "标题：" ++ more.
Proof.
  exact (proj1 (stream_only_grows SampleHost.host
                  (SampleModel.streams
                     [SampleModel.chunk_of "标题：" []; SampleModel.chunk_of "ACE!" []])
                  "AAAA" "video/mp4" EXCITED false 12%float _ 0 _ _
                  eq_refl eq_refl eq_refl)).
Defined.

End StreamExtras.

(* ================================================================== *)
(** * Further properties of the chat wiring *)
(* ================================================================== *)

Module AppExtras.
Import JS.
Import Spec.
Import StringFacts.
Import GenAI(Exn(..), GoogleGenAI, ResponseStream, chunks, failure,
             generateContent, generateContentStream).
Import Types.
Import GeminiService.
Import App.
Import AppProps.

(** ** The duration handed to the service *)

Lemma truthy_number_not_nan (x : number) : truthy_number x = true -> is_nan x = false.
Proof.
  unfold truthy_number. intros H. apply andb_true_iff in H.
  destruct H as [H _]. now destruct (is_nan x).
Qed.

Lemma currentDuration_not_nan (page : Page) : is_nan (currentDuration page) = false.
Proof.
  unfold currentDuration.
  destruct (videoRef_current page) as [video|]; [|reflexivity].
  destruct (truthy_number (duration video)) eqn:E; [|reflexivity].
  now apply truthy_number_not_nan.
Qed.

(** X1.  Whatever the playback element reports (no element, no metadata
    yet, a zero duration), the duration the handlers hand to the service
    is a number, the character budget computed from it is at least 20,
    and it is exactly 20 when the element is missing or its duration is
    NaN or zero. *)
Theorem app_budget_at_least_20 (page : Page) :
     is_nan (currentDuration page) = false
  /\ PrimFloat.leb 20%float (budget (currentDuration page)) = true
  /\ ((videoRef_current page = None
       \/ exists video, videoRef_current page = Some video
                        /\ truthy_number (duration video) = false) ->
      budget (currentDuration page) = 20%float).
Proof.
  split; [apply currentDuration_not_nan|]. split.
  - unfold budget.
    apply JSFacts.Math_max_20_at_least, JSFacts.Math_floor_not_nan,
      JSFacts.mul_4_5_not_nan, currentDuration_not_nan.
  - unfold currentDuration. intros [->|(video & -> & ->)]; reflexivity.
Qed.

Lemma app_budget_at_least_20_witness :
  budget (currentDuration
            {| videoRef_current :=
                 Some {| duration := nan; videoWidth := 0; videoHeight := 0 |};
               canvas_getContext := true;
               canvas_toDataURL := "data:,";
               Date_now := fun _ => 0%float |})
  = 20%float.
Proof.
  apply (proj2 (proj2 (app_budget_at_least_20 _))).
  right. eexists. split; reflexivity.
Defined.

Lemma placeholder_update_frame_aux_user target u prev :
  List.length (applyUpdate target u prev) = List.length prev
  /\ map id (applyUpdate target u prev) = map id prev
  /\ (forall k msg, nth_error prev k = Some msg -> id msg <> target ->
                    nth_error (applyUpdate target u prev) k = Some msg).
Proof.
  split; [unfold applyUpdate, updateMessage; apply length_map|].
  apply placeholder_update_frame_aux.
Qed.

(** ** handleStartAnalysis *)

Section Start.
Context {rt : Runtime} {ai : GoogleGenAI}.

Lemma handleStartAnalysis_run (page : Page) (st : AppState) (base64 : string) :
  base64Data (videoState st) = Some base64 ->
  truthy_string base64 = true ->
  truthy_string (mimeType (videoState st)) = true ->
  handleStartAnalysis page st
  = let target := Number_toString (Date_now page 0) in
    let run :=
      generateVideoCommentary base64 (mimeType (videoState st)) (selectedStyle st)
                              (enableSearch st) (currentDuration page) in
    let streamedMsgs :=
      fold_left
        (fun prev (call : OnStreamCall) =>
           applyUpdate target (Streamed (fst call) (snd call)) prev)
        (fst run)
        (messages st ++ [placeholder target (Date_now page 1)])%list in
    with_messages st false true (inputText st)
      match snd run with
      | Return _ => streamedMsgs
      | Throw _ => applyUpdate target AnalysisFailed streamedMsgs
      end.
Proof.
  intros Hb Ht Hm. unfold handleStartAnalysis. rewrite Hb, Ht, Hm. cbn [negb orb].
  destruct (generateVideoCommentary base64 (mimeType (videoState st))
              (selectedStyle st) (enableSearch st) (currentDuration page))
    as [calls [fullText|error]]; reflexivity.
Qed.

(** The message an index holds after the streaming updates: the last
    update alone, applied to what was there. *)
Lemma fold_streamed_at target (calls : list OnStreamCall) :
  forall start n m,
    nth_error start n = Some m -> id m = target ->
    nth_error
      (fold_left (fun prev (call : OnStreamCall) =>
                    applyUpdate target (Streamed (fst call) (snd call)) prev)
                 calls start) n
    = Some match rev calls with
           | [] => m
           | call :: _ => streamed (fst call) (snd call) m
           end.
Proof.
  induction calls as [|c calls IH]; intros start n m Hn Hid; cbn [fold_left].
  - exact Hn.
  - rewrite (IH _ n (streamed (fst c) (snd c) m)).
    + simpl rev. destruct (rev calls); reflexivity.
    + unfold applyUpdate. rewrite nth_error_updateMessage, Hn. simpl.
      apply String.eqb_eq in Hid. now rewrite Hid.
    + exact Hid.
Qed.

Lemma fold_streamed_ids target (calls : list OnStreamCall) : forall start,
  map id (fold_left (fun prev (call : OnStreamCall) =>
                       applyUpdate target (Streamed (fst call) (snd call)) prev)
                    calls start)
  = map id start.
Proof.
  induction calls as [|c calls IH]; intros start; cbn [fold_left]; [reflexivity|].
  now rewrite IH, applyUpdate_ids.
Qed.

Lemma nth_error_snoc {A : Type} (l : list A) (x : A) :
  nth_error (l ++ [x]) (List.length l) = Some x.
Proof. rewrite nth_error_app2, Nat.sub_diag by lia. reflexivity. Qed.

Lemma last_split {A : Type} (l : list A) : forall n x,
  List.length l = S n -> nth_error l n = Some x -> exists front, l = (front ++ [x])%list.
Proof.
  induction l as [|a l IH]; intros n x Hlen Hn; [discriminate|].
  destruct n as [|n].
  - destruct l; [|discriminate]. injection Hn as <-. now exists [].
  - simpl in Hlen, Hn. injection Hlen as Hlen.
    destruct (IH n x Hlen Hn) as [front ->]. now exists (a :: front).
Qed.

End Start.

(** X2.  handleStartAnalysis starts an analysis exactly when the selected
    video has a non-empty base64 encoding and a non-empty MIME type:
    otherwise it leaves the state as it is, and when it does start it
    appends exactly one message and ends with isProcessing false and
    hasStartedAnalysis true. *)
Theorem start_analysis_guard (rt : Runtime) (ai : GoogleGenAI) (page : Page)
    (st : AppState) :
  let st' := handleStartAnalysis page st in
     (st' = st <->
      truthy_ostring (base64Data (videoState st)) = false
      \/ truthy_string (mimeType (videoState st)) = false)
  /\ (st' <> st ->
      map id (messages st')
      = (map id (messages st) ++ [Number_toString (Date_now page 0)])%list
      /\ isProcessing st' = false /\ hasStartedAnalysis st' = true
      /\ videoState st' = videoState st /\ inputText st' = inputText st).
Proof.
  cbv zeta.
  destruct (base64Data (videoState st)) as [base64|] eqn:Hb.
  2:{ unfold handleStartAnalysis. rewrite Hb. split; [|congruence].
      split; auto. }
  destruct (truthy_string base64) eqn:Ht.
  2:{ unfold handleStartAnalysis. rewrite Hb, Ht. cbn [negb orb truthy_ostring].
      split; [|congruence]. rewrite Ht. split; auto. }
  destruct (truthy_string (mimeType (videoState st))) eqn:Hm.
  2:{ unfold handleStartAnalysis. rewrite Hb, Ht, Hm. cbn [negb orb].
      split; [|congruence]. split; auto. }
  rewrite (handleStartAnalysis_run page st base64 Hb Ht Hm). cbv zeta.
  set (target := Number_toString (Date_now page 0)).
  set (run := generateVideoCommentary _ _ _ _ _).
  assert (Hids :
    map id match snd run with
           | Return _ =>
               fold_left (fun prev (call : OnStreamCall) =>
                            applyUpdate target (Streamed (fst call) (snd call)) prev)
                 (fst run) (messages st ++ [placeholder target (Date_now page 1)])%list
           | Throw _ =>
               applyUpdate target AnalysisFailed
                 (fold_left (fun prev (call : OnStreamCall) =>
                               applyUpdate target (Streamed (fst call) (snd call)) prev)
                    (fst run)
                    (messages st ++ [placeholder target (Date_now page 1)])%list)
           end
    = (map id (messages st) ++ [target])%list).
  { destruct (snd run); rewrite ?applyUpdate_ids, fold_streamed_ids, map_app;
      reflexivity. }
  split.
  - split.
    + intros Hsame. apply (f_equal (fun s => List.length (map id (messages s)))) in Hsame.
      cbn [messages with_messages] in Hsame. rewrite Hids in Hsame.
      rewrite length_app in Hsame. simpl in Hsame. lia.
    + cbn [truthy_ostring]. rewrite Ht. intros [H|H]; discriminate.
  - intros _. cbn [messages with_messages isProcessing hasStartedAnalysis
                   videoState inputText].
    auto.
Qed.

Lemma start_analysis_guard_witness :
  handleStartAnalysis (rt := SampleHost.host) (ai := SampleModel.unreachable)
    (SampleModel.page_with_video "data:,")
    (handleVideoSelected
       {| file := Some SampleModel.clip; previewUrl := Some "blob:1";
          base64Data := Some EmptyString; mimeType := "video/mp4" |}
       initialState)
  = handleVideoSelected
      {| file := Some SampleModel.clip; previewUrl := Some "blob:1";
         base64Data := Some EmptyString; mimeType := "video/mp4" |}
      initialState.
Proof.
  apply (proj1 (start_analysis_guard SampleHost.host SampleModel.unreachable
                  (SampleModel.page_with_video "data:,") _)).
  left. reflexivity.
Defined.

(** The message of the request after handleStartAnalysis: the
    placeholder, rewritten by the last streaming update if there was
    one, and by the error update if the service rejected. *)
Lemma start_final_message {rt : Runtime} {ai : GoogleGenAI} (page : Page)
    (st : AppState) (base64 : string) :
  base64Data (videoState st) = Some base64 ->
  truthy_string base64 = true ->
  truthy_string (mimeType (videoState st)) = true ->
  let target := Number_toString (Date_now page 0) in
  let run :=
    generateVideoCommentary base64 (mimeType (videoState st)) (selectedStyle st)
                            (enableSearch st) (currentDuration page) in
  let streamedMsg :=
    match rev (fst run) with
    | [] => placeholder target (Date_now page 1)
    | call :: _ => streamed (fst call) (snd call) (placeholder target (Date_now page 1))
    end in
  nth_error (messages (handleStartAnalysis page st)) (List.length (messages st))
  = Some match snd run with
         | Return _ => streamedMsg
         | Throw _ => failed analysisErrorText streamedMsg
         end.
Proof.
  intros Hb Ht Hm. cbv zeta.
  rewrite (handleStartAnalysis_run page st base64 Hb Ht Hm). cbv zeta.
  cbn [messages with_messages].
  set (target := Number_toString (Date_now page 0)).
  set (run := generateVideoCommentary _ _ _ _ _).
  pose proof (fold_streamed_at target (fst run)
                (messages st ++ [placeholder target (Date_now page 1)])%list
                (List.length (messages st)) (placeholder target (Date_now page 1))
                (nth_error_snoc _ _) eq_refl) as Hfold.
  destruct (snd run) as [fullText|error]; [exact Hfold|].
  unfold applyUpdate at 1. rewrite nth_error_updateMessage, Hfold. simpl option_map.
  assert (Hid : id match rev (fst run) with
                   | [] => placeholder target (Date_now page 1)
                   | call :: _ =>
                       streamed (fst call) (snd call)
                                (placeholder target (Date_now page 1))
                   end = target) by (destruct (rev (fst run)); reflexivity).
  rewrite Hid, String.eqb_refl. reflexivity.
Qed.

(** X3.  When the stream yields at least one chunk and ends normally, the
    message of the request ends up with the concatenation of all chunk
    texts, not thinking any more, and with the collapsed sources of the
    whole stream (undefined when there are none). *)
Theorem start_analysis_success (rt : Runtime) (ai : GoogleGenAI) (page : Page)
    (st : AppState) (base64 : string) (stream : ResponseStream)
    (front : list GenAI.GenerateContentResponse)
    (chunk : GenAI.GenerateContentResponse) :
  base64Data (videoState st) = Some base64 ->
  base64 <> EmptyString ->
  mimeType (videoState st) <> EmptyString ->
  generateContentStream
    (generateVideoCommentary_request base64 (mimeType (videoState st))
       (selectedStyle st) (enableSearch st) (currentDuration page)) = Return stream ->
  failure stream = None ->
  chunks stream = (front ++ [chunk])%list ->
  nth_error (messages (handleStartAnalysis page st)) (List.length (messages st))
  = Some {| id := Number_toString (Date_now page 0);
            role := model;
            text := concat_texts (chunks stream);
            timestamp := Date_now page 1;
            isThinking := Some false;
            videoTitle := None;
            thumbnailUrl := None;
            groundingSources := sources_argument (received_sources (chunks stream)) |}.
Proof.
  intros Hb Hne Hm Hstream Hfail Hchunks.
  apply ServiceProps.truthy_string_iff in Hne, Hm.
  rewrite (start_final_message page st base64 Hb Hne Hm). cbv zeta.
  rewrite (StreamProps.run_streaming _ _ _ _ _ stream Hstream), Hfail.
  cbn [fst snd].
  destruct (StreamProps.stream_loop_spec (chunks stream) EmptyString [])
    as (_ & Hlen & Hcalls).
  assert (Hlast : exists call,
             nth_error (fst (stream_loop (chunks stream) EmptyString []))
                       (List.length front) = Some call).
  { destruct (nth_error (fst (stream_loop (chunks stream) EmptyString []))
                        (List.length front)) as [call|] eqn:E; [eauto|].
    apply nth_error_None in E. rewrite Hlen, Hchunks, length_app in E.
    simpl in E. lia. }
  destruct Hlast as [call Hcall].
  destruct (last_split (fst (stream_loop (chunks stream) EmptyString []))
              (List.length front) call) as [pre Hpre]; [|exact Hcall|].
  { rewrite Hlen, Hchunks, length_app. simpl. lia. }
  rewrite Hpre, rev_app_distr. cbn [rev app].
  rewrite (Hcalls _ _ Hcall). cbn [fst snd app append].
  replace (firstn (S (List.length front)) (chunks stream)) with (chunks stream).
  - reflexivity.
  - rewrite Hchunks. symmetry. apply firstn_all2. rewrite length_app. simpl. lia.
Qed.

Lemma start_analysis_success_witness :
  option_map text
    (nth_error
       (messages
          (handleStartAnalysis (rt := SampleHost.host)
             (ai := SampleModel.streams
                      [SampleModel.chunk_of "标题：" []; SampleModel.chunk_of "ACE!" []])
             (SampleModel.page_with_video "data:,")
             (handleVideoSelected
                {| file := Some SampleModel.clip; previewUrl := Some "blob:1";
                   base64Data := Some "AAAA"; mimeType := "video/mp4" |}
                initialState)))
       0)
  = Some "标题：ACE!".
Proof.
  exact (f_equal (option_map text) (start_analysis_success SampleHost.host
             (SampleModel.streams
                [SampleModel.chunk_of "标题：" []; SampleModel.chunk_of "ACE!" []])
             (SampleModel.page_with_video "data:,")
             (handleVideoSelected
                {| file := Some SampleModel.clip; previewUrl := Some "blob:1";
                   base64Data := Some "AAAA"; mimeType := "video/mp4" |}
                initialState)
             "AAAA"
             {| chunks := [SampleModel.chunk_of "标题：" []; SampleModel.chunk_of "ACE!" []];
                failure := None |}
             [SampleModel.chunk_of "标题：" []] (SampleModel.chunk_of "ACE!" [])
             eq_refl ltac:(discriminate) ltac:(discriminate) eq_refl eq_refl eq_refl)).
Defined.

(** X4.  When the stream ends normally without having yielded a chunk, no
    update is applied at all: the placeholder stays as it was appended,
    empty and still thinking. *)
Theorem start_analysis_empty_stream (rt : Runtime) (ai : GoogleGenAI) (page : Page)
    (st : AppState) (base64 : string) (stream : ResponseStream) :
  base64Data (videoState st) = Some base64 ->
  base64 <> EmptyString ->
  mimeType (videoState st) <> EmptyString ->
  generateContentStream
    (generateVideoCommentary_request base64 (mimeType (videoState st))
       (selectedStyle st) (enableSearch st) (currentDuration page)) = Return stream ->
  failure stream = None ->
  chunks stream = [] ->
  messages (handleStartAnalysis page st)
  = (messages st
     ++ [ {| id := Number_toString (Date_now page 0); role := model;
             text := EmptyString; timestamp := Date_now page 1;
             isThinking := Some true; videoTitle := None; thumbnailUrl := None;
             groundingSources := None |} ])%list.
Proof.
  intros Hb Hne Hm Hstream Hfail Hchunks.
  apply ServiceProps.truthy_string_iff in Hne, Hm.
  rewrite (handleStartAnalysis_run page st base64 Hb Hne Hm). cbv zeta.
  rewrite (StreamProps.run_streaming _ _ _ _ _ stream Hstream), Hfail, Hchunks.
  reflexivity.
Qed.

Lemma start_analysis_empty_stream_witness :
  List.length
    (messages
       (handleStartAnalysis (rt := SampleHost.host) (ai := SampleModel.streams [])
          (SampleModel.page_with_video "data:,")
          (handleVideoSelected
             {| file := Some SampleModel.clip; previewUrl := Some "blob:1";
                base64Data := Some "AAAA"; mimeType := "video/mp4" |}
             initialState)))
  = 1.
Proof.
  exact (f_equal (@List.length Message) (start_analysis_empty_stream SampleHost.host (SampleModel.streams [])
             (SampleModel.page_with_video "data:,")
             (handleVideoSelected
                {| file := Some SampleModel.clip; previewUrl := Some "blob:1";
                   base64Data := Some "AAAA"; mimeType := "video/mp4" |}
                initialState)
             "AAAA" {| chunks := []; failure := None |}
             eq_refl ltac:(discriminate) ltac:(discriminate) eq_refl eq_refl eq_refl)).
Defined.

(** X5.  When the service rejects, be it that the call fails or that the
    stream breaks after some chunks, the message of the request shows
    the apology and is not thinking any more; it keeps its id, its role
    and its timestamp. *)
Theorem start_analysis_failure (rt : Runtime) (ai : GoogleGenAI) (page : Page)
    (st : AppState) (base64 : string) (error : Exn) :
  base64Data (videoState st) = Some base64 ->
  base64 <> EmptyString ->
  mimeType (videoState st) <> EmptyString ->
  snd (generateVideoCommentary base64 (mimeType (videoState st)) (selectedStyle st)
         (enableSearch st) (currentDuration page)) = Throw error ->
  exists msg,
    nth_error (messages (handleStartAnalysis page st)) (List.length (messages st))
    = Some msg
    /\ text msg = "抱歉，分析视频时遇到了错误，请重试。"
    /\ isThinking msg = Some false
    /\ id msg = Number_toString (Date_now page 0)
    /\ role msg = model
    /\ timestamp msg = Date_now page 1
    /\ thumbnailUrl msg = None.
Proof.
  intros Hb Hne Hm Hthrow.
  apply ServiceProps.truthy_string_iff in Hne, Hm.
  rewrite (start_final_message page st base64 Hb Hne Hm). cbv zeta.
  rewrite Hthrow. eexists. split; [reflexivity|].
  destruct (rev (fst (generateVideoCommentary base64 (mimeType (videoState st))
                        (selectedStyle st) (enableSearch st) (currentDuration page))));
    repeat split.
Qed.

Lemma start_analysis_failure_witness :
  exists msg,
    nth_error
      (messages
         (handleStartAnalysis (rt := SampleHost.host) (ai := SampleModel.unreachable)
            (SampleModel.page_with_video "data:,")
            (handleVideoSelected
               {| file := Some SampleModel.clip; previewUrl := Some "blob:1";
                  base64Data := Some "AAAA"; mimeType := "video/mp4" |}
               initialState)))
      0 = Some msg
    /\ text msg = "抱歉，分析视频时遇到了错误，请重试。".
Proof.
  destruct (start_analysis_failure SampleHost.host SampleModel.unreachable
              (SampleModel.page_with_video "data:,")
              (handleVideoSelected
                 {| file := Some SampleModel.clip; previewUrl := Some "blob:1";
                    base64Data := Some "AAAA"; mimeType := "video/mp4" |}
                 initialState)
              "AAAA" (Error "network")
              eq_refl ltac:(discriminate) ltac:(discriminate) eq_refl)
    as (msg & Hmsg & Htext & _).
  exists msg. split; [exact Hmsg | exact Htext].
Defined.

(** ** handleSendMessage *)

(** The message the user sends, as handleSendMessage appends it. *)
Lemma handleSendMessage_run {rt : Runtime} {ai : GoogleGenAI} (page : Page)
    (st : AppState) :
  truthy_string (trim (inputText st)) = true ->
  isProcessing st = false ->
  handleSendMessage page st
  = let userMsg := {|
      id := Number_toString (Date_now page 0); role := user; text := inputText st;
      timestamp := Date_now page 1; isThinking := None; videoTitle := None;
      thumbnailUrl := None; groundingSources := None |} in
    let botMsgId := Number_toString (PrimFloat.add (Date_now page 2) 1%float) in
    let msgs :=
      ((messages st ++ [userMsg]) ++ [placeholder botMsgId (Date_now page 3)])%list in
    match sendFollowUpMessage (messages st) (inputText st) (enableSearch st)
            (base64Data (videoState st)) (mimeType (videoState st))
            (currentDuration page) with
    | Return response =>
        (with_messages st false (hasStartedAnalysis st) EmptyString
           (applyUpdate botMsgId
              (Replied (snd (fst (thumbnailStep page response)))
                       (result_groundingSources response)
                       (fst (fst (thumbnailStep page response))))
              msgs),
         snd (thumbnailStep page response))
    | Throw _ =>
        (with_messages st false (hasStartedAnalysis st) EmptyString
           (applyUpdate botMsgId ChatFailed msgs),
         [])
    end.
Proof.
  intros Ht Hp. unfold handleSendMessage. rewrite Ht, Hp. cbn [negb orb text].
  cbv zeta.
  destruct (sendFollowUpMessage (messages st) (inputText st) (enableSearch st)
              (base64Data (videoState st)) (mimeType (videoState st))
              (currentDuration page)) as [response|error]; [|reflexivity].
  destruct (thumbnailStep page response) as [[url finalText] calls]. reflexivity.
Qed.

(** X6.  handleSendMessage does nothing at all when the input is blank or a
    request is in progress, and only then.  Otherwise it appends
    exactly two messages, the user's and the bot's, clears the input
    and ends with isProcessing false; the user's message stays as it
    was typed, provided the two ids taken from the clock differ. *)
Theorem send_message_guard (rt : Runtime) (ai : GoogleGenAI) (page : Page)
    (st : AppState) :
  let st' := fst (handleSendMessage page st) in
  let userId := Number_toString (Date_now page 0) in
  let botId := Number_toString (PrimFloat.add (Date_now page 2) 1%float) in
     (handleSendMessage page st = (st, []) <->
      truthy_string (trim (inputText st)) = false \/ isProcessing st = true)
  /\ (handleSendMessage page st <> (st, []) ->
         map id (messages st') = (map id (messages st) ++ [userId; botId])%list
      /\ isProcessing st' = false
      /\ inputText st' = EmptyString
      /\ hasStartedAnalysis st' = hasStartedAnalysis st
      /\ videoState st' = videoState st
      /\ (userId <> botId ->
          nth_error (messages st') (List.length (messages st))
          = Some {| id := userId; role := user; text := inputText st;
                    timestamp := Date_now page 1; isThinking := None;
                    videoTitle := None; thumbnailUrl := None;
                    groundingSources := None |})).
Proof.
  cbv zeta.
  destruct (truthy_string (trim (inputText st))) eqn:Ht.
  2:{ unfold handleSendMessage. rewrite Ht. cbn [negb orb].
      split; [split; auto | congruence]. }
  destruct (isProcessing st) eqn:Hp.
  1:{ unfold handleSendMessage. rewrite Ht, Hp. cbn [negb orb].
      split; [split; auto | congruence]. }
  rewrite (handleSendMessage_run page st Ht Hp). cbv zeta.
  set (userMsg := {| id := Number_toString (Date_now page 0); role := user;
                     text := inputText st; timestamp := Date_now page 1;
                     isThinking := None; videoTitle := None; thumbnailUrl := None;
                     groundingSources := None |}).
  set (botMsgId := Number_toString (PrimFloat.add (Date_now page 2) 1%float)).
  set (msgs := ((messages st ++ [userMsg])
                ++ [placeholder botMsgId (Date_now page 3)])%list).
  assert (Hshape : forall u,
            map id (applyUpdate botMsgId u msgs)
            = (map id (messages st) ++ [id userMsg; botMsgId])%list).
  { intros u. rewrite applyUpdate_ids. unfold msgs.
    rewrite !map_app, <- app_assoc. reflexivity. }
  assert (Huser : forall u, id userMsg <> botMsgId ->
            nth_error (applyUpdate botMsgId u msgs) (List.length (messages st))
            = Some userMsg).
  { intros u Hne.
    apply (proj2 (proj2 (placeholder_update_frame_aux_user botMsgId u msgs))).
    - unfold msgs. rewrite nth_error_app1 by (rewrite length_app; simpl; lia).
      apply nth_error_snoc.
    - exact Hne. }
  destruct (sendFollowUpMessage (messages st) (inputText st) (enableSearch st)
              (base64Data (videoState st)) (mimeType (videoState st))
              (currentDuration page)) as [response|error];
    cbn [fst snd messages with_messages isProcessing inputText hasStartedAnalysis
         videoState].
  - split.
    + split; [|intros [H|H]; discriminate].
      intros Hsame. injection Hsame as Hsame _.
      apply (f_equal (fun s => List.length (map id (messages s)))) in Hsame.
      cbn [messages with_messages] in Hsame. rewrite Hshape, length_app in Hsame.
      simpl in Hsame. lia.
    + intros _. rewrite Hshape. repeat split; auto.
  - split.
    + split; [|intros [H|H]; discriminate].
      intros Hsame. injection Hsame as Hsame.
      apply (f_equal (fun s => List.length (map id (messages s)))) in Hsame.
      cbn [messages with_messages] in Hsame. rewrite Hshape, length_app in Hsame.
      simpl in Hsame. lia.
    + intros _. rewrite Hshape. repeat split; auto.
Qed.

Lemma send_message_guard_witness :
  handleSendMessage (rt := SampleHost.host) (ai := SampleModel.unreachable)
    (SampleModel.page_with_video "data:,")
    (with_messages initialState false true "   " [])
  = (with_messages initialState false true "   " [], []).
Proof.
  apply (proj1 (send_message_guard SampleHost.host SampleModel.unreachable
                  (SampleModel.page_with_video "data:,")
                  (with_messages initialState false true "   " []))).
  left. reflexivity.
Defined.

(** X7.  When sendFollowUpMessage rejects (the call failed, or a tool call
    came without arguments), no image is generated and the bot message
    shows the connection error, not thinking any more. *)
Theorem send_message_failure (rt : Runtime) (ai : GoogleGenAI) (page : Page)
    (st : AppState) (error : Exn) :
  truthy_string (trim (inputText st)) = true ->
  isProcessing st = false ->
  sendFollowUpMessage (messages st) (inputText st) (enableSearch st)
    (base64Data (videoState st)) (mimeType (videoState st)) (currentDuration page)
  = Throw error ->
     snd (handleSendMessage page st) = []
  /\ nth_error (messages (fst (handleSendMessage page st)))
               (List.length (messages st) + 1)
     = Some {| id := Number_toString (PrimFloat.add (Date_now page 2) 1%float);
               role := model;
               text := "连接服务时遇到问题，请检查您的网络。";
               timestamp := Date_now page 3;
               isThinking := Some false; videoTitle := None;
               thumbnailUrl := None; groundingSources := None |}.
Proof.
  intros Ht Hp Hthrow.
  rewrite (handleSendMessage_run page st Ht Hp). cbv zeta. rewrite Hthrow.
  cbn [fst snd messages with_messages]. split; [reflexivity|].
  apply bot_message_updated.
Qed.

Lemma send_message_failure_witness :
  snd (handleSendMessage (rt := SampleHost.host) (ai := SampleModel.unreachable)
         (SampleModel.page_with_video "data:image/jpeg;base64,ZnJhbWU=")
         (with_messages initialState false true "生成封面" []))
  = [].
Proof.
  exact (proj1 (send_message_failure SampleHost.host SampleModel.unreachable
                  (SampleModel.page_with_video "data:image/jpeg;base64,ZnJhbWU=")
                  (with_messages initialState false true "生成封面" [])
                  (Error "network") eq_refl eq_refl eq_refl)).
Defined.

(** X8.  When the response carries no thumbnailCall, no frame is captured
    and no image is generated: the bot message gets the text and the
    sources of the response and no thumbnail. *)
Theorem send_message_plain_reply (rt : Runtime) (ai : GoogleGenAI) (page : Page)
    (st : AppState) (response : FollowUpResult) :
  truthy_string (trim (inputText st)) = true ->
  isProcessing st = false ->
  sendFollowUpMessage (messages st) (inputText st) (enableSearch st)
    (base64Data (videoState st)) (mimeType (videoState st)) (currentDuration page)
  = Return response ->
  result_thumbnailCall response = None ->
     snd (handleSendMessage page st) = []
  /\ nth_error (messages (fst (handleSendMessage page st)))
               (List.length (messages st) + 1)
     = Some {| id := Number_toString (PrimFloat.add (Date_now page 2) 1%float);
               role := model;
               text := result_text response;
               timestamp := Date_now page 3;
               isThinking := Some false; videoTitle := None;
               thumbnailUrl := None;
               groundingSources := Some (result_groundingSources response) |}.
Proof.
  intros Ht Hp Hsend Hnone.
  rewrite (handleSendMessage_run page st Ht Hp). cbv zeta. rewrite Hsend.
  unfold thumbnailStep. rewrite Hnone.
  cbn [fst snd messages with_messages]. split; [reflexivity|].
  apply bot_message_updated.
Qed.

Lemma send_message_plain_reply_witness :
  snd (handleSendMessage (rt := SampleHost.host)
         (ai := SampleModel.answers [GenAI.textPart "好的，已缩短。"])
         (SampleModel.page_with_video "data:image/jpeg;base64,ZnJhbWU=")
         (with_messages initialState false true "短一点" []))
  = [].
Proof.
  refine (proj1 (send_message_plain_reply SampleHost.host
                   (SampleModel.answers [GenAI.textPart "好的，已缩短。"])
                   (SampleModel.page_with_video "data:image/jpeg;base64,ZnJhbWU=")
                   (with_messages initialState false true "短一点" [])
                   {| result_text := "好的，已缩短。"; result_groundingSources := [];
                      result_thumbnailCall := None |}
                   eq_refl eq_refl _ eq_refl)).
  vm_compute. reflexivity.
Defined.

End AppExtras.

(* ================================================================== *)
(** * Further properties of the components *)
(* ================================================================== *)

Module UiExtras.
Import JS.
Import Spec.
Import StringFacts.
Import GenAI(Exn(..)).
Import Types.

(** ** The uploader *)

(** X15.  The loading flag is balanced and the state is handed over at most
    once: a rejected file never touches the flag; a file that passes
    the validation raises the flag first and lowers it last, whether
    the read succeeds or fails.  A file that is not a video gets the
    type alert whatever its size, and of several files only the first
    is processed. *)
Theorem processFile_loading_balanced (reader : File -> Result Exn string)
    (createObjectURL : File -> string) (file : File) :
  let effects := VideoUploader.processFile reader createObjectURL file in
     (valid file = false ->
      forall value, ~ In (VideoUploader.setIsLoading value) effects)
  /\ (valid file = true ->
      exists between,
        effects = (VideoUploader.setIsLoading true :: between
                   ++ [VideoUploader.setIsLoading false])%list
        /\ forall value, ~ In (VideoUploader.setIsLoading value) between)
  /\ (forall state,
        In (VideoUploader.onVideoSelected state) effects ->
        effects = [VideoUploader.setIsLoading true;
                   VideoUploader.onVideoSelected state;
                   VideoUploader.setIsLoading false])
  /\ (startsWith (file_type file) "video/" = false ->
      effects = [VideoUploader.alert "请上传有效的视频文件。"])
  /\ (forall others,
        VideoUploader.handleFiles reader createObjectURL (Some (file :: others))
        = effects)
  /\ VideoUploader.handleFiles reader createObjectURL (Some []) = []
  /\ VideoUploader.handleFiles reader createObjectURL None = [].
Proof.
  cbv zeta. rewrite UploaderProps.processFile_cases.
  split; [|split; [|split; [|split; [|split; [|split]]]]].
  - intros -> value.
    destruct (startsWith (file_type file) "video/"); intros [H|[]]; discriminate.
  - intros ->. destruct (reader file) as [dataUrl|e].
    + eexists [_]. split; [reflexivity|]. intros value [H|[]]. discriminate.
    + eexists [_; _]. split; [reflexivity|].
      intros value [H|[H|[]]]; discriminate.
  - intros state H.
    destruct (valid file).
    + destruct (reader file) as [dataUrl|e].
      * destruct H as [H|[H|[H|[]]]]; try discriminate.
        injection H as <-. reflexivity.
      * destruct H as [H|[H|[H|[H|[]]]]]; discriminate.
    + destruct (startsWith (file_type file) "video/");
        destruct H as [H|[]]; discriminate.
  - intros Htype. unfold valid. rewrite Htype. reflexivity.
  - intros others. cbn [VideoUploader.handleFiles first].
    apply UploaderProps.processFile_cases.
  - reflexivity.
  - reflexivity.
Qed.

Lemma processFile_loading_balanced_witness :
  exists between,
    VideoUploader.processFile SampleModel.unreadable SampleModel.objectURL
                              SampleModel.clip
    = (VideoUploader.setIsLoading true :: between
       ++ [VideoUploader.setIsLoading false])%list
    /\ forall value, ~ In (VideoUploader.setIsLoading value) between.
Proof.
  exact (proj1 (proj2 (processFile_loading_balanced SampleModel.unreadable
                         SampleModel.objectURL SampleModel.clip))
           eq_refl).
Defined.

(** X16.  fileToGenerativePart passes a read error on, resolves to undefined
    when the reader's result holds no comma, and otherwise to what lies
    between the first comma and the next: the base64 payload of a data
    URL, the empty string for an empty file. *)
Theorem fileToGenerativePart_cases (reader : File -> Result Exn string)
    (file : File) :
     (forall e, reader file = Throw e ->
        GeminiService.fileToGenerativePart reader file = Throw e)
  /\ (forall result, reader file = Return result -> has_char "," result = false ->
        GeminiService.fileToGenerativePart reader file = Return None)
  /\ (forall head payload,
        reader file = Return (head ++ "," ++ payload) ->
        has_char "," head = false -> has_char "," payload = false ->
        GeminiService.fileToGenerativePart reader file = Return (Some payload))
  /\ (forall head payload more,
        reader file = Return (head ++ "," ++ payload ++ "," ++ more) ->
        has_char "," head = false -> has_char "," payload = false ->
        GeminiService.fileToGenerativePart reader file = Return (Some payload)).
Proof.
  unfold GeminiService.fileToGenerativePart.
  split; [|split; [|split]].
  - intros e ->. reflexivity.
  - intros result -> Hno. f_equal. unfold split.
    destruct (String.length result) as [|n] eqn:E; [reflexivity|].
    simpl. now rewrite (split_at_none "," result Hno).
  - intros head payload -> Hh Hp. f_equal.
    apply (split_second "," head payload Hh Hp).
  - intros head payload more -> Hh Hp. f_equal. unfold split.
    destruct (String.length (head ++ "," ++ payload ++ "," ++ more)) as [|n] eqn:E.
    + destruct head; discriminate.
    + simpl split_fuel.
      change (head ++ "," ++ payload ++ "," ++ more)
        with (head ++ String "," (payload ++ String "," more)).
      rewrite (split_at_first "," _ head Hh).
      destruct n as [|n].
      * exfalso.
        change (head ++ "," ++ payload ++ "," ++ more)
          with (head ++ String "," (payload ++ String "," more)) in E.
        clear -E. induction head as [|c head IH]; simpl in E.
        -- destruct payload; discriminate.
        -- injection E as E. destruct head; simpl in E; discriminate.
      * simpl split_fuel. rewrite (split_at_first "," more payload Hp).
        reflexivity.
Qed.

Lemma fileToGenerativePart_cases_witness :
  GeminiService.fileToGenerativePart (SampleModel.readable EmptyString)
                                     SampleModel.clip
  = Return (Some EmptyString).
Proof.
  exact (proj1 (proj2 (proj2 (fileToGenerativePart_cases
                                (SampleModel.readable EmptyString) SampleModel.clip)))
           "data:video/mp4;base64" EmptyString eq_refl eq_refl eq_refl).
Defined.

(** ** The style selector *)

(** X17.  Whatever style is selected, exactly one button is highlighted, the
    one of that style; and the style a button hands to onStyleSelect is
    the one that highlights this very button. *)
Theorem selector_single_selection (selectedStyle : CommentaryStyle) :
     List.length (filter (fun b => fst (fst b)) (StyleSelector.buttons selectedStyle))
     = 1
  /\ Forall (fun b => fst (fst b) = true <-> snd b = selectedStyle)
            (StyleSelector.buttons selectedStyle)
  /\ Forall (fun style =>
               StyleSelector.isSelected (StyleSelector.id style) style = true)
            StyleSelector.styles.
Proof.
  split; [|split].
  - destruct selectedStyle; reflexivity.
  - destruct selectedStyle; repeat constructor; simpl; intros H; congruence.
  - repeat constructor.
Qed.

(** ** captureCurrentFrame *)

(** X18.  No frame without a playback element or without a 2d context;
    otherwise the frame is the payload of the canvas's data URL, which is
    the empty string for the data URL of an empty canvas. *)
Theorem captureCurrentFrame_cases (page : App.Page) :
     (App.videoRef_current page = None \/ App.canvas_getContext page = false ->
      App.captureCurrentFrame page = None)
  /\ (forall video head payload,
        App.videoRef_current page = Some video ->
        App.canvas_getContext page = true ->
        App.canvas_toDataURL page = head ++ "," ++ payload ->
        has_char "," head = false -> has_char "," payload = false ->
        App.captureCurrentFrame page = Some payload).
Proof.
  unfold App.captureCurrentFrame. split.
  - intros [->| ->]; [reflexivity|].
    destruct (App.videoRef_current page); reflexivity.
  - intros video head payload -> -> -> Hh Hp. simpl negb. cbv iota.
    apply (split_second "," head payload Hh Hp).
Qed.

Lemma captureCurrentFrame_cases_witness :
  App.captureCurrentFrame (SampleModel.page_with_video "data:,") = Some EmptyString.
Proof.
  exact (proj2 (captureCurrentFrame_cases (SampleModel.page_with_video "data:,"))
           _ "data:" EmptyString eq_refl eq_refl eq_refl eq_refl eq_refl).
Defined.

(** ** The title of a chat message *)

Lemma strip_prefix_append (p x : string) :
  ChatMessage.strip_prefix p (p ++ x) = Some x.
Proof.
  induction p as [|a p IH]; simpl; [now destruct x|].
  now rewrite Ascii.eqb_refl.
Qed.

Lemma strip_prefix_some (p : string) : forall s x,
  ChatMessage.strip_prefix p s = Some x -> s = p ++ x.
Proof.
  induction p as [|a p IH]; intros s x H.
  - destruct s; simpl in H; injection H as <-; reflexivity.
  - destruct s as [|b s]; simpl in H; [discriminate|].
    destruct (Ascii.eqb a b) eqn:E; [|discriminate].
    apply Ascii.eqb_eq in E. subst b. simpl. f_equal. now apply IH.
Qed.

Lemma prefix_append_more (p : string) : forall s rest,
  prefix p s = true -> prefix p (s ++ rest) = true.
Proof.
  intros s rest H. destruct (prefix_elim _ _ H) as [more ->].
  rewrite append_assoc. apply prefix_append.
Qed.

Lemma at_line_terminator_append (s rest : string) :
  ChatMessage.at_line_terminator s = true ->
  ChatMessage.at_line_terminator (s ++ rest) = true.
Proof.
  destruct s as [|c s]; [discriminate|].
  change (String c s ++ rest) with (String c (s ++ rest)).
  unfold ChatMessage.at_line_terminator.
  intros H. apply orb_true_iff in H. destruct H as [H|H].
  - apply orb_true_iff in H. destruct H as [H|H].
    + now rewrite H.
    + change (String c (s ++ rest)) with (String c s ++ rest).
      rewrite (prefix_append_more _ _ rest H). now rewrite orb_true_r.
  - change (String c (s ++ rest)) with (String c s ++ rest).
    rewrite (prefix_append_more _ _ rest H). now rewrite orb_true_r.
Qed.

Lemma dot_run_sound : forall s run rest,
  ChatMessage.dot_run s = (run, rest) ->
  s = run ++ rest /\ single_line run = true
  /\ (rest = EmptyString \/ ChatMessage.at_line_terminator rest = true).
Proof.
  induction s as [|c s IH]; intros run rest H.
  - injection H as <- <-. auto.
  - cbn [ChatMessage.dot_run] in H.
    destruct (ChatMessage.at_line_terminator (String c s)) eqn:E.
    + injection H as <- <-. auto.
    + destruct (ChatMessage.dot_run s) as [r0 rest0].
      injection H as <- <-.
      destruct (IH r0 rest0 eq_refl) as (Hs & Hline & Hrest).
      split; [simpl; now f_equal|]. split; [|exact Hrest].
      cbn [single_line]. rewrite Hline, andb_true_r.
      destruct (ChatMessage.at_line_terminator (String c r0)) eqn:E0; [|reflexivity].
      apply (at_line_terminator_append _ rest0) in E0.
      simpl append in E0. rewrite <- Hs in E0. congruence.
Qed.

Lemma single_line_no_LF (t : string) :
  single_line t = true -> has_char ChatMessage.LF t = false.
Proof.
  induction t as [|c t IH]; [reflexivity|].
  cbn [single_line has_char]. intros H. apply andb_true_iff in H.
  destruct H as [H Ht]. rewrite (IH Ht), orb_false_r.
  unfold ChatMessage.at_line_terminator in H.
  destruct (Ascii.eqb c ChatMessage.LF); [discriminate | reflexivity].
Qed.

Lemma match_title_unfold (s : string) :
  ChatMessage.match_title s
  = match s with
    | EmptyString => None
    | String _ s' =>
        match ChatMessage.strip_prefix ChatMessage.titleMarker s with
        | Some after =>
            let '(run, rest) := ChatMessage.dot_run after in
            match rest with
            | EmptyString => Some run
            | String c _ =>
                if Ascii.eqb c ChatMessage.LF then Some run
                else ChatMessage.match_title s'
            end
        | None => ChatMessage.match_title s'
        end
    end.
Proof. destruct s; reflexivity. Qed.

(** X19.  The title the regular expression captures fits on one line (it
    holds no line feed), it stands in the text right behind a title
    marker, and what follows it there is a line feed or the end of the
    text. *)
Theorem title_capture_sound (s captured : string) :
  ChatMessage.match_title s = Some captured ->
     single_line captured = true
  /\ has_char ChatMessage.LF captured = false
  /\ exists before rest,
       s = before ++ ChatMessage.titleMarker ++ captured ++ rest
       /\ (rest = EmptyString \/ exists more, rest = String ChatMessage.LF more).
Proof.
  revert captured.
  induction s as [|c s IH]; intros captured H; [discriminate|].
  rewrite match_title_unfold in H.
  assert (Hlater : ChatMessage.match_title s = Some captured ->
            single_line captured = true
            /\ has_char ChatMessage.LF captured = false
            /\ exists before rest,
                 String c s = before ++ ChatMessage.titleMarker ++ captured ++ rest
                 /\ (rest = EmptyString
                     \/ exists more, rest = String ChatMessage.LF more)).
  { intros Hs. destruct (IH captured Hs) as (H1 & H2 & before & rest & -> & H3).
    split; [exact H1|]. split; [exact H2|].
    exists (String c before), rest. split; [reflexivity | exact H3]. }
  destruct (ChatMessage.strip_prefix ChatMessage.titleMarker (String c s))
    as [after|] eqn:Estrip; [|exact (Hlater H)].
  apply strip_prefix_some in Estrip.
  destruct (ChatMessage.dot_run after) as [run rest] eqn:Erun.
  destruct (dot_run_sound _ _ _ Erun) as (Hafter & Hline & _).
  assert (Hhere : forall rest',
            rest = rest' ->
            (rest' = EmptyString \/ exists more, rest' = String ChatMessage.LF more) ->
            Some run = Some captured ->
            single_line captured = true
            /\ has_char ChatMessage.LF captured = false
            /\ exists before rest0,
                 String c s = before ++ ChatMessage.titleMarker ++ captured ++ rest0
                 /\ (rest0 = EmptyString
                     \/ exists more, rest0 = String ChatMessage.LF more)).
  { intros rest' -> Hr [= <-].
    split; [exact Hline|]. split; [now apply single_line_no_LF|].
    exists EmptyString, rest'. split; [|exact Hr].
    rewrite Estrip, Hafter. reflexivity. }
  destruct rest as [|c' rest'].
  - apply (Hhere EmptyString eq_refl); auto.
  - destruct (Ascii.eqb c' ChatMessage.LF) eqn:Ec; [|exact (Hlater H)].
    apply Ascii.eqb_eq in Ec. subst c'.
    apply (Hhere (String ChatMessage.LF rest') eq_refl); eauto.
Qed.

Lemma title_capture_sound_witness :
  has_char ChatMessage.LF "Ace on match point!" = false.
Proof.
  exact (proj1 (proj2 (title_capture_sound
                         ("好球。" ++ String ChatMessage.LF "标题：Ace on match point!"
                                 ++ String ChatMessage.LF "解说……")
                         "Ace on match point!" eq_refl))).
Defined.

(** A three-byte terminator does not arise from what follows a line. *)
Lemma prefix3_append (a b c x : ascii) (s rest : string) :
  b <> ChatMessage.LF -> c <> ChatMessage.LF ->
  (rest = EmptyString \/ exists more, rest = String ChatMessage.LF more) ->
  prefix (String a (String b (String c EmptyString))) (String x s ++ rest)
  = prefix (String a (String b (String c EmptyString))) (String x s).
Proof.
  intros Hb Hc [->|[more ->]]; [now rewrite append_nil_r|].
  simpl. destruct (ascii_dec a x); [|reflexivity].
  destruct s as [|y s]; simpl.
  - destruct (ascii_dec b ChatMessage.LF); [contradiction | reflexivity].
  - destruct (ascii_dec b y); [|reflexivity].
    destruct s as [|z s]; simpl.
    + destruct (ascii_dec c ChatMessage.LF); [contradiction | reflexivity].
    + destruct (ascii_dec c z); [|reflexivity]. now destruct s.
Qed.

Lemma dot_run_complete (t rest : string) :
  single_line t = true ->
  (rest = EmptyString \/ exists more, rest = String ChatMessage.LF more) ->
  ChatMessage.dot_run (t ++ rest) = (t, rest).
Proof.
  intros Ht Hrest. induction t as [|c t IH].
  - destruct Hrest as [->|[more ->]]; reflexivity.
  - cbn [single_line] in Ht. apply andb_true_iff in Ht. destruct Ht as [Hc Ht].
    change (String c t ++ rest) with (String c (t ++ rest)).
    cbn [ChatMessage.dot_run].
    assert (E : ChatMessage.at_line_terminator (String c (t ++ rest)) = false).
    { apply negb_true_iff in Hc. unfold ChatMessage.at_line_terminator in *.
      change (String c (t ++ rest)) with (String c t ++ rest).
      unfold ChatMessage.LS, ChatMessage.PS in *.
      rewrite !(prefix3_append _ _ _ c t rest) by (auto; discriminate).
      exact Hc. }
    rewrite E, (IH Ht). reflexivity.
Qed.

(** X20.  The title card of a message.  A model message without a title of
    its own whose text opens with the marker shows the rest of that
    first line, trimmed, whether the line is complete or the text still
    ends in it; a message of another role, a message with a title of its
    own, and a text without the marker keep the title the message
    has. *)
Theorem display_title_cases (rt : Runtime) (message : Message) :
     (forall t rest,
        role message = model ->
        truthy_ostring (videoTitle message) = false ->
        text message = ChatMessage.titleMarker ++ t ++ rest ->
        single_line t = true ->
        (rest = EmptyString \/ exists more, rest = String ChatMessage.LF more) ->
        ChatMessage.displayTitle message = Some (trim t))
  /\ (role message <> model ->
      ChatMessage.displayTitle message = videoTitle message)
  /\ (truthy_ostring (videoTitle message) = true ->
      ChatMessage.displayTitle message = videoTitle message)
  /\ (includes (text message) ChatMessage.titleMarker = false ->
      ChatMessage.displayTitle message = videoTitle message).
Proof.
  unfold ChatMessage.displayTitle. cbv zeta.
  split; [|split; [|split]].
  - intros t rest -> -> Htext Hline Hrest. rewrite Htext.
    assert (Hinc : includes (ChatMessage.titleMarker ++ t ++ rest)
                            ChatMessage.titleMarker = true).
    { exact (includes_intro EmptyString ChatMessage.titleMarker (t ++ rest)). }
    rewrite Hinc. cbn [negb andb Role_eqb].
    rewrite match_title_unfold.
    change (ChatMessage.titleMarker ++ t ++ rest)
      with (String (ascii_of_nat 230)
              (String (ascii_of_nat 160) (String (ascii_of_nat 135)
                 (String (ascii_of_nat 233) (String (ascii_of_nat 162)
                    (String (ascii_of_nat 152) (String (ascii_of_nat 239)
                       (String (ascii_of_nat 188) (String (ascii_of_nat 154)
                          (t ++ rest)))))))))) at 1.
    cbv iota.
    rewrite (strip_prefix_append ChatMessage.titleMarker (t ++ rest)).
    rewrite (dot_run_complete t rest Hline Hrest).
    destruct Hrest as [->|[more ->]]; [reflexivity|].
    now rewrite Ascii.eqb_refl.
  - intros Hrole. destruct (role message); try contradiction;
      cbn [Role_eqb]; now rewrite andb_false_r.
  - intros ->. reflexivity.
  - intros ->. now rewrite andb_false_r.
Qed.

Lemma display_title_cases_witness :
  ChatMessage.displayTitle (rt := SampleHost.host)
    (App.streamed ("标题： 教科书般的ACE " ++ String ChatMessage.LF "第一拍……") None
                  (App.placeholder "1700000000000" 0%float))
  = Some "教科书般的ACE".
Proof.
  exact (proj1 (display_title_cases SampleHost.host
                  (App.streamed ("标题： 教科书般的ACE " ++ String ChatMessage.LF "第一拍……")
                                None (App.placeholder "1700000000000" 0%float)))
           " 教科书般的ACE " (String ChatMessage.LF "第一拍……")
           eq_refl eq_refl eq_refl eq_refl (or_intror (ex_intro _ _ eq_refl))).
Defined.

End UiExtras.
